(** * satellite-image-handler: coordinate indexing and band pipeline

    A shallow embedding of the two abstract handlers of the package
    ([AbstractSentinelImageHandler], [AbstractPolymerImageHandler]) and of the
    two mask providers, with the properties of their geometric pipeline.

    Conventions.
    - A Python float is a rational ([Q]): a finite value, no NaN and no
      infinity.  The handlers are written first with exact operations on
      them; the methods whose answer depends on rounding are also written
      over an [Arithmetic], the operations the floats are computed with,
      of which [exact_arithmetic] and [binary64] are instances.  Python
      ints are [Z].
    - An exception is a value of [exn]; a method that may raise returns
      [result A].
    - A [dict] is a [gmap]; a dict whose iteration order matters
      ([BAND_NAME_MAPPING]) is an association list.
    - A numpy array of two or three axes is an [ndarray]: a list of rows. *)

From Stdlib Require Import ZArith QArith Qabs Qround Lia Lqa Bool Ascii.
From stdpp Require Import base option list gmap strings fin_maps.

Local Open Scope Z_scope.

(** ** Exceptions and fallible computations *)

Inductive exn : Type :=
| KeyError
| ValueError
| IndexError
| AttributeError
| TypeError
| OverflowError
| TransformNotInvertibleError.

Inductive result (A : Type) : Type :=
| Ok (a : A)
| Raise (e : exn).
Arguments Ok {A} a.
Arguments Raise {A} e.

#[global] Instance result_ret : MRet result := fun A a => Ok a.
#[global] Instance result_bind : MBind result := fun A B f m =>
  match m with
  | Ok a => f a
  | Raise e => Raise e
  end.

Definition is_Ok {A} (m : result A) : Prop := exists a, m = Ok a.

(** [for x in xs: s = body(s, x)] with the loop variables as the state. *)
Fixpoint for_each {S X : Type} (body : S -> X -> result S) (xs : list X) (s : S)
  : result S :=
  match xs with
  | [] => Ok s
  | x :: rest => s' ← body s x; for_each body rest s'
  end.

(** [d[k]] on a dict. *)
Definition getitem {V} (d : gmap string V) (k : string) : result V :=
  match d !! k with
  | Some v => Ok v
  | None => Raise KeyError
  end.

(** [d.pop(k)]: the value and the dict without the key. *)
Definition pop {V} (d : gmap string V) (k : string) : result (V * gmap string V) :=
  match d !! k with
  | Some v => Ok (v, delete k d)
  | None => Raise KeyError
  end.

(** Reading an attribute that is bound late (or deleted). *)
Definition getattr {A} (a : option A) : result A :=
  match a with
  | Some v => Ok v
  | None => Raise AttributeError
  end.

(** ** Numbers *)

(** [int(x)] on a float: truncation towards zero. *)
Definition int (x : Q) : Z := Z.quot (Qnum x) (Zpos (Qden x)).

(** [n] is a nearest integer of [x]: no integer is closer, whatever the
    convention for ties. *)
Definition nearest_integer (x : Q) (n : Z) : Prop :=
  (Qabs (x - inject_Z n) <= 1 # 2)%Q.

Definition Qsquare (x : Q) : Q := (x * x)%Q.

(** The four operations on floats, as the interpreter and numpy compute
    them.  Negation and comparison are exact on floats and stay those of
    [Q]. *)
Record Arithmetic : Type := mkArithmetic {
  fadd : Q -> Q -> Q;
  fsub : Q -> Q -> Q;
  fmul : Q -> Q -> Q;
  fdiv : Q -> Q -> Q
}.

(** The operations without rounding. *)
Definition exact_arithmetic : Arithmetic :=
  {| fadd := Qplus; fsub := Qminus; fmul := Qmult; fdiv := Qdiv |}.

(** ** numpy arrays of two or three axes *)

Inductive ndarray (A : Type) : Type :=
| Arr2 (rows : list (list A))
| Arr3 (rows : list (list (list A))).
Arguments Arr2 {A} rows.
Arguments Arr3 {A} rows.

Definition row_length {B} (rows : list (list B)) : nat :=
  match rows with
  | [] => 0%nat
  | r :: _ => length r
  end.

(** [a.shape]. *)
Definition shape {A} (a : ndarray A) : list nat :=
  match a with
  | Arr2 rows => [length rows; row_length rows]
  | Arr3 rows => [length rows; row_length rows; row_length (concat rows)]
  end.

(** The rows x cols extent of a band, the first two axes of its shape. *)
Definition extent {A} (a : ndarray A) : nat * nat :=
  match a with
  | Arr2 rows => (length rows, row_length rows)
  | Arr3 rows => (length rows, row_length rows)
  end.

(** Elementwise application of a unary operation. *)
Definition nd_map {A B} (f : A -> B) (a : ndarray A) : ndarray B :=
  match a with
  | Arr2 rows => Arr2 (map (map f) rows)
  | Arr3 rows => Arr3 (map (map (map f)) rows)
  end.

(** One axis index, numpy style: a negative index counts from the end, and
    an index outside [-n, n) raises. *)
Definition normalize_index (n : nat) (i : Z) : result nat :=
  if (0 <=? i) && (i <? Z.of_nat n) then Ok (Z.to_nat i)
  else if (- Z.of_nat n <=? i) && (i <? 0) then Ok (Z.to_nat (i + Z.of_nat n))
  else Raise IndexError.

(** What [a[r, c]] gives: a scalar on two axes, a vector on three. *)
Inductive item (A : Type) : Type :=
| Scalar (v : A)
| Vector (vs : list A).
Arguments Scalar {A} v.
Arguments Vector {A} vs.

Definition getitem2_rows {B} (rows : list (list B)) (r c : Z) : result B :=
  i ← normalize_index (length rows) r;
  j ← normalize_index (row_length rows) c;
  match rows !! i with
  | Some row =>
      match row !! j with
      | Some v => Ok v
      | None => Raise IndexError
      end
  | None => Raise IndexError
  end.

(** An integer used as an index is first converted to a C long
    ([npy_intp], 64 bits).  One that does not fit is read as an array
    instead: from [2^63] to [2^64 - 1] that is an unsigned 64-bit scalar,
    whose conversion raises [OverflowError]; any other integer gives an
    array of objects, which is no valid index. *)
Definition as_intp (i : Z) : result Z :=
  if (- 2 ^ 63 <=? i) && (i <? 2 ^ 63) then Ok i
  else if (2 ^ 63 <=? i) && (i <? 2 ^ 64) then Raise OverflowError
  else Raise IndexError.

(** [a[r, c]] with integers [r] and [c]: both are converted, then each is
    checked against its axis. *)
Definition getitem2 {A} (a : ndarray A) (r c : Z) : result (item A) :=
  r ← as_intp r;
  c ← as_intp c;
  match a with
  | Arr2 rows => v ← getitem2_rows rows r c; Ok (Scalar v)
  | Arr3 rows => v ← getitem2_rows rows r c; Ok (Vector v)
  end.

Abbreviation band := (ndarray Q).
Abbreviation mask := (ndarray bool).

(** ** The affine package: a 2-D affine map with six coefficients

    [Affine(a, b, c, d, e, f)] maps [(x, y)] to
    [(a*x + b*y + c, d*x + e*y + f)]. *)

Record Affine : Type := mkAffine {
  aff_a : Q; aff_b : Q; aff_c : Q;
  aff_d : Q; aff_e : Q; aff_f : Q
}.

Definition determinant (m : Affine) : Q :=
  (aff_a m * aff_e m - aff_b m * aff_d m)%Q.

(** [~m]. *)
Definition affine_invert (m : Affine) : result Affine :=
  if Qeq_bool (determinant m) 0 then Raise TransformNotInvertibleError
  else
    let idet := (1 / determinant m)%Q in
    let ra := (aff_e m * idet)%Q in
    let rb := (- aff_b m * idet)%Q in
    let rd := (- aff_d m * idet)%Q in
    let re := (aff_a m * idet)%Q in
    Ok (mkAffine ra rb (- aff_c m * ra - aff_f m * rb)
                 rd re (- aff_c m * rd - aff_f m * re)).

(** [m * (vx, vy)] and [(vx, vy) * m]. *)
Definition affine_mul (m : Affine) (v : Q * Q) : Q * Q :=
  let '(vx, vy) := v in
  (vx * aff_a m + vy * aff_b m + aff_c m,
   vx * aff_d m + vy * aff_e m + aff_f m)%Q.

(** The same three operations of the package over the operations of an
    [Arithmetic]: each product, sum and quotient of the source is one
    operation on floats. *)
Definition determinant_in (A : Arithmetic) (m : Affine) : Q :=
  fsub A (fmul A (aff_a m) (aff_e m)) (fmul A (aff_b m) (aff_d m)).

Definition affine_invert_in (A : Arithmetic) (m : Affine) : result Affine :=
  if Qeq_bool (determinant_in A m) 0 then Raise TransformNotInvertibleError
  else
    let idet := fdiv A 1 (determinant_in A m) in
    let ra := fmul A (aff_e m) idet in
    let rb := fmul A (- aff_b m) idet in
    let rd := fmul A (- aff_d m) idet in
    let re := fmul A (aff_a m) idet in
    Ok (mkAffine ra rb (fsub A (fmul A (- aff_c m) ra) (fmul A (aff_f m) rb))
                 rd re (fsub A (fmul A (- aff_c m) rd) (fmul A (aff_f m) re))).

Definition affine_mul_in (A : Arithmetic) (m : Affine) (v : Q * Q) : Q * Q :=
  let '(vx, vy) := v in
  (fadd A (fadd A (fmul A vx (aff_a m)) (fmul A vy (aff_b m))) (aff_c m),
   fadd A (fadd A (fmul A vx (aff_d m)) (fmul A vy (aff_e m))) (aff_f m)).

(** ** Transformations

    The pipeline only uses three methods of a transformation object. *)

Record Transformation : Type := mkTransformation {
  apply_transformation_to_band : band -> result band;
  apply_transformation_to_geocoordinates : Z -> Z -> result (Z * Z);
  apply_inverse_transformation_to_geocoordinate : Z -> Z -> result (Z * Z)
}.

(** Reading one cell by a full index ([i; j] or [i; j; k]), used to state
    elementwise facts. *)
Definition nd_lookup {A} (a : ndarray A) (idx : list nat) : option A :=
  match a, idx with
  | Arr2 rows, [i; j] => row ← rows !! i; row !! j
  | Arr3 rows, [i; j; k] => row ← rows !! i; px ← row !! j; px !! k
  | _, _ => None
  end.

(** The lengths of all axes below the first, row by row: two arrays can be
    combined elementwise when these agree. *)
Definition dims {A} (a : ndarray A) : list (list nat) :=
  match a with
  | Arr2 rows => map (fun row => [length row]) rows
  | Arr3 rows => map (fun row => map length row) rows
  end.

Definition same_rank {A B} (a : ndarray A) (b : ndarray B) : bool :=
  match a, b with
  | Arr2 _, Arr2 _ => true
  | Arr3 _, Arr3 _ => true
  | _, _ => false
  end.

(** A binary elementwise operation on two arrays of one shape.  numpy raises
    [ValueError] on shapes that cannot be combined; broadcasting of unequal
    shapes is not part of the model and also raises here. *)
Definition nd_zip_with {A B C} (f : A -> B -> C) (a : ndarray A) (b : ndarray B)
  : result (ndarray C) :=
  match a, b with
  | Arr2 ra, Arr2 rb =>
      if decide (dims a = dims b) then Ok (Arr2 (zip_with (zip_with f) ra rb))
      else Raise ValueError
  | Arr3 ra, Arr3 rb =>
      if decide (dims a = dims b)
      then Ok (Arr3 (zip_with (zip_with (zip_with f)) ra rb))
      else Raise ValueError
  | _, _ => Raise ValueError
  end.

(** [numpy.ones(shape, dtype=bool)] for the shapes a band has: two or three
    axes.  An array of another number of axes is outside [ndarray]. *)
Definition ones (shp : list nat) : result mask :=
  match shp with
  | [r; c] => Ok (Arr2 (replicate r (replicate c true)))
  | [r; c; k] => Ok (Arr3 (replicate r (replicate c (replicate k true))))
  | _ => Raise ValueError
  end.

(** [m[r, c] = False]. *)
Definition set_false (m : mask) (r c : Z) : result mask :=
  match m with
  | Arr2 rows =>
      i ← normalize_index (length rows) r;
      j ← normalize_index (row_length rows) c;
      Ok (Arr2 (alter (fun row => <[j := false]> row) i rows))
  | Arr3 rows =>
      i ← normalize_index (length rows) r;
      j ← normalize_index (row_length rows) c;
      Ok (Arr3 (alter (fun row => alter (map (fun _ => false)) j row) i rows))
  end.

(** [numpy.all(ms, axis=0)] on a list of boolean arrays of one shape. *)
Definition numpy_all_axis0 (ms : list mask) : result mask :=
  match ms with
  | [] => Raise TypeError
  | m :: rest => for_each (fun acc x => nd_zip_with andb acc x) rest m
  end.

(** ** utils/bridge_points_handler.py *)

Module BridgePointsHandler.

Record t : Type := mk { points_list : list (Z * Z) }.

(** [mask = numpy.ones(shape, dtype=bool)], then
    [mask[points_list[:, 0], points_list[:, 1]] = False].  A mask of fewer
    than two axes is built, but two index arrays are too many indices for
    it.  An empty [points_list] is a one-axis array, which [[:, 0]] cannot
    index. *)
Definition get_valid_points_mask (self : t) (shp : list nat) : result mask :=
  match shp with
  | [] | [_] => Raise IndexError
  | _ =>
      m ← ones shp;
      match points_list self with
      | [] => Raise IndexError
      | pts => for_each (fun m '(r, c) => set_false m r c) pts m
      end
  end.

End BridgePointsHandler.

(** ** utils/clean_water_mask_handler.py *)

Module CleanWaterMaskHandler.

Record t : Type := mk { water_mask : mask }.

(** [return ~self.water_mask]. *)
Definition get_valid_points_mask (self : t) : mask :=
  nd_map negb (water_mask self).

End CleanWaterMaskHandler.

(** ** utils/projections.py

    The two reprojections are pyproj's; the model takes them as given. *)

Class Pyproj : Type := {
  project_epsg4326_to_epsg_32620 : Q -> Q -> Q * Q;
  project_epsg_32620_to_epsg4326 : Q -> Q -> Q * Q
}.

(** ** abstract_sentinel_image_handler.py *)

Module Sentinel.

Definition BAND_NAME_MAPPING : list (string * string) :=
  [ ("blue_band", "B02");
    ("green_band", "B03");
    ("red_band", "B04");
    ("nir_band", "B08");
    ("true_color_image", "TCI");
    ("cloud_prob", "MSK_CLDPRB_20m");
    ("scene_clf", "SCL_20m") ]%string.

(** What a concrete handler class supplies: the abstract members.
    [_image_transformation_list] may read
    [self.before_transform_image_shape]; [_image_wkt_polygone_subset] may
    hand the bound method
    [self._get_row_col_index_after_transformation_from_longitide_latitude]
    to the crop it builds. *)
Record Subclass : Type := mkSubclass {
  estuary_name : string;
  _image_transformation_list : list nat -> list Transformation;
  _image_wkt_polygone_subset : (Q -> Q -> result (Z * Z)) -> Transformation
}.

(** The dict [_get_data_from_zip_file] returns: the keys of fixed type as
    fields, the band keys as a dict. *)
Record LoadedData : Type := mkLoadedData {
  ld_date : string;
  ld_cloud_coverage : Q;
  ld_crs : string;
  ld_affine_matrix : Affine;
  ld_bands : gmap string band
}.

(** The instance attributes.  [_subset_transformed_data_dict] is bound
    last in [__init__]. *)
Record t : Type := mk {
  cls : Subclass;
  zip_path : string;
  bridge_points_handler : option BridgePointsHandler.t;
  _before_transform_image_shape : list nat;
  _date : string;
  _cloud_coverage : Q;
  _crs : string;
  _affine_matrix : Affine;
  _subset_transformed_data_dict : option (gmap string band)
}.

Definition affine_matrix (self : t) : Affine := _affine_matrix self.

Definition before_transform_image_shape (self : t) : list nat :=
  _before_transform_image_shape self.

Definition band_property (name : string) (self : t) : result band :=
  d ← getattr (_subset_transformed_data_dict self);
  getitem d name.

Definition blue_band : t -> result band := band_property "blue_band".
Definition green_band : t -> result band := band_property "green_band".
Definition red_band : t -> result band := band_property "red_band".
Definition nir_band : t -> result band := band_property "nir_band".
Definition true_color_image : t -> result band :=
  band_property "true_color_image".
Definition cloud_prob : t -> result band := band_property "cloud_prob".
Definition scene_clf : t -> result band := band_property "scene_clf".

(** [return self.scene_clf == 6]. *)
Definition water_mask (self : t) : result mask :=
  clf ← scene_clf self;
  Ok (nd_map (fun v => Qeq_bool v 6) clf).

Definition image_shape (self : t) : result (list nat) :=
  b ← blue_band self;
  Ok (shape b).

Definition get_mask_from_bridge_points_handler (self : t)
  : result (option mask) :=
  match bridge_points_handler self with
  | Some bph =>
      shp ← image_shape self;
      m ← BridgePointsHandler.get_valid_points_mask bph shp;
      Ok (Some m)
  | None => Ok None
  end.

Definition index_function (self : t) (longitude latitude : Q)
  : result (Z * Z) :=
  inv_affine ← affine_invert (affine_matrix self);
  let transformed_coords := affine_mul inv_affine (longitude, latitude) in
  let row_index := int (snd transformed_coords) in
  let col_index := int (fst transformed_coords) in
  Ok (row_index, col_index).

(** [index_function] over the operations of an [Arithmetic]. *)
Definition index_function_in (A : Arithmetic) (self : t)
  (longitude latitude : Q) : result (Z * Z) :=
  inv_affine ← affine_invert_in A (affine_matrix self);
  let transformed_coords :=
    affine_mul_in A inv_affine (longitude, latitude) in
  let row_index := int (snd transformed_coords) in
  let col_index := int (fst transformed_coords) in
  Ok (row_index, col_index).

Definition inverse_index_function (self : t) (row_index col_index : Z)
  : Q * Q :=
  affine_mul (affine_matrix self) (inject_Z col_index, inject_Z row_index).

(** The body of the inner loop over the transformations of a band. *)
Definition transform_band (self : t) (b : band) : result band :=
  for_each (fun b transformation =>
              apply_transformation_to_band transformation b)
           (_image_transformation_list (cls self)
              (before_transform_image_shape self))
           b.

Definition _apply_image_transformation_list (self : t)
  (loaded_data_dict : gmap string band) : result (gmap string band) :=
  '(_, transformed_data_dict) ←
    for_each (fun '(loaded, transformed) band_name =>
                '(b, loaded') ← pop loaded band_name;
                b' ← transform_band self b;
                Ok (loaded', <[band_name := b']> transformed))
             (BAND_NAME_MAPPING.*1)
             (loaded_data_dict, ∅);
  Ok transformed_data_dict.

Definition _get_row_col_index_after_transformation_from_longitide_latitude
  `{Pyproj} (self : t) (longitude latitude : Q) : result (Z * Z) :=
  let '(projected_longitude, projected_latitute) :=
    project_epsg4326_to_epsg_32620 longitude latitude in
  idx ← index_function self projected_longitude projected_latitute;
  for_each (fun '(row_index, col_index) transformation =>
              apply_transformation_to_geocoordinates transformation
                row_index col_index)
           (_image_transformation_list (cls self)
              (before_transform_image_shape self))
           idx.

(** [self._image_wkt_polygone_subset()]: the crop object of this handler. *)
Definition image_wkt_polygone_subset `{Pyproj} (self : t) : Transformation :=
  _image_wkt_polygone_subset (cls self)
    (_get_row_col_index_after_transformation_from_longitide_latitude self).

Definition _apply_image_wkt_polygone_subset `{Pyproj} (self : t)
  (transformed_data_dict : gmap string band) : result (gmap string band) :=
  '(_, polygone_subset_data_dict) ←
    for_each (fun '(transformed, subset) band_name =>
                '(b, transformed') ← pop transformed band_name;
                b' ← apply_transformation_to_band
                       (image_wkt_polygone_subset self) b;
                Ok (transformed', <[band_name := b']> subset))
             (BAND_NAME_MAPPING.*1)
             (transformed_data_dict, ∅);
  Ok polygone_subset_data_dict.

Definition get_row_col_index_from_longitide_latitude `{Pyproj} (self : t)
  (longitude latitude : Q) : result (Z * Z) :=
  '(row_index, col_index) ←
    _get_row_col_index_after_transformation_from_longitide_latitude
      self longitude latitude;
  apply_transformation_to_geocoordinates (image_wkt_polygone_subset self)
    row_index col_index.

Definition get_longitude_latitude_from_row_col_index `{Pyproj} (self : t)
  (row_index col_index : Z) : result (Q * Q) :=
  idx ← apply_inverse_transformation_to_geocoordinate
          (image_wkt_polygone_subset self) row_index col_index;
  '(row_index, col_index) ←
    for_each (fun '(row_index, col_index) transformation =>
                apply_inverse_transformation_to_geocoordinate transformation
                  row_index col_index)
             (_image_transformation_list (cls self)
                (before_transform_image_shape self))
             idx;
  let '(projected_longitude, projected_latitute) :=
    inverse_index_function self row_index col_index in
  Ok (project_epsg_32620_to_epsg4326 projected_longitude projected_latitute).

(** The constructor, with the dict read from the zip archive (the result of
    [_get_data_from_zip_file]) as an argument. *)
Definition __init__ `{Pyproj} (c : Subclass) (zip : string)
  (bph : option BridgePointsHandler.t) (loaded_data_dict : LoadedData)
  : result t :=
  blue ← getitem (ld_bands loaded_data_dict) "blue_band";
  let self :=
    {| cls := c;
       zip_path := zip;
       bridge_points_handler := bph;
       _before_transform_image_shape := shape blue;
       _date := ld_date loaded_data_dict;
       _cloud_coverage := ld_cloud_coverage loaded_data_dict;
       _crs := ld_crs loaded_data_dict;
       _affine_matrix := ld_affine_matrix loaded_data_dict;
       _subset_transformed_data_dict := None |} in
  transformed_data_dict ←
    _apply_image_transformation_list self (ld_bands loaded_data_dict);
  subset ← _apply_image_wkt_polygone_subset self transformed_data_dict;
  Ok {| cls := c;
        zip_path := zip;
        bridge_points_handler := bph;
        _before_transform_image_shape := shape blue;
        _date := ld_date loaded_data_dict;
        _cloud_coverage := ld_cloud_coverage loaded_data_dict;
        _crs := ld_crs loaded_data_dict;
        _affine_matrix := ld_affine_matrix loaded_data_dict;
        _subset_transformed_data_dict := Some subset |}.

End Sentinel.

(** ** numpy and skimage helpers of the netCDF family *)

(** [a.min()]: raises on an array without elements. *)
Definition Qmin2 (m v : Q) : Q := if Qle_bool m v then m else v.

Definition nd_min (a : band) : result Q :=
  match a with
  | Arr2 rows =>
      match concat rows with
      | [] => Raise ValueError
      | v :: vs => Ok (foldl Qmin2 v vs)
      end
  | Arr3 rows =>
      match concat (concat rows) with
      | [] => Raise ValueError
      | v :: vs => Ok (foldl Qmin2 v vs)
      end
  end.

(** The column indices of one row at which [p] holds, counted from [c]. *)
Fixpoint where_row {B} (p : B -> bool) (row : list B) (c : nat) : list nat :=
  match row with
  | [] => []
  | v :: rest =>
      if p v then c :: where_row p rest (S c) else where_row p rest (S c)
  end.

(** [numpy.where(cond)] on two axes: the indices in row-major order (here as
    one list of pairs instead of a pair of arrays), rows counted from [r]. *)
Fixpoint where_rows {B} (p : B -> bool) (rows : list (list B)) (r : nat)
  : list (nat * nat) :=
  match rows with
  | [] => []
  | row :: rest => map (pair r) (where_row p row 0) ++ where_rows p rest (S r)
  end.

(** [x, y = numpy.where(diff == m); x = x[0]; y = y[0]].  On three axes
    [numpy.where] gives three arrays and the unpacking raises. *)
Definition first_where_equal (diff : band) (m : Q) : result (Z * Z) :=
  match diff with
  | Arr2 rows =>
      match where_rows (fun v => Qeq_bool v m) rows 0 with
      | [] => Raise IndexError
      | (x, y) :: _ => Ok (Z.of_nat x, Z.of_nat y)
      end
  | Arr3 _ => Raise ValueError
  end.

(** The nearest-grid search both Polymer index methods run on their pair of
    coordinate arrays. *)
Definition nearest_grid_index (nc_lon nc_lat : band) (longitude latitude : Q)
  : result (Z * Z) :=
  let londiff := nd_map (fun v => Qsquare (longitude - v)) nc_lon in
  let latdiff := nd_map (fun v => Qsquare (latitude - v)) nc_lat in
  diff ← nd_zip_with Qplus londiff latdiff;
  m ← nd_min diff;
  first_where_equal diff m.

(** [(longitude - lon) ** 2 + (latitude - lat) ** 2] for one cell, over the
    operations of an [Arithmetic]: the value the search compares. *)
Definition squared_distance (A : Arithmetic) (longitude latitude lo la : Q)
  : Q :=
  fadd A (fmul A (fsub A longitude lo) (fsub A longitude lo))
         (fmul A (fsub A latitude la) (fsub A latitude la)).

(** The nearest-grid search over the operations of an [Arithmetic]. *)
Definition nearest_grid_index_in (A : Arithmetic) (nc_lon nc_lat : band)
  (longitude latitude : Q) : result (Z * Z) :=
  let londiff :=
    nd_map (fun v => fmul A (fsub A longitude v) (fsub A longitude v)) nc_lon in
  let latdiff :=
    nd_map (fun v => fmul A (fsub A latitude v) (fsub A latitude v)) nc_lat in
  diff ← nd_zip_with (fadd A) londiff latdiff;
  m ← nd_min diff;
  first_where_equal diff m.

(** [numpy.interp(x, [0, 0.15], [0, 1])]. *)
Definition interp_0_015 (x : Q) : Q :=
  if Qle_bool x 0 then 0%Q
  else if Qle_bool (15 # 100) x then 1%Q
  else (x / (15 # 100))%Q.

(** [numpy.rint]: the nearest integer, ties to the even one. *)
Definition rint (x : Q) : Z :=
  let f := Qfloor x in
  let d := (x - inject_Z f)%Q in
  if Qle_bool d (1 # 2)
  then (if Qeq_bool d (1 # 2) then (if Z.even f then f else f + 1) else f)
  else f + 1.

(** [img_as_ubyte] on one float of [0, 1]. *)
Definition ubyte (x : Q) : Q := inject_Z (rint (x * 255)).

(** ** Binary floating point

    A binary64 float has a significand of 53 bits; the result of an
    operation is the float nearest to the exact result, a tie going to the
    even significand.  The exponent is not bounded here: no overflow to
    infinity and no subnormal numbers. *)

Definition pow2 (e : Z) : Q := Qpower 2 e.

(** The exponent [e] of the unit in the last place of [q]:
    [2^52 <= |q| / 2^e < 2^53], for [q] other than zero. *)
Definition binade (q : Q) : Z :=
  let e := Z.log2 (Z.abs (Qnum q)) - Z.log2 (Zpos (Qden q)) - 52 in
  if Qle_bool (pow2 (e + 52)) (Qabs q) then e else e - 1.

(** The float nearest to [q]. *)
Definition round53 (q : Q) : Q :=
  if Qeq_bool q 0 then 0%Q
  else
    let e := binade q in
    Qred (inject_Z (rint (q / pow2 e)) * pow2 e).

Definition binary64 : Arithmetic :=
  {| fadd := fun a b => round53 (a + b);
     fsub := fun a b => round53 (a - b);
     fmul := fun a b => round53 (a * b);
     fdiv := fun a b => round53 (a / b) |}.

(** [numpy.concatenate([[r], [g], [b]]).transpose(1, 2, 0)]: three planes of
    one shape become one array with a channel axis. *)
Definition stack_channels (r g b : band) : result band :=
  match r, g, b with
  | Arr2 rr, Arr2 gg, Arr2 bb =>
      if decide (dims r = dims g /\ dims r = dims b)
      then Ok (Arr3 (zip_with (fun x gb => zip_with (fun v w => v :: w) x gb) rr
                       (zip_with (zip_with (fun v w => [v; w])) gg bb)))
      else Raise ValueError
  | _, _, _ => Raise ValueError
  end.

(** ** abstract_polymer_image_handler.py *)

Module Polymer.

Definition BAND_NAME_MAPPING : list (string * list string) :=
  [ ("blue_band", ["Rw490"]);
    ("green_band", ["Rw560"]);
    ("red_band", ["Rw665"]);
    ("nir_band", ["Rw842"]);
    ("swir_band", ["Rnir"]);
    ("lon", ["longitude"]);
    ("lat", ["latitude"]) ]%string.

Record Subclass : Type := mkSubclass {
  estuary_name : string;
  _image_transformation_list : list nat -> list Transformation;
  _image_wkt_polygone_subset : (Q -> Q -> result (Z * Z)) -> Transformation
}.

(** An open netCDF dataset: the global attribute and the variables read. *)
Record Dataset : Type := mkDataset {
  sensing_time : string;
  variables : gmap string band
}.

(** The dict [_load_nc_data_dict] builds: ["date"] and the band keys. *)
Record LoadedData : Type := mkLoadedData {
  ld_date : string;
  ld_bands : gmap string band
}.

(** The instance attributes.  [_transformed_lon] and [_transformed_lat] are
    bound between the two band passes and deleted afterwards. *)
Record t : Type := mk {
  cls : Subclass;
  path : string;
  bridge_points_handler : option BridgePointsHandler.t;
  clean_water_mask_handler : option CleanWaterMaskHandler.t;
  _before_transform_image_shape : list nat;
  _date : string;
  _transformed_lon : option band;
  _transformed_lat : option band;
  _subset_transformed_data_dict : option (gmap string band)
}.

(** [d.get(elem)] on a dict whose values may be [None]. *)
Definition dict_get {V} (d : gmap string (option V)) (k : string) : option V :=
  match d !! k with
  | Some v => v
  | None => None
  end.

Fixpoint get_items_with_list_fallback {V} (d : gmap string (option V))
  (get_list : list string) : result V :=
  match get_list with
  | [] => Raise ValueError
  | elem :: rest =>
      match dict_get d elem with
      | Some value => Ok value
      | None => get_items_with_list_fallback d rest
      end
  end.

Definition _load_nc_data_dict (nc_data : Dataset) : result LoadedData :=
  bands ←
    for_each (fun data_dict '(band_name, band_code_list) =>
                v ← get_items_with_list_fallback
                      (Some <$> variables nc_data) band_code_list;
                Ok (<[band_name := v]> data_dict))
             BAND_NAME_MAPPING
             ∅;
  Ok {| ld_date := sensing_time nc_data; ld_bands := bands |}.

Definition before_transform_image_shape (self : t) : list nat :=
  _before_transform_image_shape self.

Definition band_property (name : string) (self : t) : result band :=
  d ← getattr (_subset_transformed_data_dict self);
  getitem d name.

Definition blue_band : t -> result band := band_property "blue_band".
Definition green_band : t -> result band := band_property "green_band".
Definition red_band : t -> result band := band_property "red_band".
Definition nir_band : t -> result band := band_property "nir_band".
Definition swir_band : t -> result band := band_property "swir_band".
Definition true_color_image : t -> result band :=
  band_property "true_color_image".
Definition lon : t -> result band := band_property "lon".
Definition lat : t -> result band := band_property "lat".

Definition image_shape (self : t) : result (list nat) :=
  b ← nir_band self;
  Ok (shape b).

Definition get_mask_from_bridge_points_handler (self : t)
  : result (option mask) :=
  match bridge_points_handler self with
  | Some bph =>
      shp ← image_shape self;
      m ← BridgePointsHandler.get_valid_points_mask bph shp;
      Ok (Some m)
  | None => Ok None
  end.

Definition get_mask_from_clean_water_mask_handler (self : t) : option mask :=
  match clean_water_mask_handler self with
  | Some cwm => Some (CleanWaterMaskHandler.get_valid_points_mask cwm)
  | None => None
  end.

Definition get_water_mask_from_bridge_and_clean_water_mask_handler (self : t)
  : result (option mask) :=
  let water_mask := [] in
  match bridge_points_handler self, clean_water_mask_handler self with
  | Some bph, Some cwm =>
      shp ← image_shape self;
      m ← BridgePointsHandler.get_valid_points_mask bph shp;
      let water_mask := water_mask ++ [m] in
      let water_mask :=
        water_mask
          ++ [nd_map negb (CleanWaterMaskHandler.get_valid_points_mask cwm)] in
      all ← numpy_all_axis0 water_mask;
      Ok (Some all)
  | _, _ => Ok None
  end.

Definition _get_true_color_image (self : t) : result band :=
  red ← red_band self;
  let r_tmp := nd_map interp_0_015 red in
  green ← green_band self;
  let g_tmp := nd_map interp_0_015 green in
  blue ← blue_band self;
  let b_tmp := nd_map interp_0_015 blue in
  tci ← stack_channels r_tmp g_tmp b_tmp;
  Ok (nd_map ubyte tci).

Definition transform_band (self : t) (b : band) : result band :=
  for_each (fun b transformation =>
              apply_transformation_to_band transformation b)
           (_image_transformation_list (cls self)
              (before_transform_image_shape self))
           b.

Definition _apply_image_transformation_list (self : t)
  (loaded_data_dict : gmap string band) : result (gmap string band) :=
  '(_, transformed_data_dict) ←
    for_each (fun '(loaded, transformed) band_name =>
                '(b, loaded') ← pop loaded band_name;
                b' ← transform_band self b;
                Ok (loaded', <[band_name := b']> transformed))
             (BAND_NAME_MAPPING.*1)
             (loaded_data_dict, ∅);
  Ok transformed_data_dict.

Definition get_row_col_index_from_longitide_latitude (self : t)
  (longitude latitude : Q) : result (Z * Z) :=
  nc_lon ← lon self;
  nc_lat ← lat self;
  nearest_grid_index nc_lon nc_lat longitude latitude.

(** [get_row_col_index_from_longitide_latitude] over the operations of an
    [Arithmetic]. *)
Definition get_row_col_index_from_longitide_latitude_in (A : Arithmetic)
  (self : t) (longitude latitude : Q) : result (Z * Z) :=
  nc_lon ← lon self;
  nc_lat ← lat self;
  nearest_grid_index_in A nc_lon nc_lat longitude latitude.

Definition _get_row_col_index_after_transformation_from_longitide_latitude
  (self : t) (longitude latitude : Q) : result (Z * Z) :=
  nc_lon ← getattr (_transformed_lon self);
  nc_lat ← getattr (_transformed_lat self);
  nearest_grid_index nc_lon nc_lat longitude latitude.

Definition image_wkt_polygone_subset (self : t) : Transformation :=
  _image_wkt_polygone_subset (cls self)
    (_get_row_col_index_after_transformation_from_longitide_latitude self).

Definition _apply_image_wkt_polygone_subset (self : t)
  (transformed_data_dict : gmap string band) : result (gmap string band) :=
  '(_, polygone_subset_data_dict) ←
    for_each (fun '(transformed, subset) band_name =>
                '(b, transformed') ← pop transformed band_name;
                b' ← apply_transformation_to_band
                       (image_wkt_polygone_subset self) b;
                Ok (transformed', <[band_name := b']> subset))
             (BAND_NAME_MAPPING.*1)
             (transformed_data_dict, ∅);
  Ok polygone_subset_data_dict.

Definition get_longitude_latitude_from_row_col_index (self : t)
  (row_index col_index : Z) : result (item Q * item Q) :=
  nc_lon ← lon self;
  lon_value ← getitem2 nc_lon row_index col_index;
  nc_lat ← lat self;
  lat_value ← getitem2 nc_lat row_index col_index;
  Ok (lon_value, lat_value).

Definition set_transformed (self : t) (lo la : option band) : t :=
  {| cls := cls self;
     path := path self;
     bridge_points_handler := bridge_points_handler self;
     clean_water_mask_handler := clean_water_mask_handler self;
     _before_transform_image_shape := _before_transform_image_shape self;
     _date := _date self;
     _transformed_lon := lo;
     _transformed_lat := la;
     _subset_transformed_data_dict := _subset_transformed_data_dict self |}.

Definition set_subset (self : t) (d : gmap string band) : t :=
  {| cls := cls self;
     path := path self;
     bridge_points_handler := bridge_points_handler self;
     clean_water_mask_handler := clean_water_mask_handler self;
     _before_transform_image_shape := _before_transform_image_shape self;
     _date := _date self;
     _transformed_lon := _transformed_lon self;
     _transformed_lat := _transformed_lat self;
     _subset_transformed_data_dict := Some d |}.

(** The constructor, with the opened dataset ([Dataset(path)]) as an
    argument. *)
Definition __init__ (c : Subclass) (p : string)
  (bph : option BridgePointsHandler.t)
  (cwm : option CleanWaterMaskHandler.t) (nc_data : Dataset) : result t :=
  loaded_data_dict ← _load_nc_data_dict nc_data;
  blue ← getitem (ld_bands loaded_data_dict) "blue_band";
  let self :=
    {| cls := c;
       path := p;
       bridge_points_handler := bph;
       clean_water_mask_handler := cwm;
       _before_transform_image_shape := shape blue;
       _date := ld_date loaded_data_dict;
       _transformed_lon := None;
       _transformed_lat := None;
       _subset_transformed_data_dict := None |} in
  transformed_data_dict ←
    _apply_image_transformation_list self (ld_bands loaded_data_dict);
  tlon ← getitem transformed_data_dict "lon";
  tlat ← getitem transformed_data_dict "lat";
  let self := set_transformed self (Some tlon) (Some tlat) in
  subset ← _apply_image_wkt_polygone_subset self transformed_data_dict;
  let self := set_subset self subset in
  let self := set_transformed self None None in
  tci ← _get_true_color_image self;
  Ok (set_subset self (<["true_color_image" := tci]> subset)).

(** [s.replace(" ", "T")]. *)
Fixpoint replace_space_by_T (s : string) : string :=
  match s with
  | EmptyString => EmptyString
  | String a rest =>
      String (if Ascii.eqb a Space then "T"%char else a)
             (replace_space_by_T rest)
  end.

(** [date]: [return self._date.replace(" ", "T")]. *)
Definition date (self : t) : string := replace_space_by_T (_date self).

End Polymer.

(** ** utils/image_transformation.py

    The transformation classes the handlers import are described by the
    specification only; the three below follow its section 4.1. *)

Module ImageTransformation.

(** Modelled from the spec: the file [utils/image_transformation.py] is
    missing.  "IdentityPolygonCrop: bounding box equals the full extent";
    "[transform_band] returns the array unchanged; both index maps are the
    identity". *)
Definition IdentityPolygoneBoundariesImage : Transformation :=
  {| apply_transformation_to_band := fun b => Ok b;
     apply_transformation_to_geocoordinates := fun r c => Ok (r, c);
     apply_inverse_transformation_to_geocoordinate := fun r c => Ok (r, c) |}.

(** Modelled from the spec: the file [utils/image_transformation.py] is
    missing.  The transpose of an array, for the lossless rotation "via
    transpose/flip". *)
Definition transpose {B} (rows : list (list B)) : list (list B) :=
  map (fun j => omap (fun row => row !! j) rows) (seq 0 (row_length rows)).

(** Modelled from the spec: the file [utils/image_transformation.py] is
    missing.  One quarter turn counter-clockwise, by transpose and flip. *)
Definition rot90 (b : band) : band :=
  match b with
  | Arr2 rows => Arr2 (reverse (transpose rows))
  | Arr3 rows => Arr3 (reverse (transpose rows))
  end.

(** Modelled from the spec: the file [utils/image_transformation.py] is
    missing.  Where the cell [(r, c)] of an [h] x [w] array goes by one
    quarter turn ([turn_index]) and back ([unturn_index]), and the same for
    [k] turns in a row, the shape being swapped by each turn. *)
Definition turn_index (hw : Z * Z) (rc : Z * Z) : Z * Z :=
  (snd hw - 1 - snd rc, fst rc).

(** Modelled from the spec: the inverse of [turn_index] for an array that
    was [h] x [w] before the turn. *)
Definition unturn_index (hw : Z * Z) (ij : Z * Z) : Z * Z :=
  (snd ij, snd hw - 1 - fst ij).

(** Modelled from the spec: the shape after one quarter turn, the canvas
    being resized to the rotated bounding box. *)
Definition swap_shape (hw : Z * Z) : Z * Z := (snd hw, fst hw).

(** Modelled from the spec: the forward index map of [k] quarter turns. *)
Fixpoint turns_index (k : nat) (hw rc : Z * Z) : Z * Z :=
  match k with
  | O => rc
  | S k' => turns_index k' (swap_shape hw) (turn_index hw rc)
  end.

(** Modelled from the spec: the inverse index map of [k] quarter turns,
    the last turn undone first. *)
Fixpoint unturns_index (k : nat) (hw ij : Z * Z) : Z * Z :=
  match k with
  | O => ij
  | S k' => unturn_index hw (unturns_index k' (swap_shape hw) ij)
  end.

(** Modelled from the spec: rows and columns of [original_shape]. *)
Definition shape_hw (shp : list nat) : Z * Z :=
  match shp with
  | h :: w :: _ => (Z.of_nat h, Z.of_nat w)
  | _ => (0, 0)
  end.

(** Modelled from the spec: the file [utils/image_transformation.py] is
    missing.  [RotateImage(angle, original_shape)] for an angle of [k]
    quarter turns, positive counter-clockwise, about the centre with the
    canvas resized: "for multiples of 90 degrees ... losslessly via
    transpose/flip"; the inverse index map undoes the forward one.  Other
    angles interpolate and are not modelled. *)
Definition RotateImage_quarter_turns (k : nat) (original_shape : list nat)
  : Transformation :=
  {| apply_transformation_to_band := fun b => Ok (Nat.iter k rot90 b);
     apply_transformation_to_geocoordinates := fun r c =>
       Ok (turns_index k (shape_hw original_shape) (r, c));
     apply_inverse_transformation_to_geocoordinate := fun r c =>
       Ok (unturns_index k (shape_hw original_shape) (r, c)) |}.

(** Modelled from the spec: the file [utils/image_transformation.py] is
    missing.  "The integer bounding box [row_min, row_max] x [col_min,
    col_max] over those indices (clamped to the band's extent)": the lower
    corner is clamped at zero here, the upper corner by the slicing. *)
Definition bounding_box (polygon : list (Q * Q))
  (index_resolver_fn : Q -> Q -> result (Z * Z))
  : result (Z * Z * Z * Z) :=
  match polygon with
  | [] => Raise ValueError
  | (lon0, lat0) :: rest =>
      '(r0, c0) ← index_resolver_fn lon0 lat0;
      for_each (fun '(rmin, rmax, cmin, cmax) '(lo, la) =>
                  '(r, c) ← index_resolver_fn lo la;
                  Ok (Z.min rmin (Z.max 0 r), Z.max rmax r,
                      Z.min cmin (Z.max 0 c), Z.max cmax c))
               rest
               (Z.max 0 r0, r0, Z.max 0 c0, c0)
  end.

(** Modelled from the spec: the file [utils/image_transformation.py] is
    missing.  "[transform_band] slices the array to that bounding box":
    [a[lo : hi + 1]] on a list. *)
Definition slice {B} (lo hi : Z) (l : list B) : list B :=
  take (Z.to_nat (hi + 1 - lo)) (drop (Z.to_nat lo) l).

(** Modelled from the spec: the band sliced to the box; "bounding box
    collapses to zero rows or columns" is an error. *)
Definition crop_band (box : Z * Z * Z * Z) (b : band) : result band :=
  let '(rmin, rmax, cmin, cmax) := box in
  let out :=
    match b with
    | Arr2 rows => Arr2 (map (slice cmin cmax) (slice rmin rmax rows))
    | Arr3 rows => Arr3 (map (slice cmin cmax) (slice rmin rmax rows))
    end in
  match extent out with
  | (O, _) => Raise ValueError
  | (_, O) => Raise ValueError
  | _ => Ok out
  end.

(** Modelled from the spec: the file [utils/image_transformation.py] is
    missing.  [PolygoneBoundariesImage(polygon, index_resolver_fn)]:
    every vertex is resolved by the injected function, the band is sliced
    to the bounding box, [map_index_forward(r, c) = (r - row_min,
    c - col_min)] and [map_index_inverse(r, c) = (r + row_min,
    c + col_min)]; a box without rows or columns is an error. *)
Definition PolygoneBoundariesImage (polygon : list (Q * Q))
  (index_resolver_fn : Q -> Q -> result (Z * Z)) : Transformation :=
  {| apply_transformation_to_band := fun b =>
       box ← bounding_box polygon index_resolver_fn;
       crop_band box b;
     apply_transformation_to_geocoordinates := fun r c =>
       '(rmin, _, cmin, _) ← bounding_box polygon index_resolver_fn;
       Ok (r - rmin, c - cmin);
     apply_inverse_transformation_to_geocoordinate := fun r c =>
       '(rmin, _, cmin, _) ← bounding_box polygon index_resolver_fn;
       Ok (r + rmin, c + cmin) |}.

End ImageTransformation.

(** ** Specification-side notions *)

(** [steps_in_order step ts i o]: starting from [i], the index maps of [ts]
    run one after the other in list order, each succeeds, and the last one
    gives [o]. *)
Inductive steps_in_order (step : Transformation -> Z -> Z -> result (Z * Z))
  : list Transformation -> Z * Z -> Z * Z -> Prop :=
| steps_done i : steps_in_order step [] i i
| steps_next t ts i j o :
    step t (fst i) (snd i) = Ok j ->
    steps_in_order step ts j o ->
    steps_in_order step (t :: ts) i o.

(** The inverse query as the specification words it: the crop's inverse
    first, then the inverse maps of [Tn..T1], that is of the list reversed,
    then the resolver's inverse. *)
Definition inverse_query_spec `{Pyproj} (self : Sentinel.t)
  (row_index col_index : Z) : result (Q * Q) :=
  idx ← apply_inverse_transformation_to_geocoordinate
          (Sentinel.image_wkt_polygone_subset self) row_index col_index;
  '(r, c) ←
    for_each (fun '(r, c) t =>
                apply_inverse_transformation_to_geocoordinate t r c)
             (reverse (Sentinel._image_transformation_list (Sentinel.cls self)
                         (Sentinel.before_transform_image_shape self)))
             idx;
  let '(x, y) := Sentinel.inverse_index_function self r c in
  Ok (project_epsg_32620_to_epsg4326 x y).

(** A numpy array has rows of one length; a list of rows need not. *)
Definition rectangular {A} (a : ndarray A) : Prop :=
  match a with
  | Arr2 rows => Forall (fun row => length row = row_length rows) rows
  | Arr3 rows => Forall (fun row => length row = row_length rows) rows
  end.

(** A transformation whose output extent is fixed by the input extent: two
    arrays of one extent, when transformed, are again arrays of one
    extent. *)
Definition extent_determined (t : Transformation) : Prop :=
  forall b1 b2 b1' b2',
    rectangular b1 -> rectangular b2 ->
    extent b1 = extent b2 ->
    apply_transformation_to_band t b1 = Ok b1' ->
    apply_transformation_to_band t b2 = Ok b2' ->
    rectangular b1' /\ rectangular b2' /\ extent b1' = extent b2'.

(** All bands of a dict have one rows x cols extent. *)
Definition one_extent (d : gmap string band) : Prop :=
  forall n1 n2 b1 b2, d !! n1 = Some b1 -> d !! n2 = Some b2 ->
                      extent b1 = extent b2.

(** All bands of a dict are arrays. *)
Definition all_rectangular (d : gmap string band) : Prop :=
  forall n b, d !! n = Some b -> rectangular b.

(** ** Sample products *)

Module Samples.

(** A reprojection that changes nothing, to run the handlers on. *)
Definition no_reprojection : Pyproj :=
  {| project_epsg4326_to_epsg_32620 := fun x y => (x, y);
     project_epsg_32620_to_epsg4326 := fun x y => (x, y) |}.

Definition unit_affine : Affine := mkAffine 1 0 0 0 1 0.

(** Origin (500000, 5200000), pixels of 8 by 8 metres, north up. *)
Definition utm_affine : Affine := mkAffine 8 0 500000 0 (-8) 5200000.

Definition plane (v : Q) : band := Arr2 [[v; v; v]; [v; v; v]].

Definition sentinel_bands : gmap string band :=
  list_to_map
    [ ("blue_band", plane 1); ("green_band", plane 2); ("red_band", plane 3);
      ("nir_band", plane 4);
      ("true_color_image",
        Arr3 [[[1; 2; 3]; [1; 2; 3]; [1; 2; 3]];
              [[1; 2; 3]; [1; 2; 3]; [1; 2; 3]]]%Q);
      ("cloud_prob", plane 0);
      ("scene_clf", Arr2 [[6; 4; 6]; [5; 6; 11]]%Q) ]%string.

Definition sentinel_loaded (m : Affine) : Sentinel.LoadedData :=
  {| Sentinel.ld_date := "2023-07-01T15:07:31.024Z";
     Sentinel.ld_cloud_coverage := 3;
     Sentinel.ld_crs := "EPSG:32620";
     Sentinel.ld_affine_matrix := m;
     Sentinel.ld_bands := sentinel_bands |}.

(** The whole-scene class of [sentinel_image_handler.py]. *)
Definition GeneralSentinelImageHandler : Sentinel.Subclass :=
  {| Sentinel.estuary_name := "general";
     Sentinel._image_transformation_list := fun _ => [];
     Sentinel._image_wkt_polygone_subset := fun _ =>
       ImageTransformation.IdentityPolygoneBoundariesImage |}.

(** A class with two rotations in its list: a quarter turn, then a half
    turn of the turned image. *)
Definition TwoRotationsSentinelImageHandler : Sentinel.Subclass :=
  {| Sentinel.estuary_name := "two_rotations";
     Sentinel._image_transformation_list := fun shp =>
       [ ImageTransformation.RotateImage_quarter_turns 1 shp;
         ImageTransformation.RotateImage_quarter_turns 2 (reverse shp) ];
     Sentinel._image_wkt_polygone_subset := fun _ =>
       ImageTransformation.IdentityPolygoneBoundariesImage |}.

Definition construct_sentinel (c : Sentinel.Subclass) (m : Affine)
  : result Sentinel.t :=
  @Sentinel.__init__ no_reprojection c "S2A_MSIL2A.zip" None (sentinel_loaded m).

Definition sample_lon_rows : list (list Q) :=
  [[10; 20; 30]; [10; 20; 30]]%Q.

Definition sample_lat_rows : list (list Q) :=
  [[50; 50; 50]; [40; 40; 40]]%Q.

Definition polymer_dataset : Polymer.Dataset :=
  {| Polymer.sensing_time := "2023-07-01 15:07:31";
     Polymer.variables :=
       list_to_map
         [ ("Rw490", plane (3 # 100)); ("Rw560", plane (6 # 100));
           ("Rw665", plane (9 # 100)); ("Rw842", plane (20 # 100));
           ("Rnir", plane (1 # 100));
           ("longitude", Arr2 sample_lon_rows);
           ("latitude", Arr2 sample_lat_rows) ]%string |}.

(** The same dataset without its red reflectance. *)
Definition polymer_dataset_without_red : Polymer.Dataset :=
  {| Polymer.sensing_time := Polymer.sensing_time polymer_dataset;
     Polymer.variables := delete "Rw665"%string (Polymer.variables polymer_dataset) |}.

(** A dict for a fallback list of two codes: the first code is bound to
    [None], the second to a value, a third key is never asked for. *)
Definition fallback_dict : gmap string (option Z) :=
  list_to_map
    [ ("rhos_2186", None); ("rhos_2202", Some 7); ("rhos_2190", Some 9) ]%string.

(** A region that covers the whole sample grid. *)
Definition sample_polygon : list (Q * Q) :=
  [ (10, 50); (30, 50); (30, 40); (10, 40) ]%Q.

(** A class built like [CocagnePolymerImageHandler]: no transformation, a
    polygon crop fed with the bound index method. *)
Definition PlainPolymerImageHandler : Polymer.Subclass :=
  {| Polymer.estuary_name := "plain";
     Polymer._image_transformation_list := fun _ => [];
     Polymer._image_wkt_polygone_subset := fun index_fn =>
       ImageTransformation.PolygoneBoundariesImage sample_polygon index_fn |}.

(** A class built like [MorellPolymerImageHandler]: a rotation of -90
    degrees, that is three quarter turns counter-clockwise. *)
Definition TurnedPolymerImageHandler : Polymer.Subclass :=
  {| Polymer.estuary_name := "turned";
     Polymer._image_transformation_list := fun shp =>
       [ ImageTransformation.RotateImage_quarter_turns 3 shp ];
     Polymer._image_wkt_polygone_subset := fun index_fn =>
       ImageTransformation.PolygoneBoundariesImage sample_polygon index_fn |}.

Definition sample_bridge_points : BridgePointsHandler.t :=
  {| BridgePointsHandler.points_list := [(0, 1)] |}.

Definition sample_clean_water : CleanWaterMaskHandler.t :=
  {| CleanWaterMaskHandler.water_mask :=
       Arr2 [[true; false; true]; [true; true; false]] |}.

Definition construct_polymer (c : Polymer.Subclass)
  (bph : option BridgePointsHandler.t)
  (cwm : option CleanWaterMaskHandler.t) : result Polymer.t :=
  Polymer.__init__ c "S2A_polymer.nc" bph cwm polymer_dataset.

(** A class built like [MorellSentinelImageHandler]: a rotation of -90
    degrees, that is three quarter turns counter-clockwise, and a polygon
    crop fed with the bound index method. *)
Definition scene_polygon : list (Q * Q) := [ (0, 0); (2, 1) ]%Q.

Definition TurnedSentinelImageHandler : Sentinel.Subclass :=
  {| Sentinel.estuary_name := "turned";
     Sentinel._image_transformation_list := fun shp =>
       [ ImageTransformation.RotateImage_quarter_turns 3 shp ];
     Sentinel._image_wkt_polygone_subset := fun index_fn =>
       ImageTransformation.PolygoneBoundariesImage scene_polygon index_fn |}.

Definition turned_sentinel_product : Sentinel.t :=
  {| Sentinel.cls := TurnedSentinelImageHandler;
     Sentinel.zip_path := "S2A_MSIL2A.zip";
     Sentinel.bridge_points_handler := None;
     Sentinel._before_transform_image_shape := [2; 3]%nat;
     Sentinel._date := "2023-07-01T15:07:31.024Z";
     Sentinel._cloud_coverage := 3;
     Sentinel._crs := "EPSG:32620";
     Sentinel._affine_matrix := unit_affine;
     Sentinel._subset_transformed_data_dict :=
       Some ((fun b => ImageTransformation.rot90
                         (ImageTransformation.rot90
                            (ImageTransformation.rot90 b)))
               <$> sentinel_bands) |}.

(** A list of bridge points with one point below the last row of a 2 x 3
    image. *)
Definition stray_bridge_points : BridgePointsHandler.t :=
  {| BridgePointsHandler.points_list := [(0, 1); (5, 0)] |}.

(** A clean-water mask stored for a 2 x 2 image. *)
Definition small_clean_water : CleanWaterMaskHandler.t :=
  {| CleanWaterMaskHandler.water_mask := Arr2 [[true; false]; [true; true]] |}.

(** A matrix without inverse. *)
Definition flat_affine : Affine := mkAffine 8 0 500000 16 0 5200000.

(** The instances the constructors return on the sample data. *)

Definition general_product (m : Affine) : Sentinel.t :=
  {| Sentinel.cls := GeneralSentinelImageHandler;
     Sentinel.zip_path := "S2A_MSIL2A.zip";
     Sentinel.bridge_points_handler := None;
     Sentinel._before_transform_image_shape := [2; 3]%nat;
     Sentinel._date := "2023-07-01T15:07:31.024Z";
     Sentinel._cloud_coverage := 3;
     Sentinel._crs := "EPSG:32620";
     Sentinel._affine_matrix := m;
     Sentinel._subset_transformed_data_dict := Some sentinel_bands |}.

Definition two_rotations_product : Sentinel.t :=
  {| Sentinel.cls := TwoRotationsSentinelImageHandler;
     Sentinel.zip_path := "S2A_MSIL2A.zip";
     Sentinel.bridge_points_handler := None;
     Sentinel._before_transform_image_shape := [2; 3]%nat;
     Sentinel._date := "2023-07-01T15:07:31.024Z";
     Sentinel._cloud_coverage := 3;
     Sentinel._crs := "EPSG:32620";
     Sentinel._affine_matrix := unit_affine;
     Sentinel._subset_transformed_data_dict :=
       Some (ImageTransformation.rot90
               <$> (ImageTransformation.rot90
                      <$> (ImageTransformation.rot90 <$> sentinel_bands))) |}.

Definition colour_pixel : list Q := [153; 102; 51]%Q.

Definition plain_polymer_product (bph : option BridgePointsHandler.t)
  (cwm : option CleanWaterMaskHandler.t) : Polymer.t :=
  {| Polymer.cls := PlainPolymerImageHandler;
     Polymer.path := "S2A_polymer.nc";
     Polymer.bridge_points_handler := bph;
     Polymer.clean_water_mask_handler := cwm;
     Polymer._before_transform_image_shape := [2; 3]%nat;
     Polymer._date := "2023-07-01 15:07:31";
     Polymer._transformed_lon := None;
     Polymer._transformed_lat := None;
     Polymer._subset_transformed_data_dict :=
       Some (list_to_map
               [ ("blue_band", plane (3 # 100));
                 ("green_band", plane (6 # 100));
                 ("red_band", plane (9 # 100));
                 ("nir_band", plane (20 # 100));
                 ("swir_band", plane (1 # 100));
                 ("lon", Arr2 sample_lon_rows);
                 ("lat", Arr2 sample_lat_rows);
                 ("true_color_image",
                   Arr3 [[colour_pixel; colour_pixel; colour_pixel];
                         [colour_pixel; colour_pixel; colour_pixel]])
               ]%string) |}.

Definition polymer_loaded : Polymer.LoadedData :=
  {| Polymer.ld_date := "2023-07-01 15:07:31";
     Polymer.ld_bands :=
       list_to_map
         [ ("blue_band", plane (3 # 100));
           ("green_band", plane (6 # 100));
           ("red_band", plane (9 # 100));
           ("nir_band", plane (20 # 100));
           ("swir_band", plane (1 # 100));
           ("lon", Arr2 sample_lon_rows);
           ("lat", Arr2 sample_lat_rows) ]%string |}.

Definition turned (b : band) : band :=
  ImageTransformation.rot90
    (ImageTransformation.rot90 (ImageTransformation.rot90 b)).

Definition turned_polymer_product : Polymer.t :=
  {| Polymer.cls := TurnedPolymerImageHandler;
     Polymer.path := "S2A_polymer.nc";
     Polymer.bridge_points_handler := None;
     Polymer.clean_water_mask_handler := None;
     Polymer._before_transform_image_shape := [2; 3]%nat;
     Polymer._date := "2023-07-01 15:07:31";
     Polymer._transformed_lon := None;
     Polymer._transformed_lat := None;
     Polymer._subset_transformed_data_dict :=
       Some (<["true_color_image" :=
                 Arr3 [[colour_pixel; colour_pixel];
                       [colour_pixel; colour_pixel];
                       [colour_pixel; colour_pixel]]]>
               (turned <$> Polymer.ld_bands polymer_loaded)) |}.

(** Two cells on one parallel, at the longitudes -64.5 and -64.4999 (the
    float the literal [-64.4999] denotes), and a query point at the float
    of [-64.499949999999984], a little east of the middle between them. *)
Definition close_lon_rows : list (list Q) :=
  [[-129 # 2; -2269388481292455 # 35184372088832]]%Q.

Definition close_lat_rows : list (list Q) := [[93 # 2; 93 # 2]]%Q.

Definition close_cells_product : Polymer.t :=
  Polymer.set_subset (plain_polymer_product None None)
    (list_to_map [ ("lon", Arr2 close_lon_rows);
                   ("lat", Arr2 close_lat_rows) ]%string).

Definition east_of_middle : Q := (-2269390240511059 # 35184372088832)%Q.

(** Origin (399960, 5200020), pixels of 10 by 10 metres, north up, and the
    largest float below the easting 429960 of the left edge of column
    3000. *)
Definition tile_affine : Affine := mkAffine 10 0 399960 0 (-10) 5200020.

Definition below_429960 : Q := (7386656554352639 # 17179869184)%Q.

(** [~tile_affine] as binary64 computes it: pixels of the floats of 0.1
    and -0.1. *)
Definition tile_affine_inverse : Affine :=
  mkAffine (3602879701896397 # 36028797018963968) 0 (-39996)
           0 (-3602879701896397 # 36028797018963968) 520002.

(** A product whose coordinate grids have no cell. *)
Definition gridless_product : Polymer.t :=
  Polymer.set_subset (plain_polymer_product None None)
    (list_to_map [ ("lon", Arr2 []); ("lat", Arr2 []) ]%string).

End Samples.

(** * Properties *)

(** ** Fallible computations and loops *)

Lemma bind_Ok {A B} (m : result A) (f : A -> result B) (b : B) :
  m ≫= f = Ok b <-> exists a, m = Ok a /\ f a = Ok b.
Proof.
  destruct m as [a|e]; simpl.
  - split; [intros Hf; exists a; auto | intros (a' & Ha & Hf); congruence].
  - split; [discriminate | intros (a' & Ha & _); discriminate].
Qed.

Lemma for_each_app {S X} (body : S -> X -> result S) (xs ys : list X) (s : S) :
  for_each body (xs ++ ys) s = for_each body xs s ≫= for_each body ys.
Proof.
  revert s. induction xs as [|x xs IH]; intros s; simpl; [reflexivity|].
  destruct (body s x) as [s'|e]; simpl; [apply IH | reflexivity].
Qed.

(** A loop invariant: what holds of the state before the loop and is kept by
    every successful iteration holds of the final state. *)
Lemma for_each_invariant {S X} (I : S -> Prop) (body : S -> X -> result S)
  (xs : list X) (s s' : S) :
  (forall s1 x s2, x ∈ xs -> I s1 -> body s1 x = Ok s2 -> I s2) ->
  I s -> for_each body xs s = Ok s' -> I s'.
Proof.
  revert s. induction xs as [|x xs IH]; intros s Hstep Hs Hrun; simpl in Hrun.
  - congruence.
  - apply bind_Ok in Hrun as (s1 & Hb & Hrest).
    apply (IH s1); [| |exact Hrest].
    + intros s2 y s3 Hy. apply Hstep. now right.
    + apply (Hstep s x); [left|assumption|assumption].
Qed.

Lemma for_each_steps (step : Transformation -> Z -> Z -> result (Z * Z))
  (ts : list Transformation) (i o : Z * Z) :
  for_each (fun '(r, c) t => step t r c) ts i = Ok o <->
  steps_in_order step ts i o.
Proof.
  revert i. induction ts as [|t ts IH]; intros i; simpl.
  - split.
    + intros [= ->]. constructor.
    + inversion 1. reflexivity.
  - rewrite bind_Ok. split.
    + intros (j & Hj & Hrest). destruct i as [r c]. simpl in *.
      econstructor; [exact Hj|]. now apply IH.
    + inversion 1 as [|? ? ? j ? Hj Hrest]; subst.
      exists j. destruct i as [r c]. simpl in *. split; [exact Hj|].
      now apply IH.
Qed.

(** ** The affine resolver *)

Lemma int_nonneg_floor (x : Q) : (0 <= x)%Q -> int x = Qfloor x.
Proof.
  destruct x as [n d]. unfold Qle, int, Qfloor. simpl. intros Hn.
  rewrite Z.quot_div_nonneg; lia.
Qed.

(** What [index_function] computes: the projected point through the
    inverted matrix, each coordinate cut to its integer part. *)
Lemma index_function_eq (self : Sentinel.t) (x y : Q) (inv : Affine) :
  affine_invert (Sentinel.affine_matrix self) = Ok inv ->
  Sentinel.index_function self x y =
    Ok (int (snd (affine_mul inv (x, y))), int (fst (affine_mul inv (x, y)))).
Proof. intros Hinv. unfold Sentinel.index_function. now rewrite Hinv. Qed.

Lemma general_constructed (m : Affine) :
  Samples.construct_sentinel Samples.GeneralSentinelImageHandler m
    = Ok (Samples.general_product m).
Proof. vm_compute. reflexivity. Qed.

(** C2 (the code departs from the claim).  On a north-up product with
    pixels of 8 metres and origin (500000, 5200000), the projected point
    (500006, 5199994) lies at the fractional column 3/4 and row 3/4.  The
    nearest integer of 3/4 is 1, and [index_function] returns (0, 0): it
    cuts the fraction off instead of rounding. *)
Theorem index_function_truncates :
  Samples.construct_sentinel Samples.GeneralSentinelImageHandler
    Samples.utm_affine = Ok (Samples.general_product Samples.utm_affine) /\
  (exists inv,
      affine_invert
        (Sentinel.affine_matrix (Samples.general_product Samples.utm_affine))
        = Ok inv /\
      (fst (affine_mul inv (500006, 5199994)) == 3 # 4)%Q /\
      (snd (affine_mul inv (500006, 5199994)) == 3 # 4)%Q) /\
  Sentinel.index_function (Samples.general_product Samples.utm_affine)
    500006 5199994 = Ok (0, 0) /\
  nearest_integer (3 # 4) 1 /\
  ~ nearest_integer (3 # 4) 0.
Proof.
  split; [apply general_constructed|].
  split.
  { eexists. split; [vm_compute; reflexivity|].
    split; vm_compute; reflexivity. }
  split; [vm_compute; reflexivity|].
  split.
  - unfold nearest_integer. vm_compute. discriminate.
  - unfold nearest_integer. vm_compute. intros H. now apply H.
Qed.

(** ** The forward and inverse queries of the raster family *)

(** C6.  The forward query succeeds with [out] exactly when the resolver
    (reprojection, then [index_function]) gives a raw index, the forward
    maps of the transformation list carry it in list order to some index,
    and the crop's forward map, applied last, gives [out]. *)
Theorem forward_query_order `{Pyproj} (self : Sentinel.t)
  (longitude latitude : Q) (out : Z * Z) :
  Sentinel.get_row_col_index_from_longitide_latitude self longitude latitude
    = Ok out
  <->
  exists raw mid,
    Sentinel.index_function self
      (fst (project_epsg4326_to_epsg_32620 longitude latitude))
      (snd (project_epsg4326_to_epsg_32620 longitude latitude)) = Ok raw /\
    steps_in_order apply_transformation_to_geocoordinates
      (Sentinel._image_transformation_list (Sentinel.cls self)
         (Sentinel.before_transform_image_shape self))
      raw mid /\
    apply_transformation_to_geocoordinates
      (Sentinel.image_wkt_polygone_subset self) (fst mid) (snd mid) = Ok out.
Proof.
  unfold Sentinel.get_row_col_index_from_longitide_latitude,
    Sentinel._get_row_col_index_after_transformation_from_longitide_latitude.
  destruct (project_epsg4326_to_epsg_32620 longitude latitude) as [x y].
  simpl fst; simpl snd.
  rewrite bind_Ok. split.
  - intros ([r c] & Hrun & Hcrop).
    apply bind_Ok in Hrun as (raw & Hraw & Hloop).
    exists raw, (r, c). split; [exact Hraw|]. split; [|exact Hcrop].
    now apply for_each_steps.
  - intros (raw & [r c] & Hraw & Hsteps & Hcrop).
    exists (r, c). split; [|exact Hcrop].
    apply bind_Ok. exists raw. split; [exact Hraw|].
    now apply for_each_steps.
Qed.

(** What the inverse query does: the crop's inverse map first, then the
    inverse maps of the transformation list in list order (the order of the
    forward pass, not its reverse), then [inverse_index_function] and the
    reprojection. *)
Lemma inverse_query_list_order `{Pyproj} (self : Sentinel.t)
  (row_index col_index : Z) (out : Q * Q) :
  Sentinel.get_longitude_latitude_from_row_col_index self row_index col_index
    = Ok out
  <->
  exists mid raw,
    apply_inverse_transformation_to_geocoordinate
      (Sentinel.image_wkt_polygone_subset self) row_index col_index = Ok mid /\
    steps_in_order apply_inverse_transformation_to_geocoordinate
      (Sentinel._image_transformation_list (Sentinel.cls self)
         (Sentinel.before_transform_image_shape self))
      mid raw /\
    out = project_epsg_32620_to_epsg4326
            (fst (Sentinel.inverse_index_function self (fst raw) (snd raw)))
            (snd (Sentinel.inverse_index_function self (fst raw) (snd raw))).
Proof.
  unfold Sentinel.get_longitude_latitude_from_row_col_index.
  rewrite bind_Ok. split.
  - intros (mid & Hmid & Hrun).
    apply bind_Ok in Hrun as ([r c] & Hloop & Hout).
    exists mid, (r, c). split; [exact Hmid|]. split.
    + now apply for_each_steps.
    + simpl in *. destruct (Sentinel.inverse_index_function self r c) as [x y].
      simpl in *. now inversion Hout.
  - intros (mid & [r c] & Hmid & Hsteps & ->).
    exists mid. split; [exact Hmid|].
    apply bind_Ok. exists (r, c). split; [now apply for_each_steps|].
    simpl. now destruct (Sentinel.inverse_index_function self r c) as [x y].
Qed.

(** With at most one transformation in the list, as in every class of the
    package, list order and reversed order are the same thing. *)
Lemma inverse_query_short_list `{Pyproj} (self : Sentinel.t) (r c : Z) :
  (length (Sentinel._image_transformation_list (Sentinel.cls self)
             (Sentinel.before_transform_image_shape self)) <= 1)%nat ->
  Sentinel.get_longitude_latitude_from_row_col_index self r c
    = inverse_query_spec self r c.
Proof.
  unfold Sentinel.get_longitude_latitude_from_row_col_index, inverse_query_spec.
  destruct (Sentinel._image_transformation_list _ _) as [|t [|t' ts]];
    simpl; intros Hlen; [reflexivity|reflexivity|lia].
Qed.

Lemma two_rotations_constructed :
  Samples.construct_sentinel Samples.TwoRotationsSentinelImageHandler
    Samples.unit_affine = Ok Samples.two_rotations_product.
Proof. vm_compute. reflexivity. Qed.

(** C1 (the code departs from the claim).  A class whose list holds a
    quarter turn and then a half turn, on a 2 x 3 scene with the unit affine
    matrix.  The forward query sends the geo-point (0, 0), raw index (0, 0),
    to the final index (0, 1).  The inverse query at (0, 1) undoes the
    quarter turn before the half turn and answers (-1, 1); undoing the list
    in reverse order gives back (0, 0). *)
Theorem inverse_query_not_reversed :
  Samples.construct_sentinel Samples.TwoRotationsSentinelImageHandler
    Samples.unit_affine = Ok Samples.two_rotations_product /\
  @Sentinel.get_row_col_index_from_longitide_latitude
    Samples.no_reprojection Samples.two_rotations_product 0 0 = Ok (0, 1) /\
  @Sentinel.get_longitude_latitude_from_row_col_index
    Samples.no_reprojection Samples.two_rotations_product 0 1
    = Ok ((-1)%Q, 1%Q) /\
  @inverse_query_spec Samples.no_reprojection Samples.two_rotations_product 0 1
    = Ok (0%Q, 0%Q).
Proof.
  split; [apply two_rotations_constructed|].
  split; [vm_compute; reflexivity|].
  split; vm_compute; reflexivity.
Qed.

(** ** Loading the netCDF variables *)

Lemma dict_get_fmap_Some {V} (m : gmap string V) (k : string) :
  Polymer.dict_get (Some <$> m) k = m !! k.
Proof.
  unfold Polymer.dict_get. rewrite lookup_fmap.
  now destruct (m !! k).
Qed.

(** The keys before the first hit are passed over, the keys after it are
    never looked at. *)
Lemma fallback_split {V} (d : gmap string (option V))
  (before after : list string) (k : string) (v : V) :
  Forall (fun k' => Polymer.dict_get d k' = None) before ->
  Polymer.dict_get d k = Some v ->
  Polymer.get_items_with_list_fallback d (before ++ k :: after) = Ok v.
Proof.
  induction 1 as [|k' before Hk' _ IH]; intros Hk; simpl.
  - now rewrite Hk.
  - rewrite Hk'. now apply IH.
Qed.

Lemma fallback_all_missing {V} (d : gmap string (option V))
  (get_list : list string) :
  Forall (fun k => Polymer.dict_get d k = None) get_list ->
  Polymer.get_items_with_list_fallback d get_list = Raise ValueError.
Proof.
  induction 1 as [|k rest Hk _ IH]; simpl; [reflexivity|].
  now rewrite Hk.
Qed.

Lemma fallback_Ok_or_ValueError {V} (d : gmap string (option V))
  (get_list : list string) :
  is_Ok (Polymer.get_items_with_list_fallback d get_list) \/
  Polymer.get_items_with_list_fallback d get_list = Raise ValueError.
Proof.
  induction get_list as [|k rest IH]; simpl; [now right|].
  destruct (Polymer.dict_get d k) as [v|]; [left; now exists v | exact IH].
Qed.

(** C10.  When some key of the list has a lookup that is not [None], the
    list splits at the first such key: every key before it looks up to
    [None], and the function returns the value of that key, whatever comes
    after it. *)
Theorem fallback_returns_first_hit {V} (d : gmap string (option V))
  (get_list : list string) :
  (exists k, k ∈ get_list /\ Polymer.dict_get d k <> None) ->
  exists before k v after,
    get_list = before ++ k :: after /\
    Forall (fun k' => Polymer.dict_get d k' = None) before /\
    Polymer.dict_get d k = Some v /\
    (forall after',
        Polymer.get_items_with_list_fallback d (before ++ k :: after') = Ok v) /\
    Polymer.get_items_with_list_fallback d get_list = Ok v.
Proof.
  induction get_list as [|k0 rest IH]; intros (k & Hin & Hk).
  - inversion Hin.
  - destruct (Polymer.dict_get d k0) as [v0|] eqn:Hk0.
    + exists [], k0, v0, rest. simpl. rewrite Hk0.
      repeat split; auto.
    + assert (Hrest : exists k, k ∈ rest /\ Polymer.dict_get d k <> None).
      { exists k. split; [|exact Hk].
        apply elem_of_cons in Hin as [->|Hin]; [congruence | exact Hin]. }
      destruct (IH Hrest) as (before & k1 & v & after & -> & Hb & Hk1 & Hany & Hres).
      exists (k0 :: before), k1, v, after. simpl. rewrite Hk0.
      repeat split; auto.
Qed.

Lemma for_each_raises {S X} (body : S -> X -> result S) (e : exn)
  (xs : list X) (x : X) (s : S) :
  x ∈ xs ->
  (forall s1, body s1 x = Raise e) ->
  (forall s1 y, y ∈ xs -> is_Ok (body s1 y) \/ body s1 y = Raise e) ->
  for_each body xs s = Raise e.
Proof.
  revert s. induction xs as [|y ys IH]; intros s Hin Hx Hall.
  - inversion Hin.
  - simpl. destruct (Hall s y) as [[s' Hs']|Hraise]; [now left| |].
    + rewrite Hs'. simpl.
      apply elem_of_cons in Hin as [<-|Hin].
      * rewrite Hx in Hs'. discriminate.
      * apply IH; [exact Hin|exact Hx|].
        intros s1 z Hz. apply Hall. now right.
    + now rewrite Hraise.
Qed.

Lemma load_raises_on_missing_band (nc_data : Polymer.Dataset)
  (band_name : string) (codes : list string) :
  (band_name, codes) ∈ Polymer.BAND_NAME_MAPPING ->
  (forall code, code ∈ codes -> Polymer.variables nc_data !! code = None) ->
  Polymer._load_nc_data_dict nc_data = Raise ValueError.
Proof.
  intros Hin Hmissing. unfold Polymer._load_nc_data_dict.
  erewrite for_each_raises; [reflexivity|exact Hin| |].
  - intros s1. simpl. rewrite fallback_all_missing; [reflexivity|].
    apply Forall_forall. intros code Hcode.
    rewrite dict_get_fmap_Some. now apply Hmissing.
  - intros s1 [name cs] _. simpl.
    destruct (fallback_Ok_or_ValueError (Some <$> Polymer.variables nc_data) cs)
      as [[v Hv]|Hraise].
    + left. rewrite Hv. simpl. eexists. reflexivity.
    + right. now rewrite Hraise.
Qed.

(** C7.  When every code of the fallback list of some expected band is
    missing from the variables of the dataset, [__init__] raises
    [ValueError]: no instance comes back. *)
Theorem missing_band_fails_construction (c : Polymer.Subclass) (p : string)
  (bph : option BridgePointsHandler.t) (cwm : option CleanWaterMaskHandler.t)
  (nc_data : Polymer.Dataset) (band_name : string) (codes : list string) :
  (band_name, codes) ∈ Polymer.BAND_NAME_MAPPING ->
  (forall code, code ∈ codes -> Polymer.variables nc_data !! code = None) ->
  Polymer.__init__ c p bph cwm nc_data = Raise ValueError.
Proof.
  intros Hin Hmissing. unfold Polymer.__init__.
  now rewrite (load_raises_on_missing_band nc_data band_name codes).
Qed.

(** ** The nearest-grid resolver *)

Lemma elem_of_concat_cell {B} (rows : list (list B)) (v : B) :
  v ∈ concat rows <-> exists i j, nd_lookup (Arr2 rows) [i; j] = Some v.
Proof.
  simpl. induction rows as [|row rows IH]; simpl.
  - split; [inversion 1 | intros (i & j & Hc); discriminate].
  - rewrite elem_of_app, IH. split.
    + intros [Hv|(i & j & Hc)].
      * apply list_elem_of_lookup in Hv as [j Hj]. now exists 0%nat, j.
      * now exists (S i), j.
    + intros ([|i] & j & Hc); simpl in Hc.
      * left. apply list_elem_of_lookup. now exists j.
      * right. now exists i, j.
Qed.

Lemma Qmin2_cases (m v : Q) :
  (Qmin2 m v = m /\ (m <= v)%Q) \/ (Qmin2 m v = v /\ (v <= m)%Q).
Proof.
  unfold Qmin2. destruct (Qle_bool m v) eqn:Hle.
  - left. split; [reflexivity|]. now apply Qle_bool_iff.
  - right. split; [reflexivity|].
    destruct (Qlt_le_dec v m) as [Hlt|Hge]; [now apply Qlt_le_weak|].
    apply Qle_bool_iff in Hge. congruence.
Qed.

(** The running minimum is one of the values and is below all of them. *)
Lemma foldl_Qmin2_least (v : Q) (vs : list Q) :
  foldl Qmin2 v vs ∈ v :: vs /\
  forall w, w ∈ v :: vs -> (foldl Qmin2 v vs <= w)%Q.
Proof.
  revert v. induction vs as [|u vs IH]; intros v; simpl.
  - split; [left|]. intros w Hw. apply list_elem_of_singleton in Hw as ->.
    apply Qle_refl.
  - destruct (IH (Qmin2 v u)) as [Hmem Hleast]. split.
    + apply elem_of_cons in Hmem as [->|Hmem].
      * destruct (Qmin2_cases v u) as [[-> _]|[-> _]]; [left | right; left].
      * right. now right.
    + intros w Hw.
      assert (Hm : (foldl Qmin2 (Qmin2 v u) vs <= Qmin2 v u)%Q)
        by (apply Hleast; left).
      apply elem_of_cons in Hw as [->|Hw].
      * eapply Qle_trans; [exact Hm|].
        destruct (Qmin2_cases v u) as [[-> H1]|[-> H1]];
          [apply Qle_refl | exact H1].
      * apply elem_of_cons in Hw as [->|Hw].
        -- eapply Qle_trans; [exact Hm|].
           destruct (Qmin2_cases v u) as [[-> H1]|[-> H1]];
             [exact H1 | apply Qle_refl].
        -- apply Hleast. now right.
Qed.

Lemma where_row_nil {B} (p : B -> bool) (row : list B) (c0 : nat) :
  where_row p row c0 = [] ->
  forall j v, row !! j = Some v -> p v = false.
Proof.
  revert c0. induction row as [|u row IH]; intros c0 Hnil j v Hj; simpl in *.
  - discriminate.
  - destruct (p u) eqn:Hu; [discriminate|].
    destruct j as [|j]; simpl in Hj; [congruence|]. eapply IH; eauto.
Qed.

Lemma where_row_head {B} (p : B -> bool) (row : list B) (c0 y : nat)
  (rest : list nat) :
  where_row p row c0 = y :: rest ->
  exists j v, y = (c0 + j)%nat /\ row !! j = Some v /\ p v = true /\
    forall j' v', row !! j' = Some v' -> p v' = true -> (j <= j')%nat.
Proof.
  revert c0. induction row as [|u row IH]; intros c0 Hw; simpl in Hw.
  - discriminate.
  - destruct (p u) eqn:Hu.
    + injection Hw as <- _. exists 0%nat, u.
      repeat split; [lia|assumption|]. intros; lia.
    + destruct (IH _ Hw) as (j & v & -> & Hj & Hv & Hmin).
      exists (S j), v. repeat split; [lia|assumption|assumption|].
      intros [|j'] v' Hj' Hv'; simpl in Hj'; [congruence|].
      specialize (Hmin j' v' Hj' Hv'). lia.
Qed.

Lemma where_rows_nil {B} (p : B -> bool) (rows : list (list B)) (r0 : nat) :
  where_rows p rows r0 = [] ->
  forall i j v, nd_lookup (Arr2 rows) [i; j] = Some v -> p v = false.
Proof.
  revert r0. induction rows as [|row rows IH]; intros r0 Hnil i j v Hc;
    simpl in *.
  - discriminate.
  - apply app_eq_nil in Hnil as [Hrow Hrest].
    destruct i as [|i]; simpl in Hc.
    + apply fmap_nil_inv in Hrow. eapply where_row_nil; eauto.
    + eapply IH; eauto.
Qed.

(** The first index [numpy.where] lists is a hit, and every hit is at the
    same or a later place in row-major order. *)
Lemma where_rows_head {B} (p : B -> bool) (rows : list (list B))
  (r0 x y : nat) (rest : list (nat * nat)) :
  where_rows p rows r0 = (x, y) :: rest ->
  exists i v, x = (r0 + i)%nat /\ nd_lookup (Arr2 rows) [i; y] = Some v /\
    p v = true /\
    forall i' j' v', nd_lookup (Arr2 rows) [i'; j'] = Some v' -> p v' = true ->
                     (i < i')%nat \/ (i = i' /\ (y <= j')%nat).
Proof.
  revert r0. induction rows as [|row rows IH]; intros r0 Hw; simpl in Hw.
  - discriminate.
  - destruct (where_row p row 0) as [|y0 ys] eqn:Hrow; simpl in Hw.
    + destruct (IH _ Hw) as (i & v & -> & Hc & Hv & Hmin).
      exists (S i), v. repeat split; [lia|exact Hc|exact Hv|].
      intros [|i'] j' v' Hc' Hv'; simpl in Hc'.
      * rewrite (where_row_nil p row 0 Hrow j' v' Hc') in Hv'. discriminate.
      * destruct (Hmin i' j' v' Hc' Hv') as [Hlt|[-> Hle]]; [left; lia|].
        right. split; [reflexivity|exact Hle].
    + injection Hw as <- <- _.
      destruct (where_row_head p row 0 y0 ys Hrow) as (j & v & -> & Hj & Hv & Hmin).
      exists 0%nat, v. repeat split; [lia|exact Hj|exact Hv|].
      intros [|i'] j' v' Hc' Hv'; simpl in Hc'; [|left; lia].
      right. split; [reflexivity|]. specialize (Hmin j' v' Hc' Hv'). lia.
Qed.

Lemma same_dims_cell {A B} (a : list (list A)) (b : list (list B))
  (i j : nat) (v : A) :
  dims (Arr2 a) = dims (Arr2 b) ->
  nd_lookup (Arr2 a) [i; j] = Some v ->
  exists w, nd_lookup (Arr2 b) [i; j] = Some w.
Proof.
  simpl. intros Hdims Hc.
  destruct (a !! i) as [ra|] eqn:Ha; simpl in Hc; [|discriminate].
  assert (Hi : map (fun row : list B => [length row]) b !! i = Some [length ra]).
  { rewrite <- Hdims. change map with (@fmap list _). 
    rewrite list_lookup_fmap, Ha. reflexivity. }
  change map with (@fmap list _) in Hi. rewrite list_lookup_fmap in Hi.
  destruct (b !! i) as [rb|]; simpl in Hi; [|discriminate].
  injection Hi as Hlen. simpl.
  apply lookup_lt_is_Some. rewrite Hlen. eapply lookup_lt_Some; eauto.
Qed.

Lemma dims_nd_map {A B} (f : A -> B) (a : ndarray A) :
  dims (nd_map f a) = dims a.
Proof.
  destruct a as [rows|rows]; simpl; rewrite map_map; apply map_ext; intros row.
  - now rewrite length_map.
  - rewrite map_map. apply map_ext. intros px. now rewrite length_map.
Qed.

(** The value the search compares, cell by cell. *)
Lemma diff_cell_in (A : Arithmetic) (lo la : list (list Q)) (x y : Q)
  (i j : nat) :
  nd_lookup (Arr2 (zip_with (zip_with (fadd A))
                     (map (map (fun v => fmul A (fsub A x v) (fsub A x v))) lo)
                     (map (map (fun v => fmul A (fsub A y v) (fsub A y v))) la)))
    [i; j]
  = glo ← nd_lookup (Arr2 lo) [i; j];
    gla ← nd_lookup (Arr2 la) [i; j];
    Some (squared_distance A x y glo gla).
Proof.
  simpl. rewrite lookup_zip_with, !list_lookup_fmap.
  destruct (lo !! i) as [rlo|]; simpl; [|reflexivity].
  destruct (la !! i) as [rla|]; simpl.
  - rewrite lookup_zip_with, !list_lookup_fmap.
    destruct (rlo !! j); simpl; [|reflexivity].
    now destruct (rla !! j).
  - now destruct (rlo !! j).
Qed.

(** The search over any arithmetic, on two coordinate arrays of one shape
    with at least one cell: the answer is a cell, no cell has a smaller
    computed distance, and no cell of the same computed distance comes
    earlier in row-major order. *)
Lemma nearest_grid_index_in_least (A : Arithmetic) (lo la : list (list Q))
  (x y : Q) :
  dims (Arr2 lo) = dims (Arr2 la) ->
  (exists i j v, nd_lookup (Arr2 lo) [i; j] = Some v) ->
  exists r c glo gla,
    nearest_grid_index_in A (Arr2 lo) (Arr2 la) x y
      = Ok (Z.of_nat r, Z.of_nat c) /\
    nd_lookup (Arr2 lo) [r; c] = Some glo /\
    nd_lookup (Arr2 la) [r; c] = Some gla /\
    forall r' c' lo' la',
      nd_lookup (Arr2 lo) [r'; c'] = Some lo' ->
      nd_lookup (Arr2 la) [r'; c'] = Some la' ->
      (squared_distance A x y glo gla <= squared_distance A x y lo' la')%Q /\
      ((squared_distance A x y lo' la' == squared_distance A x y glo gla)%Q ->
       (r < r')%nat \/ (r = r' /\ (c <= c')%nat)).
Proof.
  intros Hdims (i0 & j0 & v0 & Hlo0).
  destruct (same_dims_cell lo la i0 j0 v0 Hdims Hlo0) as [w0 Hla0].
  unfold nearest_grid_index_in.
  set (f := fun v => fmul A (fsub A x v) (fsub A x v)).
  set (g := fun v => fmul A (fsub A y v) (fsub A y v)).
  assert (Hd : dims (nd_map f (Arr2 lo)) = dims (nd_map g (Arr2 la)))
    by (now rewrite !dims_nd_map).
  unfold nd_zip_with. simpl nd_map in *.
  destruct (decide _) as [_|Hne]; [|contradiction]. simpl mbind.
  set (diff := zip_with (zip_with (fadd A)) (map (map f) lo) (map (map g) la)).
  assert (Hcell : forall i j, nd_lookup (Arr2 diff) [i; j]
            = glo ← nd_lookup (Arr2 lo) [i; j];
              gla ← nd_lookup (Arr2 la) [i; j];
              Some (squared_distance A x y glo gla))
    by (intros; apply diff_cell_in).
  assert (Hsome : squared_distance A x y v0 w0 ∈ concat diff).
  { apply elem_of_concat_cell. exists i0, j0. rewrite Hcell, Hlo0, Hla0.
    reflexivity. }
  unfold nd_min. destruct (concat diff) as [|d ds] eqn:Hcat; [inversion Hsome|].
  simpl mbind. destruct (foldl_Qmin2_least d ds) as [Hmem Hleast].
  set (m := foldl Qmin2 d ds) in *. rewrite <- Hcat in Hmem, Hleast.
  apply elem_of_concat_cell in Hmem as (im & jm & Hm).
  unfold first_where_equal.
  destruct (where_rows (fun v => Qeq_bool v m) diff 0) as [|[r c] rest] eqn:Hw.
  { pose proof (where_rows_nil _ _ _ Hw im jm m Hm) as Hfalse. simpl in Hfalse.
    rewrite (proj2 (Qeq_bool_iff m m) (Qeq_refl m)) in Hfalse. discriminate. }
  destruct (where_rows_head _ _ _ _ _ _ Hw) as (i & v & -> & Hv & Hvm & Hmin).
  simpl Nat.add. rewrite Hcell in Hv.
  destruct (nd_lookup (Arr2 lo) [i; c]) as [glo|] eqn:Hglo; [|discriminate].
  destruct (nd_lookup (Arr2 la) [i; c]) as [gla|] eqn:Hgla; [|discriminate].
  injection Hv as <-. apply Qeq_bool_iff in Hvm.
  exists i, c, glo, gla.
  split; [reflexivity|]. split; [exact Hglo|]. split; [exact Hgla|].
  intros r' c' lo' la' Hlo' Hla'. split.
  - eapply Qle_trans; [apply Qle_lteq; right; exact Hvm|].
    apply Hleast. apply elem_of_concat_cell. exists r', c'.
    rewrite Hcell, Hlo', Hla'. reflexivity.
  - intros Htie. apply (Hmin r' c' (squared_distance A x y lo' la')).
    + rewrite Hcell, Hlo', Hla'. reflexivity.
    + apply Qeq_bool_iff. eapply Qeq_trans; [exact Htie|exact Hvm].
Qed.


(** The methods written with exact operations are the methods over
    [exact_arithmetic]. *)
Lemma nearest_grid_index_exact (nc_lon nc_lat : band) (x y : Q) :
  nearest_grid_index nc_lon nc_lat x y
    = nearest_grid_index_in exact_arithmetic nc_lon nc_lat x y.
Proof. reflexivity. Qed.

Lemma index_function_exact (self : Sentinel.t) (x y : Q) :
  Sentinel.index_function self x y
    = Sentinel.index_function_in exact_arithmetic self x y.
Proof. reflexivity. Qed.

(** C3 (as the claim words it, refuted).  Two cells lie on the parallel
    46.5 at the longitudes -64.5 and -64.4999, and the query point at
    latitude 47.5 lies east of the middle between them, so that the second
    cell is strictly nearer.  In binary64 the two squared distances round
    to one float, and the search answers with the first cell, (0, 0);
    without rounding it answers with (0, 1). *)
Lemma nearest_grid_answers_farther_cell :
  Polymer.lon Samples.close_cells_product = Ok (Arr2 Samples.close_lon_rows) /\
  Polymer.lat Samples.close_cells_product = Ok (Arr2 Samples.close_lat_rows) /\
  Samples.close_lon_rows
    = [[round53 (-645 # 10); round53 (-644999 # 10000)]] /\
  Samples.east_of_middle
    = round53 (-64499949999999984 # 1000000000000000) /\
  Polymer.get_row_col_index_from_longitide_latitude_in binary64
    Samples.close_cells_product Samples.east_of_middle (475 # 10) = Ok (0, 0) /\
  (exists lon0 lat0 lon1 lat1,
      nd_lookup (Arr2 Samples.close_lon_rows) [0; 0]%nat = Some lon0 /\
      nd_lookup (Arr2 Samples.close_lat_rows) [0; 0]%nat = Some lat0 /\
      nd_lookup (Arr2 Samples.close_lon_rows) [0; 1]%nat = Some lon1 /\
      nd_lookup (Arr2 Samples.close_lat_rows) [0; 1]%nat = Some lat1 /\
      (Qsquare (Samples.east_of_middle - lon1) + Qsquare ((475 # 10) - lat1)
       < Qsquare (Samples.east_of_middle - lon0) + Qsquare ((475 # 10) - lat0))%Q /\
      squared_distance binary64 Samples.east_of_middle (475 # 10) lon1 lat1
      = squared_distance binary64 Samples.east_of_middle (475 # 10) lon0 lat0) /\
  Polymer.get_row_col_index_from_longitide_latitude
    Samples.close_cells_product Samples.east_of_middle (475 # 10) = Ok (0, 1).
Proof.
  split; [vm_compute; reflexivity|]. split; [vm_compute; reflexivity|].
  split; [vm_compute; reflexivity|]. split; [vm_compute; reflexivity|].
  split; [vm_compute; reflexivity|]. split; [|vm_compute; reflexivity].
  eexists _, _, _, _.
  split; [reflexivity|]. split; [reflexivity|].
  split; [reflexivity|]. split; [reflexivity|].
  split; vm_compute; reflexivity.
Qed.

(** C3 (amended).  Whatever the arithmetic of the floats, on a product
    whose [lon] and [lat] bands are two-axis grids of one shape with at
    least one cell (rationals, hence free of NaN), the query succeeds with
    the index of a cell; the squared distance
    [(longitude - lon)^2 + (latitude - lat)^2] of that cell to the query
    point, taken as it is given and as the arithmetic computes it, is the
    least computed one over the grid; and any cell of the same computed
    distance has a larger or equal (row, col) in lexicographic order. *)
Theorem nearest_grid_first_computed_minimum (A : Arithmetic)
  (self : Polymer.t) (lo la : list (list Q)) (longitude latitude : Q) :
  Polymer.lon self = Ok (Arr2 lo) ->
  Polymer.lat self = Ok (Arr2 la) ->
  dims (Arr2 lo) = dims (Arr2 la) ->
  (exists i j v, nd_lookup (Arr2 lo) [i; j] = Some v) ->
  exists r c glo gla,
    Polymer.get_row_col_index_from_longitide_latitude_in A self
      longitude latitude = Ok (Z.of_nat r, Z.of_nat c) /\
    nd_lookup (Arr2 lo) [r; c] = Some glo /\
    nd_lookup (Arr2 la) [r; c] = Some gla /\
    forall r' c' lo' la',
      nd_lookup (Arr2 lo) [r'; c'] = Some lo' ->
      nd_lookup (Arr2 la) [r'; c'] = Some la' ->
      (squared_distance A longitude latitude glo gla
         <= squared_distance A longitude latitude lo' la')%Q /\
      ((squared_distance A longitude latitude lo' la'
          == squared_distance A longitude latitude glo gla)%Q ->
       (r < r')%nat \/ (r = r' /\ (c <= c')%nat)).
Proof.
  intros Hlon Hlat Hdims Hcell.
  unfold Polymer.get_row_col_index_from_longitide_latitude_in.
  rewrite Hlon, Hlat. simpl mbind.
  now apply nearest_grid_index_in_least.
Qed.

(** ** The inverse query of the netCDF family *)

Lemma normalize_index_out_of_range (n : nat) (i : Z) :
  ~ (- Z.of_nat n <= i < Z.of_nat n) ->
  normalize_index n i = Raise IndexError.
Proof.
  intros Hout. unfold normalize_index.
  destruct (0 <=? i) eqn:H0; destruct (i <? Z.of_nat n) eqn:H1;
    destruct (- Z.of_nat n <=? i) eqn:H2; destruct (i <? 0) eqn:H3;
    simpl; try reflexivity; exfalso; apply Hout; lia.
Qed.

Lemma normalize_index_negative (n : nat) (i : Z) :
  - Z.of_nat n <= i < 0 ->
  normalize_index n i = normalize_index n (i + Z.of_nat n).
Proof.
  intros Hneg. unfold normalize_index.
  replace (0 <=? i) with false by lia.
  replace (- Z.of_nat n <=? i) with true by lia.
  replace (i <? 0) with true by lia.
  replace (0 <=? i + Z.of_nat n) with true by lia.
  replace (i + Z.of_nat n <? Z.of_nat n) with true by lia.
  reflexivity.
Qed.

Lemma normalize_index_in_range (n : nat) (i : Z) :
  - Z.of_nat n <= i < Z.of_nat n ->
  normalize_index n i = Ok (Z.to_nat (i mod Z.of_nat n)) /\
  (Z.to_nat (i mod Z.of_nat n) < n)%nat.
Proof.
  intros Hin.
  assert (Hmod : 0 <= i mod Z.of_nat n < Z.of_nat n)
    by (apply Z.mod_pos_bound; lia).
  split; [|lia].
  destruct (Z.ltb_spec i 0) as [Hneg|Hpos].
  - rewrite normalize_index_negative by lia.
    rewrite <- (Z_mod_plus_full i 1 (Z.of_nat n)).
    replace (i + 1 * Z.of_nat n) with (i + Z.of_nat n) by lia.
    rewrite Z.mod_small by lia.
    unfold normalize_index.
    replace (0 <=? i + Z.of_nat n) with true by lia.
    replace (i + Z.of_nat n <? Z.of_nat n) with true by lia.
    reflexivity.
  - rewrite Z.mod_small by lia.
    unfold normalize_index.
    replace (0 <=? i) with true by lia.
    replace (i <? Z.of_nat n) with true by lia.
    reflexivity.
Qed.

Lemma as_intp_fits (i : Z) : - 2 ^ 63 <= i < 2 ^ 63 -> as_intp i = Ok i.
Proof.
  intros Hfit. unfold as_intp.
  replace (- 2 ^ 63 <=? i) with true by lia.
  replace (i <? 2 ^ 63) with true by lia.
  reflexivity.
Qed.

Lemma as_intp_Ok (i j : Z) :
  as_intp i = Ok j -> j = i /\ - 2 ^ 63 <= i < 2 ^ 63.
Proof.
  unfold as_intp.
  destruct (Z.leb_spec (- 2 ^ 63) i); destruct (Z.ltb_spec i (2 ^ 63));
    simpl; try (intros [= <-]; lia);
    destruct ((2 ^ 63 <=? i) && (i <? 2 ^ 64)); discriminate.
Qed.

Lemma as_intp_unfit (i : Z) :
  ~ (- 2 ^ 63 <= i < 2 ^ 63) ->
  as_intp i = Raise IndexError \/ as_intp i = Raise OverflowError.
Proof.
  intros Hout. unfold as_intp.
  destruct (Z.leb_spec (- 2 ^ 63) i); destruct (Z.ltb_spec i (2 ^ 63));
    simpl; try lia;
    destruct ((2 ^ 63 <=? i) && (i <? 2 ^ 64)); auto.
Qed.

Lemma as_intp_unsigned (i : Z) :
  2 ^ 63 <= i < 2 ^ 64 -> as_intp i = Raise OverflowError.
Proof.
  intros Hi. unfold as_intp.
  replace (i <? 2 ^ 63) with false by lia. rewrite andb_false_r.
  replace (2 ^ 63 <=? i) with true by lia.
  replace (i <? 2 ^ 64) with true by lia.
  reflexivity.
Qed.

(** An index that does not fit is never answered. *)
Lemma getitem2_unfit {A} (a : ndarray A) (r c : Z) :
  ~ (- 2 ^ 63 <= r < 2 ^ 63) \/ ~ (- 2 ^ 63 <= c < 2 ^ 63) ->
  getitem2 a r c = Raise IndexError \/ getitem2 a r c = Raise OverflowError.
Proof.
  intros Hout. unfold getitem2.
  destruct (as_intp r) as [r'|e] eqn:Hr.
  - apply as_intp_Ok in Hr as [-> Hfr]. cbn [mbind result_bind].
    destruct Hout as [Hout|Hout]; [contradiction|].
    destruct (as_intp_unfit c Hout) as [-> | ->]; auto.
  - destruct (Z.leb_spec (- 2 ^ 63) r); destruct (Z.ltb_spec r (2 ^ 63));
      try (destruct (as_intp_unfit r) as [He|He]; [lia| |];
           rewrite He in Hr; injection Hr as <-; auto).
    rewrite as_intp_fits in Hr by lia. discriminate.
Qed.

(** The first index that does not fit decides the error. *)
Lemma getitem2_unsigned {A} (a : ndarray A) (r c : Z) :
  2 ^ 63 <= r < 2 ^ 64 \/
  (- 2 ^ 63 <= r < 2 ^ 63 /\ 2 ^ 63 <= c < 2 ^ 64) ->
  getitem2 a r c = Raise OverflowError.
Proof.
  intros [Hr|[Hr Hc]]; unfold getitem2.
  - now rewrite (as_intp_unsigned r Hr).
  - rewrite (as_intp_fits r Hr). cbn [mbind result_bind].
    now rewrite (as_intp_unsigned c Hc).
Qed.

Lemma getitem2_out_of_range {A} (a : ndarray A) (r c : Z) :
  - 2 ^ 63 <= r < 2 ^ 63 -> - 2 ^ 63 <= c < 2 ^ 63 ->
  ~ (- Z.of_nat (fst (extent a)) <= r < Z.of_nat (fst (extent a))) \/
  ~ (- Z.of_nat (snd (extent a)) <= c < Z.of_nat (snd (extent a))) ->
  getitem2 a r c = Raise IndexError.
Proof.
  intros Hfr Hfc Hout. unfold getitem2.
  rewrite (as_intp_fits r Hfr). cbn [mbind result_bind].
  rewrite (as_intp_fits c Hfc). cbn [mbind result_bind].
  destruct a as [rows|rows]; simpl in *; unfold getitem2_rows.
  - destruct (normalize_index (length rows) r) as [i|e] eqn:Hr; simpl.
    + destruct Hout as [Hout|Hout].
      * rewrite (normalize_index_out_of_range _ _ Hout) in Hr. discriminate.
      * now rewrite (normalize_index_out_of_range _ _ Hout).
    + unfold normalize_index in Hr.
      repeat (match type of Hr with context [if ?b then _ else _] =>
                destruct b end); congruence.
  - destruct (normalize_index (length rows) r) as [i|e] eqn:Hr; simpl.
    + destruct Hout as [Hout|Hout].
      * rewrite (normalize_index_out_of_range _ _ Hout) in Hr. discriminate.
      * now rewrite (normalize_index_out_of_range _ _ Hout).
    + unfold normalize_index in Hr.
      repeat (match type of Hr with context [if ?b then _ else _] =>
                destruct b end); congruence.
Qed.

(** On an array whose rows have one length, an index pair inside both
    ranges reads the cell it names, a negative index counted from the end. *)
Lemma getitem2_in_range (rows : list (list Q)) (r c : Z) :
  rectangular (Arr2 rows) ->
  - 2 ^ 63 <= r < 2 ^ 63 -> - 2 ^ 63 <= c < 2 ^ 63 ->
  - Z.of_nat (length rows) <= r < Z.of_nat (length rows) ->
  - Z.of_nat (row_length rows) <= c < Z.of_nat (row_length rows) ->
  exists v,
    getitem2 (Arr2 rows) r c = Ok (Scalar v) /\
    nd_lookup (Arr2 rows)
      [Z.to_nat (r mod Z.of_nat (length rows));
       Z.to_nat (c mod Z.of_nat (row_length rows))] = Some v.
Proof.
  intros Hrect Hfr Hfc Hr Hc. unfold getitem2.
  rewrite (as_intp_fits r Hfr). cbn [mbind result_bind].
  rewrite (as_intp_fits c Hfc). cbn [mbind result_bind].
  unfold getitem2_rows.
  destruct (normalize_index_in_range _ _ Hr) as [-> Hi].
  destruct (normalize_index_in_range _ _ Hc) as [-> Hj].
  cbn [mbind result_bind].
  set (i := Z.to_nat (r mod Z.of_nat (length rows))) in *.
  set (j := Z.to_nat (c mod Z.of_nat (row_length rows))) in *.
  destruct (lookup_lt_is_Some_2 rows i Hi) as [row Hrow].
  assert (Hlen : length row = row_length rows).
  { simpl in Hrect.
    apply (proj1 (Forall_forall _ _) Hrect row).
    eapply list_elem_of_lookup_2; eauto. }
  destruct (lookup_lt_is_Some_2 row j) as [v Hv]; [lia|].
  exists v. simpl. rewrite Hrow. simpl. rewrite Hv. split; reflexivity.
Qed.

Lemma plain_polymer_constructed (bph : option BridgePointsHandler.t)
  (cwm : option CleanWaterMaskHandler.t) :
  Samples.construct_polymer Samples.PlainPolymerImageHandler bph cwm
    = Ok (Samples.plain_polymer_product bph cwm).
Proof. vm_compute. reflexivity. Qed.

(** C4 (as the claim words it, refuted).  On the sample product, whose
    bands have 2 rows and 3 columns, the index (-1, -1) lies outside the
    extent, and the query answers with the coordinates of the last cell
    (1, 2) instead of failing. *)
Lemma negative_index_wraps_around :
  Samples.construct_polymer Samples.PlainPolymerImageHandler None None
    = Ok (Samples.plain_polymer_product None None) /\
  Polymer.image_shape (Samples.plain_polymer_product None None)
    = Ok [2; 3]%nat /\
  ~ (0 <= -1 < 2) /\
  Polymer.get_longitude_latitude_from_row_col_index
    (Samples.plain_polymer_product None None) (-1) (-1)
    = Ok (Scalar 30%Q, Scalar 40%Q) /\
  Polymer.get_longitude_latitude_from_row_col_index
    (Samples.plain_polymer_product None None) 1 2
    = Ok (Scalar 30%Q, Scalar 40%Q).
Proof.
  split; [apply plain_polymer_constructed|].
  split; [vm_compute; reflexivity|].
  split; [lia|].
  split; vm_compute; reflexivity.
Qed.

(** C4 (amended).  With [rows] x [cols] the extent of the [lon] and [lat]
    arrays, the inverse query at [(row_index, col_index)]
    - answers with the coordinates of the cell
      [(row_index mod rows, col_index mod cols)] when [row_index] lies in
      [-rows, rows) and [col_index] in [-cols, cols), both fitting a C
      long: a negative index counts from the end;
    - raises [IndexError] when both indices fit a C long and one of them
      lies outside its range;
    - raises, with [IndexError] or [OverflowError], when one of them does
      not fit a C long, and with [OverflowError] when the first such index
      lies between [2^63] and [2^64 - 1]. *)
Theorem inverse_query_counts_negative_from_the_end (self : Polymer.t)
  (lo la : list (list Q)) (row_index col_index : Z) :
  Polymer.lon self = Ok (Arr2 lo) ->
  Polymer.lat self = Ok (Arr2 la) ->
  rectangular (Arr2 lo) -> rectangular (Arr2 la) ->
  extent (Arr2 la) = extent (Arr2 lo) ->
  let rows := Z.of_nat (length lo) in
  let cols := Z.of_nat (row_length lo) in
  let fits i := - 2 ^ 63 <= i < 2 ^ 63 in
  let query :=
    Polymer.get_longitude_latitude_from_row_col_index self
      row_index col_index in
  (fits row_index -> fits col_index ->
   - rows <= row_index < rows -> - cols <= col_index < cols ->
   exists glo gla,
     query = Ok (Scalar glo, Scalar gla) /\
     nd_lookup (Arr2 lo)
       [Z.to_nat (row_index mod rows); Z.to_nat (col_index mod cols)]
       = Some glo /\
     nd_lookup (Arr2 la)
       [Z.to_nat (row_index mod rows); Z.to_nat (col_index mod cols)]
       = Some gla) /\
  (fits row_index -> fits col_index ->
   ~ (- rows <= row_index < rows) \/ ~ (- cols <= col_index < cols) ->
   query = Raise IndexError) /\
  (~ fits row_index \/ ~ fits col_index ->
   query = Raise IndexError \/ query = Raise OverflowError) /\
  (2 ^ 63 <= row_index < 2 ^ 64 \/
   (fits row_index /\ 2 ^ 63 <= col_index < 2 ^ 64) ->
   query = Raise OverflowError).
Proof.
  intros Hlon Hlat Hrlo Hrla Hext rows cols fits query.
  injection Hext as Hrows Hcols.
  subst query. unfold Polymer.get_longitude_latitude_from_row_col_index.
  rewrite Hlon, Hlat. cbn [mbind result_bind]. subst rows cols fits.
  split; [|split; [|split]].
  - intros Hfr Hfc Hr Hc.
    destruct (getitem2_in_range lo row_index col_index Hrlo Hfr Hfc Hr Hc)
      as (glo & -> & Hglo).
    destruct (getitem2_in_range la row_index col_index Hrla Hfr Hfc)
      as (gla & -> & Hgla); [lia|lia|].
    exists glo, gla. rewrite Hrows, Hcols in Hgla.
    split; [reflexivity|]. split; assumption.
  - intros Hfr Hfc Hout.
    now rewrite (getitem2_out_of_range (Arr2 lo) _ _ Hfr Hfc Hout).
  - intros Hunfit.
    destruct (getitem2_unfit (Arr2 lo) row_index col_index Hunfit)
      as [-> | ->]; auto.
  - intros Hunsigned.
    now rewrite (getitem2_unsigned (Arr2 lo) row_index col_index Hunsigned).
Qed.

(** ** Elementwise operations *)

Lemma nd_lookup_nd_map {A B} (f : A -> B) (a : ndarray A) (idx : list nat) :
  nd_lookup (nd_map f a) idx = f <$> nd_lookup a idx.
Proof.
  destruct a as [rows|rows]; simpl.
  - destruct idx as [|i [|j [|k idx]]]; try reflexivity.
    change map with (@fmap list _). rewrite list_lookup_fmap.
    destruct (rows !! i) as [row|]; simpl; [|reflexivity].
    apply list_lookup_fmap.
  - destruct idx as [|i [|j [|k [|l idx]]]]; try reflexivity.
    change map with (@fmap list _). rewrite list_lookup_fmap.
    destruct (rows !! i) as [row|]; simpl; [|reflexivity].
    rewrite list_lookup_fmap.
    destruct (row !! j) as [px|]; simpl; [|reflexivity].
    apply list_lookup_fmap.
Qed.

Lemma shape_nd_map {A B} (f : A -> B) (a : ndarray A) :
  shape (nd_map f a) = shape a.
Proof.
  destruct a as [rows|rows]; simpl.
  - rewrite length_map. destruct rows as [|row rows]; simpl;
      [reflexivity | now rewrite length_map].
  - rewrite length_map. destruct rows as [|row rows]; simpl; [reflexivity|].
    rewrite length_map. destruct row as [|px row]; simpl.
    + f_equal. f_equal. f_equal.
      induction rows as [|r rs IH]; simpl; [reflexivity|].
      destruct r as [|px r]; simpl; [exact IH | now rewrite length_map].
    + now rewrite length_map.
Qed.

Lemma extent_nd_map {A B} (f : A -> B) (a : ndarray A) :
  extent (nd_map f a) = extent a.
Proof.
  destruct a as [rows|rows]; simpl; rewrite length_map;
    destruct rows as [|row rows]; simpl; try reflexivity;
    now rewrite length_map.
Qed.

Ltac case_lookup :=
  match goal with
  | |- context [?l !! ?i] => is_var l; destruct (l !! i) eqn:?; simpl
  end.

(** An elementwise combination holds, cell by cell, the combination of the
    two cells. *)
Lemma nd_zip_with_lookup {A B C} (f : A -> B -> C) (a : ndarray A)
  (b : ndarray B) (c : ndarray C) (idx : list nat) :
  nd_zip_with f a b = Ok c ->
  nd_lookup c idx = x ← nd_lookup a idx; y ← nd_lookup b idx; Some (f x y).
Proof.
  destruct a as [ra|ra], b as [rb|rb]; simpl; try discriminate;
    (destruct (decide _); [|discriminate]); intros [= <-];
    destruct idx as [|i [|j [|k [|l idx]]]]; simpl; try reflexivity;
    repeat (rewrite ?lookup_zip_with; case_lookup);
    congruence.
Qed.

Lemma nd_zip_with_same_shape {A B C} (f : A -> B -> C) (a : ndarray A)
  (b : ndarray B) :
  same_rank a b = true -> dims a = dims b ->
  exists c, nd_zip_with f a b = Ok c /\ dims c = dims a.
Proof.
  destruct a as [ra|ra], b as [rb|rb]; simpl; try discriminate; intros _ Hd.
  - destruct (decide _) as [_|]; [|contradiction]. eexists. split; [reflexivity|].
    simpl. revert rb Hd. induction ra as [|rowa ra IH]; intros [|rowb rb] Hd;
      simpl in *; try discriminate; [reflexivity|].
    injection Hd as Hlen Hrest. f_equal; [|now apply IH].
    rewrite length_zip_with. f_equal. lia.
  - destruct (decide _) as [_|]; [|contradiction]. eexists. split; [reflexivity|].
    simpl. revert rb Hd. induction ra as [|rowa ra IH]; intros [|rowb rb] Hd;
      simpl in *; try discriminate; [reflexivity|].
    injection Hd as Hrow Hrest. f_equal; [|now apply IH].
    clear IH Hrest. revert rowb Hrow.
    induction rowa as [|pa rowa IH]; intros [|pb rowb] Hrow; simpl in *;
      try discriminate; [reflexivity|].
    injection Hrow as Hlen Hrest. f_equal; [|now apply IH].
    rewrite length_zip_with. lia.
Qed.

(** ** The mask composer *)

(** C5.  With both providers attached, the bridge mask built for the image
    shape, and the clean-water provider's mask of that same shape, the
    composed mask is present and holds, cell by cell, the bridge mask's cell
    AND the negation of the provider's cell.  With either provider absent
    the result is [None]. *)
Theorem composed_water_mask (self : Polymer.t) :
  (forall bph cwm shp m1,
      Polymer.bridge_points_handler self = Some bph ->
      Polymer.clean_water_mask_handler self = Some cwm ->
      Polymer.image_shape self = Ok shp ->
      BridgePointsHandler.get_valid_points_mask bph shp = Ok m1 ->
      same_rank m1 (CleanWaterMaskHandler.get_valid_points_mask cwm) = true ->
      dims m1 = dims (CleanWaterMaskHandler.get_valid_points_mask cwm) ->
      exists m,
        Polymer.get_water_mask_from_bridge_and_clean_water_mask_handler self
          = Ok (Some m) /\
        dims m = dims m1 /\
        forall idx,
          nd_lookup m idx =
            x ← nd_lookup m1 idx;
            y ← nd_lookup (CleanWaterMaskHandler.get_valid_points_mask cwm) idx;
            Some (x && negb y)) /\
  (Polymer.bridge_points_handler self = None \/
   Polymer.clean_water_mask_handler self = None ->
   Polymer.get_water_mask_from_bridge_and_clean_water_mask_handler self
     = Ok None).
Proof.
  split.
  - intros bph cwm shp m1 Hb Hc Hshp Hm1 Hrank Hdims.
    unfold Polymer.get_water_mask_from_bridge_and_clean_water_mask_handler.
    rewrite Hb, Hc, Hshp. simpl mbind. rewrite Hm1. simpl mbind.
    set (valid := CleanWaterMaskHandler.get_valid_points_mask cwm) in *.
    destruct (nd_zip_with_same_shape andb m1 (nd_map negb valid))
      as (m & Hm & Hdm).
    + destruct m1, valid; simpl in *; congruence.
    + now rewrite dims_nd_map.
    + exists m. simpl. rewrite Hm. simpl. split; [reflexivity|].
      split; [exact Hdm|]. intros idx.
      rewrite (nd_zip_with_lookup _ _ _ _ idx Hm), nd_lookup_nd_map.
      destruct (nd_lookup m1 idx); simpl; [|reflexivity].
      now destruct (nd_lookup valid idx).
  - unfold Polymer.get_water_mask_from_bridge_and_clean_water_mask_handler.
    intros [-> | ->]; [reflexivity|].
    now destruct (Polymer.bridge_points_handler self).
Qed.

(** ** The band passes *)

(** One pass over the band names: each name is popped from the source dict,
    its band is transformed by [g] and stored under the same name.  After a
    successful pass every name of the list is in the output, with the
    transformed band of the source, and no other key was touched. *)
Lemma band_pass_spec (g : band -> result band) (names : list string)
  (src acc src' out : gmap string band) :
  for_each (fun '(s, o) name =>
              '(b, s') ← pop s name;
              b' ← g b;
              Ok (s', <[name := b']> o))
           names (src, acc) = Ok (src', out) ->
  (forall name, name ∈ names ->
     exists b b', src !! name = Some b /\ g b = Ok b' /\ out !! name = Some b') /\
  (forall name, name ∉ names -> out !! name = acc !! name).
Proof.
  revert src acc. induction names as [|n names IH]; intros src acc Hrun;
    simpl in Hrun.
  - injection Hrun as <- <-. split; [inversion 1 | reflexivity].
  - apply bind_Ok in Hrun as ([s1 o1] & Hbody & Hrest).
    apply bind_Ok in Hbody as ([b s2] & Hpop & Hbody).
    apply bind_Ok in Hbody as (b' & Hg & Hret).
    injection Hret as <- <-.
    unfold pop in Hpop. destruct (src !! n) as [b0|] eqn:Hn; [|discriminate].
    injection Hpop as <- <-.
    destruct (IH _ _ Hrest) as [Hin Hout]. split.
    + intros name Hname. destruct (decide (name ∈ names)) as [Hmem|Hnot].
      * destruct (Hin name Hmem) as (b1 & b1' & Hsrc & Hg1 & Ho).
        exists b1, b1'. split; [|split; assumption].
        apply lookup_delete_Some in Hsrc. tauto.
      * apply elem_of_cons in Hname as [->|Hname]; [|contradiction].
        exists b0, b'. split; [exact Hn|]. split; [exact Hg|].
        rewrite (Hout n Hnot). apply lookup_insert_eq.
    + intros name Hname. apply not_elem_of_cons in Hname as [Hne Hnot].
      rewrite (Hout name Hnot). now apply lookup_insert_ne.
Qed.

Lemma band_pass_keys (g : band -> result band) (names : list string)
  (src src' out : gmap string band) (name : string) (b' : band) :
  for_each (fun '(s, o) name =>
              '(b, s') ← pop s name;
              b' ← g b;
              Ok (s', <[name := b']> o))
           names (src, ∅) = Ok (src', out) ->
  out !! name = Some b' ->
  name ∈ names /\ exists b, src !! name = Some b /\ g b = Ok b'.
Proof.
  intros Hrun Hout. destruct (band_pass_spec _ _ _ _ _ _ Hrun) as [Hin Hnot].
  destruct (decide (name ∈ names)) as [Hmem|Hno].
  - split; [exact Hmem|]. destruct (Hin name Hmem) as (b & b1 & Hs & Hg & Ho).
    exists b. split; [exact Hs|]. congruence.
  - rewrite (Hnot name Hno), lookup_empty in Hout. discriminate.
Qed.

(** What a successful [__init__] of the raster family has done to each
    band: the transformation list, then the crop. *)
Lemma sentinel_init_bands `{Pyproj} (c : Sentinel.Subclass) (zip : string)
  (bph : option BridgePointsHandler.t) (loaded : Sentinel.LoadedData)
  (h : Sentinel.t) :
  Sentinel.__init__ c zip bph loaded = Ok h ->
  Sentinel.cls h = c /\
  exists subset blue f,
    Sentinel.ld_bands loaded !! "blue_band" = Some blue /\
    Sentinel._subset_transformed_data_dict h = Some subset /\
    (forall name, name ∈ Sentinel.BAND_NAME_MAPPING.*1 ->
                  is_Some (subset !! name)) /\
    forall name b'', subset !! name = Some b'' ->
      exists b b',
        Sentinel.ld_bands loaded !! name = Some b /\
        for_each (fun b t => apply_transformation_to_band t b)
          (Sentinel._image_transformation_list c (shape blue)) b = Ok b' /\
        apply_transformation_to_band
          (Sentinel._image_wkt_polygone_subset c f) b' = Ok b''.
Proof.
  unfold Sentinel.__init__. intros Hinit.
  apply bind_Ok in Hinit as (blue & Hblue & Hinit).
  apply bind_Ok in Hinit as (transformed & Htr & Hinit).
  apply bind_Ok in Hinit as (subset & Hsub & Hret).
  injection Hret as <-. simpl. split; [reflexivity|].
  unfold getitem in Hblue.
  destruct (Sentinel.ld_bands loaded !! "blue_band") as [bl|] eqn:Hbl;
    [|discriminate]. injection Hblue as ->.
  unfold Sentinel._apply_image_transformation_list in Htr.
  apply bind_Ok in Htr as ([l1 t1] & Hpass1 & Hret1). injection Hret1 as ->.
  unfold Sentinel._apply_image_wkt_polygone_subset in Hsub.
  apply bind_Ok in Hsub as ([l2 t2] & Hpass2 & Hret2). injection Hret2 as ->.
  eexists subset, blue, _. split; [reflexivity|]. split; [reflexivity|].
  split.
  - intros name Hname.
    destruct (band_pass_spec _ _ _ _ _ _ Hpass2) as [Hin _].
    destruct (Hin name Hname) as (b & b' & _ & _ & Ho). now exists b'.
  - intros name b'' Hb''.
    destruct (band_pass_keys _ _ _ _ _ _ _ Hpass2 Hb'') as [Hname (b' & Hb' & Hcrop)].
    destruct (band_pass_keys _ _ _ _ _ _ _ Hpass1 Hb') as [_ (b & Hb & Hlist)].
    exists b, b'. split; [exact Hb|]. split; [exact Hlist|].
    exact Hcrop.
Qed.

(** ** The water mask of the raster family *)

(** C9.  On a constructed product the scene classification band is there,
    the water mask has its shape, and each cell of the mask tells whether
    the classification value of that cell equals 6: true exactly at the
    cells of value 6. *)
Theorem water_mask_is_class_six `{Pyproj} (c : Sentinel.Subclass)
  (zip : string) (bph : option BridgePointsHandler.t)
  (loaded : Sentinel.LoadedData) (h : Sentinel.t) :
  Sentinel.__init__ c zip bph loaded = Ok h ->
  exists clf m,
    Sentinel.scene_clf h = Ok clf /\
    Sentinel.water_mask h = Ok m /\
    shape m = shape clf /\
    (forall idx, nd_lookup m idx = (fun v => Qeq_bool v 6) <$> nd_lookup clf idx) /\
    (forall idx, nd_lookup m idx = Some true <->
                 exists v, nd_lookup clf idx = Some v /\ (v == 6)%Q) /\
    (forall idx, nd_lookup m idx = Some false <->
                 exists v, nd_lookup clf idx = Some v /\ ~ (v == 6)%Q).
Proof.
  intros Hinit.
  destruct (sentinel_init_bands _ _ _ _ _ Hinit)
    as (_ & subset & blue & f & _ & Hsub & Hkeys & _).
  destruct (Hkeys "scene_clf") as [clf Hclf].
  { unfold Sentinel.BAND_NAME_MAPPING. simpl. set_solver. }
  assert (Hscene : Sentinel.scene_clf h = Ok clf).
  { unfold Sentinel.scene_clf, Sentinel.band_property, getitem.
    rewrite Hsub. simpl. now rewrite Hclf. }
  exists clf, (nd_map (fun v => Qeq_bool v 6) clf).
  split; [exact Hscene|]. split.
  { unfold Sentinel.water_mask. now rewrite Hscene. }
  split; [apply shape_nd_map|]. split; [intros; apply nd_lookup_nd_map|].
  split; intros idx; rewrite nd_lookup_nd_map;
    destruct (nd_lookup clf idx) as [v|]; simpl.
  - split.
    + intros [= Hv]. exists v. split; [reflexivity|]. now apply Qeq_bool_iff.
    + intros (v' & [= <-] & Hv). f_equal. now apply Qeq_bool_iff.
  - split; [discriminate | intros (v' & Hv' & _); discriminate].
  - split.
    + intros [= Hv]. exists v. split; [reflexivity|].
      intros Heq. apply Qeq_bool_iff in Heq. congruence.
    + intros (v' & [= <-] & Hv). f_equal.
      destruct (Qeq_bool v 6) eqn:Hb; [|reflexivity].
      apply Qeq_bool_iff in Hb. contradiction.
  - split; [discriminate | intros (v' & Hv' & _); discriminate].
Qed.

(** ** One extent for all bands *)

(** Bands of one extent stay bands of one extent through a list of
    extent-determined transformations. *)
Lemma transformation_list_extent (ts : list Transformation)
  (b1 b2 b1' b2' : band) :
  Forall extent_determined ts ->
  rectangular b1 -> rectangular b2 -> extent b1 = extent b2 ->
  for_each (fun b t => apply_transformation_to_band t b) ts b1 = Ok b1' ->
  for_each (fun b t => apply_transformation_to_band t b) ts b2 = Ok b2' ->
  rectangular b1' /\ rectangular b2' /\ extent b1' = extent b2'.
Proof.
  intros Hts. revert b1 b2.
  induction Hts as [|t ts Ht _ IH]; intros b1 b2 Hr1 Hr2 Hext H1 H2;
    simpl in H1, H2.
  - injection H1 as <-. injection H2 as <-. auto.
  - apply bind_Ok in H1 as (c1 & Hc1 & H1).
    apply bind_Ok in H2 as (c2 & Hc2 & H2).
    destruct (Ht b1 b2 c1 c2 Hr1 Hr2 Hext Hc1 Hc2) as (Hrc1 & Hrc2 & Hextc).
    exact (IH c1 c2 Hrc1 Hrc2 Hextc H1 H2).
Qed.

Lemma sentinel_bands_one_extent `{Pyproj} (c : Sentinel.Subclass)
  (zip : string) (bph : option BridgePointsHandler.t)
  (loaded : Sentinel.LoadedData) (h : Sentinel.t) :
  Sentinel.__init__ c zip bph loaded = Ok h ->
  all_rectangular (Sentinel.ld_bands loaded) ->
  one_extent (Sentinel.ld_bands loaded) ->
  (forall shp, Forall extent_determined
                 (Sentinel._image_transformation_list c shp)) ->
  (forall f, extent_determined (Sentinel._image_wkt_polygone_subset c f)) ->
  exists subset,
    Sentinel._subset_transformed_data_dict h = Some subset /\
    (forall name, name ∈ Sentinel.BAND_NAME_MAPPING.*1 ->
                  is_Some (subset !! name)) /\
    one_extent subset.
Proof.
  intros Hinit Hrect Hone Hlist Hcrop.
  destruct (sentinel_init_bands _ _ _ _ _ Hinit)
    as (_ & subset & blue & f & _ & Hsub & Hkeys & Hbands).
  exists subset. split; [exact Hsub|]. split; [exact Hkeys|].
  intros n1 n2 c1 c2 Hn1 Hn2.
  destruct (Hbands n1 c1 Hn1) as (a1 & a1' & Ha1 & Hl1 & Hc1).
  destruct (Hbands n2 c2 Hn2) as (a2 & a2' & Ha2 & Hl2 & Hc2).
  destruct (transformation_list_extent _ a1 a2 a1' a2' (Hlist _)
              (Hrect _ _ Ha1) (Hrect _ _ Ha2) (Hone _ _ _ _ Ha1 Ha2) Hl1 Hl2)
    as (Hr1 & Hr2 & Hext).
  now destruct (Hcrop f a1' a2' c1 c2 Hr1 Hr2 Hext Hc1 Hc2) as (_ & _ & Hfinal).
Qed.

(** The colour composite has the rows and columns of its red plane. *)
Lemma stack_channels_extent (r g b t : band) :
  stack_channels r g b = Ok t -> extent t = extent r.
Proof.
  destruct r as [rr|rr], g as [gg|gg], b as [bb|bb]; simpl; try discriminate.
  destruct (decide _) as [[Hg Hb]|]; [|discriminate]. intros [= <-]. simpl.
  destruct rr as [|r0 rr], gg as [|g0 gg], bb as [|b0 bb]; simpl in *;
    try discriminate; [reflexivity|].
  injection Hg as Hg0 Hg. injection Hb as Hb0 Hb.
  rewrite !length_zip_with.
  apply (f_equal length) in Hg, Hb. rewrite !length_map in Hg, Hb.
  f_equal; lia.
Qed.

Lemma polymer_load_bands (nc_data : Polymer.Dataset)
  (loaded : Polymer.LoadedData) :
  Polymer._load_nc_data_dict nc_data = Ok loaded ->
  forall name b, Polymer.ld_bands loaded !! name = Some b ->
                 exists code, Polymer.variables nc_data !! code = Some b.
Proof.
  unfold Polymer._load_nc_data_dict. intros Hload.
  apply bind_Ok in Hload as (bands & Hloop & Hret). injection Hret as <-.
  simpl. revert Hloop.
  apply (for_each_invariant
           (fun d : gmap string band => forall name b, d !! name = Some b ->
              exists code, Polymer.variables nc_data !! code = Some b)).
  - intros d [band_name codes] d' _ Hd Hbody name b Hname.
    apply bind_Ok in Hbody as (v & Hv & Hret). injection Hret as <-.
    destruct (decide (band_name = name)) as [->|Hne].
    + rewrite lookup_insert_eq in Hname. injection Hname as ->.
      clear -Hv. induction codes as [|code codes IH]; simpl in Hv;
        [discriminate|].
      rewrite dict_get_fmap_Some in Hv.
      destruct (Polymer.variables nc_data !! code) as [v|] eqn:Hcode.
      * injection Hv as ->. now exists code.
      * now apply IH.
    + rewrite lookup_insert_ne in Hname by exact Hne. exact (Hd name b Hname).
  - intros name b Hname. rewrite lookup_empty in Hname. discriminate.
Qed.

Lemma polymer_bands_one_extent (c : Polymer.Subclass) (p : string)
  (bph : option BridgePointsHandler.t) (cwm : option CleanWaterMaskHandler.t)
  (nc_data : Polymer.Dataset) (loaded : Polymer.LoadedData) (h : Polymer.t) :
  Polymer._load_nc_data_dict nc_data = Ok loaded ->
  Polymer.__init__ c p bph cwm nc_data = Ok h ->
  all_rectangular (Polymer.ld_bands loaded) ->
  one_extent (Polymer.ld_bands loaded) ->
  (forall shp, Forall extent_determined
                 (Polymer._image_transformation_list c shp)) ->
  (forall f, extent_determined (Polymer._image_wkt_polygone_subset c f)) ->
  exists final,
    Polymer._subset_transformed_data_dict h = Some final /\
    (forall name,
        name ∈ "true_color_image" :: Polymer.BAND_NAME_MAPPING.*1 ->
        is_Some (final !! name)) /\
    one_extent final.
Proof.
  intros Hload Hinit Hrect Hone Hlist Hcrop. unfold Polymer.__init__ in Hinit.
  rewrite Hload in Hinit. simpl mbind in Hinit.
  apply bind_Ok in Hinit as (blue & _ & Hinit).
  apply bind_Ok in Hinit as (transformed & Htr & Hinit).
  apply bind_Ok in Hinit as (tlon & _ & Hinit).
  apply bind_Ok in Hinit as (tlat & _ & Hinit).
  apply bind_Ok in Hinit as (subset & Hsub & Hinit).
  apply bind_Ok in Hinit as (tci & Htci & Hret).
  injection Hret as <-. simpl.
  unfold Polymer._apply_image_transformation_list in Htr.
  apply bind_Ok in Htr as ([l1 t1] & Hpass1 & Hret1). injection Hret1 as ->.
  unfold Polymer._apply_image_wkt_polygone_subset in Hsub.
  apply bind_Ok in Hsub as ([l2 t2] & Hpass2 & Hret2). injection Hret2 as ->.
  assert (Hsubset : one_extent subset).
  { intros n1 n2 c1 c2 Hn1 Hn2.
    destruct (band_pass_keys _ _ _ _ _ _ _ Hpass2 Hn1) as [_ (a1' & Ha1' & Hc1)].
    destruct (band_pass_keys _ _ _ _ _ _ _ Hpass2 Hn2) as [_ (a2' & Ha2' & Hc2)].
    destruct (band_pass_keys _ _ _ _ _ _ _ Hpass1 Ha1') as [_ (a1 & Ha1 & Hl1)].
    destruct (band_pass_keys _ _ _ _ _ _ _ Hpass1 Ha2') as [_ (a2 & Ha2 & Hl2)].
    destruct (transformation_list_extent _ a1 a2 a1' a2' (Hlist _)
                (Hrect _ _ Ha1) (Hrect _ _ Ha2) (Hone _ _ _ _ Ha1 Ha2) Hl1 Hl2)
      as (Hr1 & Hr2 & Hext).
    now destruct (Hcrop _ a1' a2' c1 c2 Hr1 Hr2 Hext Hc1 Hc2) as (_ & _ & Hf). }
  unfold Polymer._get_true_color_image in Htci.
  apply bind_Ok in Htci as (red & Hred & Htci).
  apply bind_Ok in Htci as (green & _ & Htci).
  apply bind_Ok in Htci as (blue' & _ & Htci).
  apply bind_Ok in Htci as (stacked & Hstack & Hret). injection Hret as <-.
  assert (Hred' : subset !! "red_band" = Some red).
  { unfold Polymer.red_band, Polymer.band_property, getitem in Hred.
    simpl in Hred. destruct (subset !! "red_band"); congruence. }
  assert (Htci : extent (nd_map ubyte stacked) = extent red).
  { rewrite extent_nd_map, (stack_channels_extent _ _ _ _ Hstack).
    apply extent_nd_map. }
  eexists. split; [reflexivity|]. split.
  - intros name Hname. apply elem_of_cons in Hname as [->|Hname].
    + rewrite lookup_insert_eq. eauto.
    + destruct (band_pass_spec _ _ _ _ _ _ Hpass2) as [Hin _].
      destruct (Hin name Hname) as (b & b' & _ & _ & Ho).
      destruct (decide ("true_color_image" = name)) as [<-|Hne].
      * rewrite lookup_insert_eq. eauto.
      * rewrite lookup_insert_ne by exact Hne. eauto.
  - intros n1 n2 c1 c2 Hn1 Hn2.
    apply lookup_insert_Some in Hn1 as [[<- <-]|[Hne1 Hn1]];
      apply lookup_insert_Some in Hn2 as [[<- <-]|[Hne2 Hn2]].
    + reflexivity.
    + rewrite Htci. exact (Hsubset _ _ _ _ Hred' Hn2).
    + rewrite Htci. exact (Hsubset _ _ _ _ Hn1 Hred').
    + exact (Hsubset _ _ _ _ Hn1 Hn2).
Qed.

(** C8.  In both families, when the raw bands are arrays of one rows x cols
    extent and the transformations of the class (those of the list and the
    crop) give an extent fixed by the input extent, a successful
    construction leaves every named band in the final dict, and any two of
    them have the same rows x cols extent. *)
Theorem bands_share_extent :
  (forall (P : Pyproj) c zip bph loaded h,
      Sentinel.__init__ c zip bph loaded = Ok h ->
      all_rectangular (Sentinel.ld_bands loaded) ->
      one_extent (Sentinel.ld_bands loaded) ->
      (forall shp, Forall extent_determined
                     (Sentinel._image_transformation_list c shp)) ->
      (forall f, extent_determined (Sentinel._image_wkt_polygone_subset c f)) ->
      exists final,
        Sentinel._subset_transformed_data_dict h = Some final /\
        (forall name, name ∈ Sentinel.BAND_NAME_MAPPING.*1 ->
                      is_Some (final !! name)) /\
        one_extent final) /\
  (forall c p bph cwm nc_data loaded h,
      Polymer._load_nc_data_dict nc_data = Ok loaded ->
      Polymer.__init__ c p bph cwm nc_data = Ok h ->
      all_rectangular (Polymer.ld_bands loaded) ->
      one_extent (Polymer.ld_bands loaded) ->
      (forall shp, Forall extent_determined
                     (Polymer._image_transformation_list c shp)) ->
      (forall f, extent_determined (Polymer._image_wkt_polygone_subset c f)) ->
      exists final,
        Polymer._subset_transformed_data_dict h = Some final /\
        (forall name,
            name ∈ "true_color_image" :: Polymer.BAND_NAME_MAPPING.*1 ->
            is_Some (final !! name)) /\
        one_extent final).
Proof.
  split.
  - intros P c zip bph loaded h. apply sentinel_bands_one_extent.
  - intros c p bph cwm nc_data loaded h. apply polymer_bands_one_extent.
Qed.

(** ** The modelled transformations give an extent fixed by the input *)

Lemma uniform_rows_rect {B} (n : nat) (rows : list (list B)) :
  Forall (fun row => length row = n) rows ->
  Forall (fun row => length row = row_length rows) rows /\
  row_length rows = (if decide (length rows = 0%nat) then 0 else n)%nat.
Proof.
  intros Hu. destruct rows as [|row rows]; simpl; [split; constructor|].
  inversion Hu as [|? ? Hrow Hrest]; subst. split; [|reflexivity].
  constructor; [reflexivity|].
  eapply Forall_impl; [exact Hrest|]. simpl. intros; lia.
Qed.

Lemma length_omap_column {B} (rows : list (list B)) (j n : nat) :
  Forall (fun row => length row = n) rows -> (j < n)%nat ->
  length (omap (fun row => row !! j) rows) = length rows.
Proof.
  induction 1 as [|row rows Hrow _ IH]; intros Hj; simpl; [reflexivity|].
  destruct (lookup_lt_is_Some_2 row j) as [v Hv]; [lia|].
  rewrite Hv. simpl. f_equal. now apply IH.
Qed.

Lemma transpose_rows {B} (rows : list (list B)) :
  Forall (fun row => length row = row_length rows) rows ->
  Forall (fun col => length col = length rows)
    (ImageTransformation.transpose rows) /\
  length (ImageTransformation.transpose rows) = row_length rows.
Proof.
  intros Hrect. unfold ImageTransformation.transpose. split.
  - apply Forall_forall. intros col Hcol.
    apply list_elem_of_fmap in Hcol as (j & -> & Hj).
    apply elem_of_seq in Hj.
    apply (length_omap_column rows j (row_length rows)); [exact Hrect|lia].
  - now rewrite length_map, length_seq.
Qed.

(** A quarter turn swaps the rows and columns of an array. *)
Lemma rot90_extent (b : band) :
  rectangular b ->
  rectangular (ImageTransformation.rot90 b) /\
  extent (ImageTransformation.rot90 b)
    = (snd (extent b),
       if decide (snd (extent b) = 0%nat) then 0%nat else fst (extent b)).
Proof.
  destruct b as [rows|rows]; simpl; intros Hrect;
    destruct (transpose_rows rows Hrect) as [Hu Hlen];
    apply Forall_reverse in Hu;
    destruct (uniform_rows_rect _ _ Hu) as [Hr Hrl];
    rewrite length_reverse, Hlen in Hrl;
    (split; [exact Hr|]); now rewrite length_reverse, Hlen, Hrl.
Qed.

Lemma iter_rot90_extent (k : nat) (b1 b2 : band) :
  rectangular b1 -> rectangular b2 -> extent b1 = extent b2 ->
  rectangular (Nat.iter k ImageTransformation.rot90 b1) /\
  rectangular (Nat.iter k ImageTransformation.rot90 b2) /\
  extent (Nat.iter k ImageTransformation.rot90 b1)
    = extent (Nat.iter k ImageTransformation.rot90 b2).
Proof.
  intros Hr1 Hr2 Hext. induction k as [|k (IH1 & IH2 & IHe)]; simpl; [auto|].
  destruct (rot90_extent _ IH1) as [Hc1 He1].
  destruct (rot90_extent _ IH2) as [Hc2 He2].
  split; [exact Hc1|]. split; [exact Hc2|]. now rewrite He1, He2, IHe.
Qed.

(** Each modelled rotation has an inverse index map that undoes its
    forward map, whatever the shape. *)
Lemma rotate_index_round_trip (k : nat) (hw rc : Z * Z) :
  ImageTransformation.unturns_index k hw (ImageTransformation.turns_index k hw rc)
    = rc.
Proof.
  revert hw rc. induction k as [|k IH]; intros hw rc; simpl; [reflexivity|].
  rewrite IH. destruct hw as [h w], rc as [r c].
  unfold ImageTransformation.unturn_index, ImageTransformation.turn_index.
  simpl. f_equal; lia.
Qed.

Lemma identity_crop_extent_determined :
  extent_determined ImageTransformation.IdentityPolygoneBoundariesImage.
Proof.
  intros b1 b2 b1' b2' Hr1 Hr2 Hext [= <-] [= <-]. auto.
Qed.

Lemma rotate_extent_determined (k : nat) (original_shape : list nat) :
  extent_determined
    (ImageTransformation.RotateImage_quarter_turns k original_shape).
Proof.
  intros b1 b2 b1' b2' Hr1 Hr2 Hext [= <-] [= <-].
  now apply iter_rot90_extent.
Qed.

Lemma length_slice {B} (lo hi : Z) (l : list B) :
  length (ImageTransformation.slice lo hi l)
    = Nat.min (Z.to_nat (hi + 1 - lo)) (length l - Z.to_nat lo).
Proof.
  unfold ImageTransformation.slice. now rewrite length_take, length_drop.
Qed.

Lemma crop_rows {B} (rmin rmax cmin cmax : Z) (rows : list (list B)) :
  Forall (fun row => length row = row_length rows) rows ->
  let out := map (ImageTransformation.slice cmin cmax)
               (ImageTransformation.slice rmin rmax rows) in
  Forall (fun row => length row = row_length out) out /\
  length out
    = Nat.min (Z.to_nat (rmax + 1 - rmin)) (length rows - Z.to_nat rmin) /\
  row_length out
    = (if decide (length out = 0%nat) then 0%nat
       else Nat.min (Z.to_nat (cmax + 1 - cmin))
                    (row_length rows - Z.to_nat cmin)).
Proof.
  intros Hrect out.
  assert (Hu : Forall (fun row => length row
                 = Nat.min (Z.to_nat (cmax + 1 - cmin))
                           (row_length rows - Z.to_nat cmin)) out).
  { subst out. change map with (@fmap list _). apply Forall_fmap.
    unfold ImageTransformation.slice at 2.
    apply Forall_take, Forall_drop.
    eapply Forall_impl; [exact Hrect|]. simpl. intros row Hrow.
    now rewrite length_slice, Hrow. }
  destruct (uniform_rows_rect _ _ Hu) as [Hr Hrl].
  split; [exact Hr|]. split; [|exact Hrl].
  subst out. now rewrite length_map, length_slice.
Qed.

Lemma crop_band_extent (box : Z * Z * Z * Z) (b1 b2 b1' b2' : band) :
  rectangular b1 -> rectangular b2 -> extent b1 = extent b2 ->
  ImageTransformation.crop_band box b1 = Ok b1' ->
  ImageTransformation.crop_band box b2 = Ok b2' ->
  rectangular b1' /\ rectangular b2' /\ extent b1' = extent b2'.
Proof.
  destruct box as [[[rmin rmax] cmin] cmax].
  assert (Hone : forall b b' : band, rectangular b ->
            ImageTransformation.crop_band (rmin, rmax, cmin, cmax) b = Ok b' ->
            rectangular b' /\
            fst (extent b')
              = Nat.min (Z.to_nat (rmax + 1 - rmin))
                        (fst (extent b) - Z.to_nat rmin) /\
            snd (extent b')
              = (if decide (fst (extent b') = 0%nat) then 0%nat
                 else Nat.min (Z.to_nat (cmax + 1 - cmin))
                              (snd (extent b) - Z.to_nat cmin))).
  { intros b b' Hrect Hcrop. unfold ImageTransformation.crop_band in Hcrop.
    destruct b as [rows|rows]; cbn [rectangular] in Hrect;
      destruct (crop_rows rmin rmax cmin cmax rows Hrect) as (Hr & Hl & Hrl);
      cbn [extent] in Hcrop;
      set (out := map (ImageTransformation.slice cmin cmax)
                      (ImageTransformation.slice rmin rmax rows)) in *.
    - assert (b' = Arr2 out) as ->.
      { destruct (length out); [discriminate|].
        destruct (row_length out); [discriminate|]. congruence. }
      cbn [extent rectangular fst snd]. auto.
    - assert (b' = Arr3 out) as ->.
      { destruct (length out); [discriminate|].
        destruct (row_length out); [discriminate|]. congruence. }
      cbn [extent rectangular fst snd]. auto. }
  intros Hr1 Hr2 Hext H1 H2.
  destruct (Hone _ _ Hr1 H1) as (Hc1 & Hf1 & Hs1).
  destruct (Hone _ _ Hr2 H2) as (Hc2 & Hf2 & Hs2).
  split; [exact Hc1|]. split; [exact Hc2|].
  rewrite Hext in Hf1, Hs1.
  apply injective_projections; [congruence|].
  rewrite Hs1, Hs2, Hf1, Hf2. reflexivity.
Qed.

Lemma polygon_crop_extent_determined (polygon : list (Q * Q))
  (index_resolver_fn : Q -> Q -> result (Z * Z)) :
  extent_determined
    (ImageTransformation.PolygoneBoundariesImage polygon index_resolver_fn).
Proof.
  intros b1 b2 b1' b2' Hr1 Hr2 Hext H1 H2. simpl in H1, H2.
  apply bind_Ok in H1 as (box & Hbox & H1).
  apply bind_Ok in H2 as (box' & Hbox' & H2).
  assert (box' = box) as -> by congruence.
  exact (crop_band_extent box b1 b2 b1' b2' Hr1 Hr2 Hext H1 H2).
Qed.

(** ** The properties on the sample products *)

Ltac dict_cases H :=
  apply elem_of_map_to_list in H; vm_compute in H;
  repeat (apply elem_of_cons in H as [H|H]; [injection H as -> ->|]);
  [..|apply elem_of_nil in H; contradiction].

Lemma turned_polymer_constructed :
  Samples.construct_polymer Samples.TurnedPolymerImageHandler None None
    = Ok Samples.turned_polymer_product.
Proof. vm_compute. reflexivity. Qed.

Lemma polymer_dataset_loaded :
  Polymer._load_nc_data_dict Samples.polymer_dataset = Ok Samples.polymer_loaded.
Proof. vm_compute. reflexivity. Qed.

Lemma sentinel_bands_rectangular : all_rectangular Samples.sentinel_bands.
Proof. intros n b Hn. dict_cases Hn; repeat constructor. Qed.

Lemma sentinel_bands_one_extent_sample : one_extent Samples.sentinel_bands.
Proof.
  intros n1 n2 b1 b2 Hn1 Hn2. dict_cases Hn1; dict_cases Hn2; reflexivity.
Qed.

Lemma polymer_loaded_rectangular :
  all_rectangular (Polymer.ld_bands Samples.polymer_loaded).
Proof. intros n b Hn. dict_cases Hn; repeat constructor. Qed.

Lemma polymer_loaded_one_extent :
  one_extent (Polymer.ld_bands Samples.polymer_loaded).
Proof.
  intros n1 n2 b1 b2 Hn1 Hn2. dict_cases Hn1; dict_cases Hn2; reflexivity.
Qed.

(** The whole-scene product: with the unit affine matrix, the geo-point
    (2, 1) is the pixel of row 1 and column 2, and back. *)
Example general_product_queries :
  @Sentinel.get_row_col_index_from_longitide_latitude Samples.no_reprojection
    (Samples.general_product Samples.unit_affine) 2 1 = Ok (1, 2) /\
  @Sentinel.get_longitude_latitude_from_row_col_index Samples.no_reprojection
    (Samples.general_product Samples.unit_affine) 1 2 = Ok (2%Q, 1%Q).
Proof. split; vm_compute; reflexivity. Qed.

(** The raster family checks no range either: an index far outside the
    2 x 3 scene is carried through the affine matrix like any other. *)
Example raster_inverse_query_extrapolates :
  @Sentinel.get_longitude_latitude_from_row_col_index Samples.no_reprojection
    (Samples.general_product Samples.unit_affine) (-5) 700
    = Ok (700%Q, (-5)%Q).
Proof. vm_compute. reflexivity. Qed.

(** The truth table of the specification: bridge mask [T, F], provider
    mask [F, T], composed mask [T, F]. *)
Example mask_truth_table :
  numpy_all_axis0 [Arr2 [[true; false]]; nd_map negb (Arr2 [[false; true]])]
    = Ok (Arr2 [[true; false]]).
Proof. reflexivity. Qed.

(** At the same distance from two cells, the one of the smaller row wins. *)
Example nearest_grid_tie :
  nearest_grid_index (Arr2 Samples.sample_lon_rows)
    (Arr2 Samples.sample_lat_rows) 20 45 = Ok (0, 1).
Proof. vm_compute. reflexivity. Qed.

Lemma nearest_grid_first_computed_minimum_witness :
  Polymer.lon Samples.close_cells_product = Ok (Arr2 Samples.close_lon_rows) /\
  Polymer.lat Samples.close_cells_product = Ok (Arr2 Samples.close_lat_rows) /\
  dims (Arr2 Samples.close_lon_rows) = dims (Arr2 Samples.close_lat_rows) /\
  (exists i j v, nd_lookup (Arr2 Samples.close_lon_rows) [i; j] = Some v) /\
  exists r c glo gla,
    Polymer.get_row_col_index_from_longitide_latitude_in binary64
      Samples.close_cells_product Samples.east_of_middle (475 # 10)
      = Ok (Z.of_nat r, Z.of_nat c) /\
    nd_lookup (Arr2 Samples.close_lon_rows) [r; c] = Some glo /\
    nd_lookup (Arr2 Samples.close_lat_rows) [r; c] = Some gla /\
    forall r' c' lo' la',
      nd_lookup (Arr2 Samples.close_lon_rows) [r'; c'] = Some lo' ->
      nd_lookup (Arr2 Samples.close_lat_rows) [r'; c'] = Some la' ->
      (squared_distance binary64 Samples.east_of_middle (475 # 10) glo gla
         <= squared_distance binary64 Samples.east_of_middle (475 # 10)
              lo' la')%Q /\
      ((squared_distance binary64 Samples.east_of_middle (475 # 10) lo' la'
          == squared_distance binary64 Samples.east_of_middle (475 # 10)
               glo gla)%Q ->
       (r < r')%nat \/ (r = r' /\ (c <= c')%nat)).
Proof.
  assert (H1 : Polymer.lon Samples.close_cells_product
               = Ok (Arr2 Samples.close_lon_rows))
    by (vm_compute; reflexivity).
  assert (H2 : Polymer.lat Samples.close_cells_product
               = Ok (Arr2 Samples.close_lat_rows))
    by (vm_compute; reflexivity).
  assert (H3 : dims (Arr2 Samples.close_lon_rows)
               = dims (Arr2 Samples.close_lat_rows)) by reflexivity.
  assert (H4 : exists i j v,
             nd_lookup (Arr2 Samples.close_lon_rows) [i; j] = Some v)
    by (exists 0%nat, 0%nat, (-129 # 2)%Q; reflexivity).
  split; [exact H1|]. split; [exact H2|]. split; [exact H3|].
  split; [exact H4|].
  exact (nearest_grid_first_computed_minimum binary64 _ _ _
           Samples.east_of_middle (475 # 10) H1 H2 H3 H4).
Defined.

Lemma inverse_query_counts_negative_from_the_end_witness :
  Polymer.lon (Samples.plain_polymer_product None None)
    = Ok (Arr2 Samples.sample_lon_rows) /\
  Polymer.lat (Samples.plain_polymer_product None None)
    = Ok (Arr2 Samples.sample_lat_rows) /\
  rectangular (Arr2 Samples.sample_lon_rows) /\
  rectangular (Arr2 Samples.sample_lat_rows) /\
  extent (Arr2 Samples.sample_lat_rows) = extent (Arr2 Samples.sample_lon_rows) /\
  (exists glo gla,
     Polymer.get_longitude_latitude_from_row_col_index
       (Samples.plain_polymer_product None None) (-1) (-1)
       = Ok (Scalar glo, Scalar gla) /\
     nd_lookup (Arr2 Samples.sample_lon_rows) [1; 2]%nat = Some glo /\
     nd_lookup (Arr2 Samples.sample_lat_rows) [1; 2]%nat = Some gla) /\
  Polymer.get_longitude_latitude_from_row_col_index
    (Samples.plain_polymer_product None None) 2 0 = Raise IndexError /\
  Polymer.get_longitude_latitude_from_row_col_index
    (Samples.plain_polymer_product None None) (2 ^ 63) 0 = Raise OverflowError.
Proof.
  assert (H1 : Polymer.lon (Samples.plain_polymer_product None None)
               = Ok (Arr2 Samples.sample_lon_rows))
    by (vm_compute; reflexivity).
  assert (H2 : Polymer.lat (Samples.plain_polymer_product None None)
               = Ok (Arr2 Samples.sample_lat_rows))
    by (vm_compute; reflexivity).
  assert (H3 : rectangular (Arr2 Samples.sample_lon_rows))
    by (repeat constructor).
  assert (H4 : rectangular (Arr2 Samples.sample_lat_rows))
    by (repeat constructor).
  assert (H5 : extent (Arr2 Samples.sample_lat_rows)
               = extent (Arr2 Samples.sample_lon_rows)) by reflexivity.
  split; [exact H1|]. split; [exact H2|]. split; [exact H3|].
  split; [exact H4|]. split; [exact H5|].
  split; [|split].
  - destruct (inverse_query_counts_negative_from_the_end
                _ _ _ (-1) (-1) H1 H2 H3 H4 H5) as (Hin & _).
    apply Hin; simpl; lia.
  - destruct (inverse_query_counts_negative_from_the_end
                _ _ _ 2 0 H1 H2 H3 H4 H5) as (_ & Hout & _).
    apply Hout; simpl; lia.
  - destruct (inverse_query_counts_negative_from_the_end
                _ _ _ (2 ^ 63) 0 H1 H2 H3 H4 H5) as (_ & _ & _ & Hbig).
    apply Hbig. left. lia.
Defined.

Lemma composed_water_mask_witness :
  Polymer.image_shape
    (Samples.plain_polymer_product (Some Samples.sample_bridge_points)
       (Some Samples.sample_clean_water)) = Ok [2; 3]%nat /\
  BridgePointsHandler.get_valid_points_mask Samples.sample_bridge_points
    [2; 3]%nat = Ok (Arr2 [[true; false; true]; [true; true; true]]) /\
  CleanWaterMaskHandler.get_valid_points_mask Samples.sample_clean_water
    = Arr2 [[false; true; false]; [false; false; true]] /\
  exists m,
    Polymer.get_water_mask_from_bridge_and_clean_water_mask_handler
      (Samples.plain_polymer_product (Some Samples.sample_bridge_points)
         (Some Samples.sample_clean_water)) = Ok (Some m) /\
    dims m = dims (Arr2 [[true; false; true]; [true; true; true]]) /\
    forall idx,
      nd_lookup m idx =
        x ← nd_lookup (Arr2 [[true; false; true]; [true; true; true]]) idx;
        y ← nd_lookup (CleanWaterMaskHandler.get_valid_points_mask
                         Samples.sample_clean_water) idx;
        Some (x && negb y).
Proof.
  split; [vm_compute; reflexivity|].
  split; [vm_compute; reflexivity|].
  split; [reflexivity|].
  apply (proj1 (composed_water_mask
                  (Samples.plain_polymer_product
                     (Some Samples.sample_bridge_points)
                     (Some Samples.sample_clean_water)))
           Samples.sample_bridge_points Samples.sample_clean_water
           [2; 3]%nat (Arr2 [[true; false; true]; [true; true; true]]));
    vm_compute; reflexivity.
Defined.

Lemma missing_band_fails_construction_witness :
  ("red_band", ["Rw665"])%string ∈ Polymer.BAND_NAME_MAPPING /\
  (forall code, code ∈ ["Rw665"%string] ->
     Polymer.variables Samples.polymer_dataset_without_red !! code = None) /\
  Polymer.__init__ Samples.PlainPolymerImageHandler "S2A_polymer.nc" None None
    Samples.polymer_dataset_without_red = Raise ValueError.
Proof.
  assert (H1 : ("red_band", ["Rw665"])%string ∈ Polymer.BAND_NAME_MAPPING).
  { unfold Polymer.BAND_NAME_MAPPING. do 2 right. left. }
  assert (H2 : forall code, code ∈ ["Rw665"%string] ->
             Polymer.variables Samples.polymer_dataset_without_red !! code
               = None).
  { intros code Hcode. apply list_elem_of_singleton in Hcode as ->.
    vm_compute. reflexivity. }
  split; [exact H1|]. split; [exact H2|].
  exact (missing_band_fails_construction _ _ _ _ _ _ _ H1 H2).
Defined.

Lemma fallback_returns_first_hit_witness :
  (exists k, k ∈ ["rhos_2186"; "rhos_2202"]%string /\
             Polymer.dict_get Samples.fallback_dict k <> None) /\
  Polymer.get_items_with_list_fallback Samples.fallback_dict
    ["rhos_2186"; "rhos_2202"]%string = Ok 7 /\
  exists before k v after,
    ["rhos_2186"; "rhos_2202"]%string = before ++ k :: after /\
    Forall (fun k' => Polymer.dict_get Samples.fallback_dict k' = None) before /\
    Polymer.dict_get Samples.fallback_dict k = Some v /\
    (forall after',
        Polymer.get_items_with_list_fallback Samples.fallback_dict
          (before ++ k :: after') = Ok v) /\
    Polymer.get_items_with_list_fallback Samples.fallback_dict
      ["rhos_2186"; "rhos_2202"]%string = Ok v.
Proof.
  assert (H : exists k, k ∈ ["rhos_2186"; "rhos_2202"]%string /\
                        Polymer.dict_get Samples.fallback_dict k <> None).
  { exists "rhos_2202"%string. split; [right; left|].
    vm_compute. discriminate. }
  split; [exact H|]. split; [vm_compute; reflexivity|].
  exact (fallback_returns_first_hit Samples.fallback_dict _ H).
Defined.

Lemma water_mask_is_class_six_witness :
  @Sentinel.__init__ Samples.no_reprojection Samples.GeneralSentinelImageHandler
    "S2A_MSIL2A.zip" None (Samples.sentinel_loaded Samples.unit_affine)
    = Ok (Samples.general_product Samples.unit_affine) /\
  Sentinel.water_mask (Samples.general_product Samples.unit_affine)
    = Ok (Arr2 [[true; false; true]; [false; true; false]]) /\
  exists clf m,
    Sentinel.scene_clf (Samples.general_product Samples.unit_affine) = Ok clf /\
    Sentinel.water_mask (Samples.general_product Samples.unit_affine) = Ok m /\
    shape m = shape clf /\
    (forall idx,
        nd_lookup m idx = (fun v => Qeq_bool v 6) <$> nd_lookup clf idx) /\
    (forall idx, nd_lookup m idx = Some true <->
                 exists v, nd_lookup clf idx = Some v /\ (v == 6)%Q) /\
    (forall idx, nd_lookup m idx = Some false <->
                 exists v, nd_lookup clf idx = Some v /\ ~ (v == 6)%Q).
Proof.
  assert (H : @Sentinel.__init__ Samples.no_reprojection
                Samples.GeneralSentinelImageHandler "S2A_MSIL2A.zip" None
                (Samples.sentinel_loaded Samples.unit_affine)
              = Ok (Samples.general_product Samples.unit_affine))
    by (vm_compute; reflexivity).
  split; [exact H|]. split; [vm_compute; reflexivity|].
  exact (@water_mask_is_class_six Samples.no_reprojection _ _ _ _ _ H).
Defined.

Lemma bands_share_extent_witness :
  (@Sentinel.__init__ Samples.no_reprojection
     Samples.TwoRotationsSentinelImageHandler "S2A_MSIL2A.zip" None
     (Samples.sentinel_loaded Samples.unit_affine)
     = Ok Samples.two_rotations_product /\
   all_rectangular Samples.sentinel_bands /\
   one_extent Samples.sentinel_bands /\
   exists final,
     Sentinel._subset_transformed_data_dict Samples.two_rotations_product
       = Some final /\
     (forall name, name ∈ Sentinel.BAND_NAME_MAPPING.*1 ->
                   is_Some (final !! name)) /\
     one_extent final) /\
  (Polymer._load_nc_data_dict Samples.polymer_dataset
     = Ok Samples.polymer_loaded /\
   Polymer.__init__ Samples.TurnedPolymerImageHandler "S2A_polymer.nc" None None
     Samples.polymer_dataset = Ok Samples.turned_polymer_product /\
   all_rectangular (Polymer.ld_bands Samples.polymer_loaded) /\
   one_extent (Polymer.ld_bands Samples.polymer_loaded) /\
   exists final,
     Polymer._subset_transformed_data_dict Samples.turned_polymer_product
       = Some final /\
     (forall name,
         name ∈ "true_color_image" :: Polymer.BAND_NAME_MAPPING.*1 ->
         is_Some (final !! name)) /\
     one_extent final).
Proof.
  split.
  - assert (H : @Sentinel.__init__ Samples.no_reprojection
                  Samples.TwoRotationsSentinelImageHandler "S2A_MSIL2A.zip"
                  None (Samples.sentinel_loaded Samples.unit_affine)
                = Ok Samples.two_rotations_product)
      by (vm_compute; reflexivity).
    split; [exact H|].
    split; [exact sentinel_bands_rectangular|].
    split; [exact sentinel_bands_one_extent_sample|].
    apply (proj1 bands_share_extent Samples.no_reprojection _ _ _ _ _ H
             sentinel_bands_rectangular sentinel_bands_one_extent_sample).
    + intros shp. simpl.
      repeat (constructor; [apply rotate_extent_determined|]).
      constructor.
    + intros f. apply identity_crop_extent_determined.
  - assert (H : Polymer.__init__ Samples.TurnedPolymerImageHandler
                  "S2A_polymer.nc" None None Samples.polymer_dataset
                = Ok Samples.turned_polymer_product)
      by (vm_compute; reflexivity).
    split; [exact polymer_dataset_loaded|]. split; [exact H|].
    split; [exact polymer_loaded_rectangular|].
    split; [exact polymer_loaded_one_extent|].
    apply (proj2 bands_share_extent _ _ _ _ _ _ _ polymer_dataset_loaded H
             polymer_loaded_rectangular polymer_loaded_one_extent).
    + intros shp. simpl.
      repeat (constructor; [apply rotate_extent_determined|]).
      constructor.
    + intros f. apply polygon_crop_extent_determined.
Defined.

(** * Further properties of the handlers *)

(** ** The affine resolver over any arithmetic *)

Lemma int_nonpos_ceiling (x : Q) : (x <= 0)%Q -> int x = Qceiling x.
Proof.
  destruct x as [a d]. unfold Qle, int, Qceiling, Qfloor. simpl. intros Ha.
  rewrite Z.mul_1_r in Ha.
  replace a with (- - a) at 1 by lia.
  rewrite Z.quot_opp_l by lia. rewrite Z.quot_div_nonneg by lia. reflexivity.
Qed.

(** X2.  Whatever the arithmetic of the floats, [index_function] cuts the
    fractional pixel coordinates it has computed towards zero: a
    non-negative computed row (column) gives the integer part, and a
    computed row (column) strictly between -1 and 1 gives 0, so that a
    point computed to lie less than one pixel above or left of the scene is
    given row or column 0. *)
Theorem index_function_cuts_towards_zero (A : Arithmetic) (self : Sentinel.t)
  (inv : Affine) (x y : Q) :
  affine_invert_in A (Sentinel.affine_matrix self) = Ok inv ->
  exists row col,
    Sentinel.index_function_in A self x y = Ok (row, col) /\
    let frow := snd (affine_mul_in A inv (x, y)) in
    let fcol := fst (affine_mul_in A inv (x, y)) in
    ((0 <= frow)%Q ->
     (inject_Z row <= frow)%Q /\ (frow < inject_Z (row + 1))%Q) /\
    ((0 <= fcol)%Q ->
     (inject_Z col <= fcol)%Q /\ (fcol < inject_Z (col + 1))%Q) /\
    ((inject_Z (-1) < frow)%Q -> (frow < 1)%Q -> row = 0) /\
    ((inject_Z (-1) < fcol)%Q -> (fcol < 1)%Q -> col = 0).
Proof.
  intros Hinv. unfold Sentinel.index_function_in. rewrite Hinv. simpl mbind.
  set (frow := snd (affine_mul_in A inv (x, y))).
  set (fcol := fst (affine_mul_in A inv (x, y))).
  exists (int frow), (int fcol). split; [reflexivity|].
  assert (Hfloor : forall q, (0 <= q)%Q ->
            (inject_Z (int q) <= q)%Q /\ (q < inject_Z (int q + 1))%Q).
  { intros q Hq. rewrite (int_nonneg_floor q Hq).
    split; [apply Qfloor_le | apply Qlt_floor]. }
  assert (Hzero : forall q, (inject_Z (-1) < q)%Q -> (q < 1)%Q -> int q = 0).
  { intros q Hlo Hhi. destruct (Qlt_le_dec q 0) as [Hneg|Hpos].
    - rewrite (int_nonpos_ceiling q) by (now apply Qlt_le_weak).
      pose proof (Qle_ceiling q) as Hc. pose proof (Qceiling_lt q) as Hc'.
      assert (H1 : (inject_Z (Qceiling q - 1) < 0)%Q)
        by (eapply Qlt_trans; eauto).
      assert (H2 : (inject_Z (-1) < inject_Z (Qceiling q))%Q)
        by (eapply Qlt_le_trans; eauto).
      rewrite <- Zlt_Qlt in H2. change 0%Q with (inject_Z 0) in H1.
      rewrite <- Zlt_Qlt in H1. lia.
    - rewrite (int_nonneg_floor q Hpos).
      pose proof (Qfloor_le q) as Hf. pose proof (Qlt_floor q) as Hf'.
      assert (H1 : (inject_Z (Qfloor q) < inject_Z 1)%Q)
        by (eapply Qle_lt_trans; eauto).
      assert (H2 : (inject_Z 0 < inject_Z (Qfloor q + 1))%Q)
        by (eapply Qle_lt_trans; eauto).
      rewrite <- Zlt_Qlt in H1, H2. lia. }
  repeat split; auto; try (now apply Hfloor).
Qed.

(** ** A turned and cropped product of the raster family *)

Lemma turned_sentinel_constructed :
  Samples.construct_sentinel Samples.TurnedSentinelImageHandler
    Samples.unit_affine = Ok Samples.turned_sentinel_product.
Proof. vm_compute. reflexivity. Qed.

(** ** The bridge-points mask *)

Lemma normalize_index_Ok (n : nat) (z : Z) (i : nat) :
  normalize_index n z = Ok i -> (i < n)%nat.
Proof.
  unfold normalize_index.
  destruct ((0 <=? z) && (z <? Z.of_nat n)) eqn:H1.
  - intros [= <-]. apply andb_true_iff in H1 as [Ha Hb]. lia.
  - destruct ((- Z.of_nat n <=? z) && (z <? 0)) eqn:H2; [|discriminate].
    intros [= <-]. apply andb_true_iff in H2 as [Ha Hb]. lia.
Qed.

Lemma normalize_index_Ok_or_IndexError (n : nat) (z : Z) :
  is_Ok (normalize_index n z) \/ normalize_index n z = Raise IndexError.
Proof.
  unfold normalize_index.
  destruct ((0 <=? z) && (z <? Z.of_nat n)); [left; eexists; reflexivity|].
  destruct ((- Z.of_nat n <=? z) && (z <? 0)); [left; eexists; reflexivity|].
  now right.
Qed.

Lemma uniform_row_length {B} (c : nat) (rows : list (list B)) :
  Forall (fun row => length row = c) rows -> (0 < length rows)%nat ->
  row_length rows = c.
Proof.
  intros Hu Hlen. destruct rows as [|row rows]; simpl in *; [lia|].
  now inversion Hu.
Qed.

(** One assignment [mask[r, c] = False] on a mask of [r] rows and [c]
    columns: both indices are in range, the mask keeps its shape, the cell
    addressed becomes false and every other cell is kept. *)
Lemma set_false_spec (rows : list (list bool)) (r c : nat) (pr pc : Z)
  (m' : mask) :
  length rows = r -> Forall (fun row => length row = c) rows ->
  set_false (Arr2 rows) pr pc = Ok m' ->
  exists i j rows',
    normalize_index r pr = Ok i /\ normalize_index c pc = Ok j /\
    m' = Arr2 rows' /\ length rows' = r /\
    Forall (fun row => length row = c) rows' /\
    forall i' j',
      nd_lookup (Arr2 rows') [i'; j']
        = if decide (i' = i /\ j' = j) then Some false
          else nd_lookup (Arr2 rows) [i'; j'].
Proof.
  intros Hlen Hu Hset. simpl in Hset.
  apply bind_Ok in Hset as (i & Hi & Hset).
  apply bind_Ok in Hset as (j & Hj & Hret). injection Hret as <-.
  rewrite Hlen in Hi. pose proof (normalize_index_Ok _ _ _ Hi) as Hir.
  rewrite (uniform_row_length c rows Hu) in Hj by lia.
  pose proof (normalize_index_Ok _ _ _ Hj) as Hjc.
  exists i, j. eexists. split; [exact Hi|]. split; [exact Hj|].
  split; [reflexivity|]. split; [now rewrite length_alter|]. split.
  - apply Forall_forall. intros row Hrow.
    apply list_elem_of_lookup in Hrow as [i' Hrow].
    destruct (decide (i = i')) as [<-|Hne].
    + rewrite list_lookup_alter_eq in Hrow.
      destruct (rows !! i) as [row0|] eqn:Hrow0; [|discriminate].
      injection Hrow as <-. rewrite length_insert.
      eapply (proj1 (Forall_forall _ _) Hu), list_elem_of_lookup_2; eauto.
    + rewrite list_lookup_alter_ne in Hrow by exact Hne.
      eapply (proj1 (Forall_forall _ _) Hu), list_elem_of_lookup_2; eauto.
  - intros i' j'. simpl. destruct (decide (i' = i /\ j' = j)) as [[-> ->]|Hne].
    + rewrite list_lookup_alter_eq.
      destruct (lookup_lt_is_Some_2 rows i) as [row0 Hrow0]; [lia|].
      rewrite Hrow0. simpl. apply list_lookup_insert_eq.
      rewrite (proj1 (Forall_forall _ _) Hu row0); [exact Hjc|].
      eapply list_elem_of_lookup_2; eauto.
    + destruct (decide (i = i')) as [<-|Hi'].
      * rewrite list_lookup_alter_eq.
        destruct (rows !! i) as [row0|]; simpl; [|reflexivity].
        apply list_lookup_insert_ne. intros <-. apply Hne. auto.
      * now rewrite list_lookup_alter_ne.
Qed.

(** The loop over the points: a cell some point addresses ends false, any
    other cell is kept. *)
Lemma mark_points_spec (pts : list (Z * Z)) (rows : list (list bool))
  (r c : nat) (m' : mask) :
  length rows = r -> Forall (fun row => length row = c) rows ->
  for_each (fun m '(pr, pc) => set_false m pr pc) pts (Arr2 rows) = Ok m' ->
  exists rows',
    m' = Arr2 rows' /\ length rows' = r /\
    Forall (fun row => length row = c) rows' /\
    forall i j,
      ((exists pr pc, (pr, pc) ∈ pts /\ normalize_index r pr = Ok i /\
                      normalize_index c pc = Ok j) /\
       nd_lookup (Arr2 rows') [i; j] = Some false) \/
      (~ (exists pr pc, (pr, pc) ∈ pts /\ normalize_index r pr = Ok i /\
                        normalize_index c pc = Ok j) /\
       nd_lookup (Arr2 rows') [i; j] = nd_lookup (Arr2 rows) [i; j]).
Proof.
  revert rows. induction pts as [|[pr pc] pts IH]; intros rows Hlen Hu Hrun;
    simpl in Hrun.
  - injection Hrun as <-. exists rows. repeat split; auto.
    intros i j. right. split; [|reflexivity].
    intros (pr & pc & Hin & _). inversion Hin.
  - apply bind_Ok in Hrun as (m1 & Hset & Hrun).
    destruct (set_false_spec rows r c pr pc m1 Hlen Hu Hset)
      as (i0 & j0 & rows1 & Hi0 & Hj0 & -> & Hlen1 & Hu1 & Hcell1).
    destruct (IH rows1 Hlen1 Hu1 Hrun) as (rows' & -> & Hlen' & Hu' & Hcell').
    exists rows'. repeat split; auto. intros i j.
    destruct (Hcell' i j) as [[(qr & qc & Hq & Hqi & Hqj) Hfalse]|[Hno Hkeep]].
    + left. split; [|exact Hfalse]. exists qr, qc. split; [now right|auto].
    + rewrite Hkeep, Hcell1.
      destruct (decide (i = i0 /\ j = j0)) as [[-> ->]|Hne].
      * left. split; [|reflexivity]. exists pr, pc. split; [left|auto].
      * right. split; [|reflexivity].
        intros (qr & qc & Hq & Hqi & Hqj).
        apply elem_of_cons in Hq as [[= -> ->]|Hq].
        -- apply Hne. split; congruence.
        -- apply Hno. exists qr, qc. auto.
Qed.

(** X4.  A bridge mask asked for [r] rows and [c] columns has that shape,
    is false at every cell addressed by a point of the list (a negative
    coordinate counting from the end, as numpy reads it) and true at every
    other cell. *)
Theorem bridge_mask_false_at_points (self : BridgePointsHandler.t)
  (r c : nat) (m : mask) :
  BridgePointsHandler.get_valid_points_mask self [r; c] = Ok m ->
  shape m = [r; c] /\
  forall i j, (i < r)%nat -> (j < c)%nat ->
    ((exists pr pc, (pr, pc) ∈ BridgePointsHandler.points_list self /\
                    normalize_index r pr = Ok i /\
                    normalize_index c pc = Ok j) /\
     nd_lookup m [i; j] = Some false) \/
    (~ (exists pr pc, (pr, pc) ∈ BridgePointsHandler.points_list self /\
                      normalize_index r pr = Ok i /\
                      normalize_index c pc = Ok j) /\
     nd_lookup m [i; j] = Some true).
Proof.
  unfold BridgePointsHandler.get_valid_points_mask. simpl mbind.
  destruct (BridgePointsHandler.points_list self) as [|p pts] eqn:Hpts;
    [discriminate|]. intros Hrun.
  assert (Hu : Forall (fun row : list bool => length row = c)
                 (replicate r (replicate c true))).
  { apply Forall_forall. intros row Hrow.
    apply elem_of_replicate in Hrow as [-> _]. apply length_replicate. }
  destruct (mark_points_spec (p :: pts) _ r c m (length_replicate _ _) Hu Hrun)
    as (rows' & -> & Hlen' & Hu' & Hcell).
  assert (Hr : (0 < r)%nat).
  { destruct p as [pr pc]. simpl in Hrun.
    apply bind_Ok in Hrun as (m1 & Hset & _). simpl in Hset.
    apply bind_Ok in Hset as (i & Hi & _).
    rewrite length_replicate in Hi. apply normalize_index_Ok in Hi. lia. }
  split.
  - simpl. rewrite Hlen'. f_equal. f_equal.
    apply uniform_row_length; [exact Hu'|lia].
  - intros i j Hi Hj. destruct (Hcell i j) as [Hhit|[Hno Hkeep]];
      [left; exact Hhit|]. right. split; [exact Hno|].
    rewrite Hkeep. simpl. rewrite lookup_replicate_2 by exact Hi. simpl.
    now apply lookup_replicate_2.
Qed.

Lemma for_each_raises_invariant {S X} (I : S -> Prop)
  (body : S -> X -> result S) (e : exn) (xs : list X) (x : X) (s : S) :
  I s ->
  (forall s1 y s2, y ∈ xs -> I s1 -> body s1 y = Ok s2 -> I s2) ->
  x ∈ xs ->
  (forall s1, I s1 -> body s1 x = Raise e) ->
  (forall s1 y, y ∈ xs -> I s1 -> is_Ok (body s1 y) \/ body s1 y = Raise e) ->
  for_each body xs s = Raise e.
Proof.
  revert s. induction xs as [|y ys IH]; intros s Hs Hkeep Hin Hx Hall.
  - inversion Hin.
  - simpl. destruct (Hall s y) as [[s' Hs']|Hraise]; [now left|exact Hs| |].
    + rewrite Hs'. simpl.
      apply elem_of_cons in Hin as [<-|Hin].
      * rewrite (Hx s Hs) in Hs'. discriminate.
      * apply IH; [|intros s1 z s2 Hz; apply Hkeep; now right|exact Hin
                   |exact Hx|intros s1 z Hz; apply Hall; now right].
        apply (Hkeep s y s'); [left|exact Hs|exact Hs'].
    + now rewrite Hraise.
Qed.

(** X5.  The bridge mask raises [IndexError] when the list of points is
    empty, and when some point has a row outside [-r, r) or a column
    outside [-c, c): no mask comes back with that point dropped. *)
Theorem bridge_mask_raises_IndexError (self : BridgePointsHandler.t)
  (r c : nat) :
  BridgePointsHandler.points_list self = [] \/
  (exists pr pc, (pr, pc) ∈ BridgePointsHandler.points_list self /\
     (~ (- Z.of_nat r <= pr < Z.of_nat r) \/
      ~ (- Z.of_nat c <= pc < Z.of_nat c))) ->
  BridgePointsHandler.get_valid_points_mask self [r; c] = Raise IndexError.
Proof.
  unfold BridgePointsHandler.get_valid_points_mask. simpl mbind.
  intros [Hnil|(pr & pc & Hin & Hout)]; [now rewrite Hnil|].
  destruct (BridgePointsHandler.points_list self) as [|p pts] eqn:Hpts;
    [reflexivity|].
  change (for_each (fun m '(pr, pc) => set_false m pr pc) (p :: pts)
            (Arr2 (replicate r (replicate c true))) = Raise IndexError).
  apply (for_each_raises_invariant
           (fun m : mask => exists rows, m = Arr2 rows /\ length rows = r /\
                              Forall (fun row => length row = c) rows)
           _ IndexError _ (pr, pc)).
  - eexists. split; [reflexivity|]. split; [apply length_replicate|].
    apply Forall_forall. intros row Hrow.
    apply elem_of_replicate in Hrow as [-> _]. apply length_replicate.
  - intros m1 [qr qc] m2 _ (rows & -> & Hlen & Hu) Hset.
    destruct (set_false_spec rows r c qr qc m2 Hlen Hu Hset)
      as (_ & _ & rows' & _ & _ & -> & Hlen' & Hu' & _).
    exists rows'. auto.
  - exact Hin.
  - intros m1 (rows & -> & Hlen & Hu). simpl. rewrite Hlen.
    destruct (normalize_index r pr) as [i|e] eqn:Hi; simpl.
    + pose proof (normalize_index_Ok _ _ _ Hi) as Hir.
      rewrite (uniform_row_length c rows Hu) by lia.
      destruct Hout as [Hout|Hout].
      * rewrite (normalize_index_out_of_range _ _ Hout) in Hi. discriminate.
      * now rewrite (normalize_index_out_of_range _ _ Hout).
    + destruct (normalize_index_Ok_or_IndexError r pr) as [[i Hi']|Hi'];
        congruence.
  - intros m1 [qr qc] _ (rows & -> & Hlen & Hu). simpl.
    destruct (normalize_index_Ok_or_IndexError (length rows) qr)
      as [[i Hi]|Hi]; rewrite Hi; simpl; [|now right].
    destruct (normalize_index_Ok_or_IndexError (row_length rows) qc)
      as [[j Hj]|Hj]; rewrite Hj; simpl; [left; eexists; reflexivity|].
    now right.
Qed.

(** ** The composed mask in terms of the stored mask *)

(** X6.  With both providers attached, a composed mask that is returned
    holds, cell by cell, the bridge mask's cell AND the cell of the mask the
    clean-water handler was loaded with: the negation in
    [get_valid_points_mask] and the one in the composition cancel. *)
Theorem composed_mask_is_bridge_and_stored_mask (self : Polymer.t)
  (bph : BridgePointsHandler.t) (cwm : CleanWaterMaskHandler.t)
  (shp : list nat) (m1 m : mask) :
  Polymer.bridge_points_handler self = Some bph ->
  Polymer.clean_water_mask_handler self = Some cwm ->
  Polymer.image_shape self = Ok shp ->
  BridgePointsHandler.get_valid_points_mask bph shp = Ok m1 ->
  Polymer.get_water_mask_from_bridge_and_clean_water_mask_handler self
    = Ok (Some m) ->
  forall idx,
    nd_lookup m idx =
      x ← nd_lookup m1 idx;
      y ← nd_lookup (CleanWaterMaskHandler.water_mask cwm) idx;
      Some (x && y).
Proof.
  intros Hb Hc Hshp Hm1.
  unfold Polymer.get_water_mask_from_bridge_and_clean_water_mask_handler.
  rewrite Hb, Hc, Hshp. simpl mbind. rewrite Hm1. simpl mbind.
  intros Hall idx.
  apply bind_Ok in Hall as (m' & Hzip & Hret). injection Hret as <-.
  simpl in Hzip. apply bind_Ok in Hzip as (m'' & Hzip & Hret).
  injection Hret as <-.
  rewrite (nd_zip_with_lookup _ _ _ _ idx Hzip).
  unfold CleanWaterMaskHandler.get_valid_points_mask.
  rewrite !nd_lookup_nd_map.
  destruct (nd_lookup m1 idx); simpl; [|reflexivity].
  destruct (nd_lookup (CleanWaterMaskHandler.water_mask cwm) idx); simpl;
    [|reflexivity].
  now rewrite negb_involutive.
Qed.

(** ** The transient grids of the netCDF family *)

(** X7.  On a constructed netCDF-family product the transformed longitude
    and latitude grids are no longer bound, so the index method that reads
    them, the one a polygon crop of the product is fed with, raises
    [AttributeError] on every query. *)
Theorem transformed_grids_deleted (c : Polymer.Subclass) (p : string)
  (bph : option BridgePointsHandler.t) (cwm : option CleanWaterMaskHandler.t)
  (nc_data : Polymer.Dataset) (h : Polymer.t) :
  Polymer.__init__ c p bph cwm nc_data = Ok h ->
  Polymer._transformed_lon h = None /\
  Polymer._transformed_lat h = None /\
  forall longitude latitude,
    Polymer._get_row_col_index_after_transformation_from_longitide_latitude
      h longitude latitude = Raise AttributeError.
Proof.
  unfold Polymer.__init__. intros Hinit.
  apply bind_Ok in Hinit as (loaded & _ & Hinit).
  apply bind_Ok in Hinit as (blue & _ & Hinit).
  apply bind_Ok in Hinit as (transformed & _ & Hinit).
  apply bind_Ok in Hinit as (tlon & _ & Hinit).
  apply bind_Ok in Hinit as (tlat & _ & Hinit).
  apply bind_Ok in Hinit as (subset & _ & Hinit).
  apply bind_Ok in Hinit as (tci & _ & Hret).
  injection Hret as <-. repeat split.
Qed.

(** ** The nearest-grid resolver on a grid without cells *)

Lemma concat_zip_map_nil {A B C D} (f : A -> C) (g : C -> D -> B)
  (lo : list (list A)) (la : list (list D)) :
  concat lo = [] ->
  concat (zip_with (zip_with g) (map (map f) lo) la) = [].
Proof.
  revert la. induction lo as [|row lo IH]; intros la Hnil; simpl in *.
  - reflexivity.
  - apply app_eq_nil in Hnil as [-> Hnil].
    destruct la as [|rla la]; simpl; [reflexivity|]. now apply IH.
Qed.

(** X8.  A query against longitude and latitude grids without a cell (no
    row, or rows without columns) raises [ValueError]: there is no minimum
    to take, and no index comes back. *)
Theorem nearest_grid_without_cells_raises (self : Polymer.t)
  (lo la : list (list Q)) (longitude latitude : Q) :
  Polymer.lon self = Ok (Arr2 lo) ->
  Polymer.lat self = Ok (Arr2 la) ->
  concat lo = [] ->
  Polymer.get_row_col_index_from_longitide_latitude self longitude latitude
    = Raise ValueError.
Proof.
  intros Hlon Hlat Hnil.
  unfold Polymer.get_row_col_index_from_longitide_latitude.
  rewrite Hlon, Hlat. simpl mbind. unfold nearest_grid_index. simpl nd_map.
  unfold nd_zip_with. destruct (decide _); [|reflexivity].
  simpl. now rewrite concat_zip_map_nil.
Qed.

(** ** The date of the netCDF family *)

(** X9.  The date of a netCDF-family product is the sensing time with every
    space turned into a [T]: same length, no space left, every other
    character in its place. *)
Theorem date_has_no_space (self : Polymer.t) :
  String.length (Polymer.date self) = String.length (Polymer._date self) /\
  forall n,
    String.get n (Polymer.date self) <> Some Space /\
    (String.get n (Polymer._date self) = Some Space ->
     String.get n (Polymer.date self) = Some "T"%char) /\
    (forall a, a <> Space -> String.get n (Polymer._date self) = Some a ->
               String.get n (Polymer.date self) = Some a).
Proof.
  unfold Polymer.date. generalize (Polymer._date self). intros s. split.
  - induction s as [|a s IH]; simpl; [reflexivity|]. now rewrite IH.
  - induction s as [|a s IH]; intros n; simpl.
    + repeat split; try discriminate.
    + destruct n as [|n]; simpl; [|apply IH].
      destruct (Ascii.eqb a Space) eqn:Ha.
      * apply Ascii.eqb_eq in Ha as ->. repeat split; try discriminate.
        intros a Hne [= <-]. contradiction.
      * apply Ascii.eqb_neq in Ha. repeat split.
        -- intros [= ->]. contradiction.
        -- intros [= ->]. contradiction.
        -- intros a' _ [= <-]. reflexivity.
Qed.

(** ** The colour composite of the netCDF family *)

Lemma interp_0_015_range (x : Q) :
  (0 <= interp_0_015 x)%Q /\ (interp_0_015 x <= 1)%Q.
Proof.
  unfold interp_0_015. destruct (Qle_bool x 0) eqn:H0; [split; lra|].
  destruct (Qle_bool (15 # 100) x) eqn:H1; [split; lra|].
  assert (Hx0 : (0 < x)%Q).
  { destruct (Qlt_le_dec 0 x) as [H|H]; [exact H|].
    apply Qle_bool_iff in H. congruence. }
  assert (Hx1 : (x < 15 # 100)%Q).
  { destruct (Qlt_le_dec x (15 # 100)) as [H|H]; [exact H|].
    apply Qle_bool_iff in H. congruence. }
  split; [apply Qle_shift_div_l; lra | apply Qle_shift_div_r; lra].
Qed.

Lemma rint_range (y : Q) :
  (0 <= y)%Q -> (y <= 255)%Q -> 0 <= rint y <= 255.
Proof.
  intros H0 H255. unfold rint.
  pose proof (Qfloor_le y) as Hf. pose proof (Qlt_floor y) as Hf'.
  assert (Hlo : 0 <= Qfloor y).
  { change 0 with (Qfloor 0). now apply Qfloor_resp_le. }
  assert (Hhi : Qfloor y <= 255).
  { change 255 with (Qfloor 255). now apply Qfloor_resp_le. }
  assert (Hstep : (inject_Z (Qfloor y) < y)%Q -> Qfloor y + 1 <= 255).
  { intros Hlt. assert (H : (inject_Z (Qfloor y) < inject_Z 255)%Q)
      by (eapply Qlt_le_trans; eauto).
    rewrite <- Zlt_Qlt in H. lia. }
  destruct (Qle_bool (y - inject_Z (Qfloor y)) (1 # 2)) eqn:Hle.
  - destruct (Qeq_bool (y - inject_Z (Qfloor y)) (1 # 2)) eqn:Heq; [|lia].
    destruct (Z.even (Qfloor y)); [lia|].
    apply Qeq_bool_iff in Heq.
    assert (Hlt : (inject_Z (Qfloor y) < y)%Q) by lra.
    specialize (Hstep Hlt). lia.
  - assert (Hlt : (inject_Z (Qfloor y) < y)%Q).
    { destruct (Qlt_le_dec (1 # 2) (y - inject_Z (Qfloor y))) as [H|H];
        [lra|]. apply Qle_bool_iff in H. congruence. }
    specialize (Hstep Hlt). lia.
Qed.

Lemma ubyte_interp_range (x : Q) :
  exists n, ubyte (interp_0_015 x) = inject_Z n /\ 0 <= n <= 255.
Proof.
  destruct (interp_0_015_range x) as [H0 H1].
  exists (rint (interp_0_015 x * 255)). split; [reflexivity|].
  apply rint_range; lra.
Qed.

(** The pixel of the stacked array is the triple of the three planes. *)
Lemma stack_channels_lookup (r g b t : band) (i j k : nat) :
  stack_channels r g b = Ok t ->
  nd_lookup t [i; j; k] =
    vr ← nd_lookup r [i; j];
    vg ← nd_lookup g [i; j];
    vb ← nd_lookup b [i; j];
    [vr; vg; vb] !! k.
Proof.
  destruct r as [rr|rr], g as [gg|gg], b as [bb|bb]; simpl; try discriminate.
  destruct (decide _); [|discriminate]. intros [= <-]. simpl.
  repeat (rewrite ?lookup_zip_with; case_lookup); congruence.
Qed.

Lemma ubyte_interp_low (x : Q) :
  (x <= 0)%Q -> ubyte (interp_0_015 x) = 0%Q.
Proof.
  intros Hx. unfold interp_0_015.
  now rewrite (proj2 (Qle_bool_iff x 0) Hx).
Qed.

Lemma ubyte_interp_high (x : Q) :
  (15 # 100 <= x)%Q -> ubyte (interp_0_015 x) = 255%Q.
Proof.
  intros Hx. unfold interp_0_015.
  destruct (Qle_bool x 0) eqn:H0.
  - apply Qle_bool_iff in H0. lra.
  - now rewrite (proj2 (Qle_bool_iff (15 # 100) x) Hx).
Qed.

(** X10.  The colour composite is computed from the red, green and blue
    bands of the product: it has their rows and columns; every value in it
    is an integer from 0 to 255; and where the three bands have a cell, the
    composite has a pixel of three channels, in the order red, green, blue,
    of which a channel is 0 when the reflectance of its band is not
    positive and 255 when that reflectance is 0.15 or more. *)
Theorem true_color_image_is_rgb_bytes (self : Polymer.t) (tci : band) :
  Polymer._get_true_color_image self = Ok tci ->
  exists red green blue,
    Polymer.red_band self = Ok red /\
    Polymer.green_band self = Ok green /\
    Polymer.blue_band self = Ok blue /\
    extent tci = extent red /\
    (forall i j k v,
        nd_lookup tci [i; j; k] = Some v ->
        exists n, v = inject_Z n /\ 0 <= n <= 255) /\
    (forall i j k b vb,
        [red; green; blue] !! k = Some b ->
        nd_lookup red [i; j] <> None ->
        nd_lookup green [i; j] <> None ->
        nd_lookup blue [i; j] <> None ->
        nd_lookup b [i; j] = Some vb ->
        exists v,
          nd_lookup tci [i; j; k] = Some v /\
          ((vb <= 0)%Q -> v = 0%Q) /\
          ((15 # 100 <= vb)%Q -> v = 255%Q)).
Proof.
  unfold Polymer._get_true_color_image. intros Htci.
  apply bind_Ok in Htci as (red & Hred & Htci).
  apply bind_Ok in Htci as (green & Hgreen & Htci).
  apply bind_Ok in Htci as (blue & Hblue & Htci).
  apply bind_Ok in Htci as (stacked & Hstack & Hret). injection Hret as <-.
  exists red, green, blue. split; [exact Hred|]. split; [exact Hgreen|].
  split; [exact Hblue|].
  assert (Hcell : forall i j k,
            nd_lookup (nd_map ubyte stacked) [i; j; k] =
              vr ← nd_lookup red [i; j];
              vg ← nd_lookup green [i; j];
              vb ← nd_lookup blue [i; j];
              (fun v => ubyte (interp_0_015 v)) <$> [vr; vg; vb] !! k).
  { intros i j k.
    rewrite nd_lookup_nd_map, (stack_channels_lookup _ _ _ _ i j k Hstack).
    rewrite !nd_lookup_nd_map.
    destruct (nd_lookup red [i; j]) as [vr|]; simpl; [|reflexivity].
    destruct (nd_lookup green [i; j]) as [vg|]; simpl; [|reflexivity].
    destruct (nd_lookup blue [i; j]) as [vb|]; simpl; [|reflexivity].
    destruct k as [|[|[|k]]]; reflexivity. }
  split.
  { rewrite extent_nd_map, (stack_channels_extent _ _ _ _ Hstack).
    apply extent_nd_map. }
  split.
  - intros i j k v Hv. rewrite Hcell in Hv.
    destruct (nd_lookup red [i; j]) as [vr|]; simpl in Hv; [|discriminate].
    destruct (nd_lookup green [i; j]) as [vg|]; simpl in Hv; [|discriminate].
    destruct (nd_lookup blue [i; j]) as [vb|]; simpl in Hv; [|discriminate].
    destruct k as [|[|[|k]]]; simpl in Hv; try discriminate;
      injection Hv as <-; apply ubyte_interp_range.
  - intros i j k b vb Hk Hr Hg Hb Hvb. rewrite Hcell.
    destruct (nd_lookup red [i; j]) as [vr|] eqn:Er; [|contradiction].
    destruct (nd_lookup green [i; j]) as [vg|] eqn:Eg; [|contradiction].
    destruct (nd_lookup blue [i; j]) as [vb'|] eqn:Eb; [|contradiction].
    simpl.
    destruct k as [|[|[|k]]]; simpl in Hk; try discriminate;
      injection Hk as <-;
      match goal with
      | E : nd_lookup ?b [i; j] = Some ?w, H : nd_lookup ?b [i; j] = Some vb
        |- _ => rewrite E in H; injection H as ->
      end;
      (eexists; split; [reflexivity|];
       split; [apply ubyte_interp_low | apply ubyte_interp_high]).
Qed.

(** ** Round trips of the netCDF family *)

Lemma normalize_index_of_nat (n i : nat) :
  (i < n)%nat -> normalize_index n (Z.of_nat i) = Ok i.
Proof.
  intros Hlt. unfold normalize_index.
  replace (0 <=? Z.of_nat i) with true by lia.
  replace (Z.of_nat i <? Z.of_nat n) with true by lia.
  simpl. now rewrite Nat2Z.id.
Qed.


(** A cell of an array whose rows have one length lies inside its
    extent. *)
Lemma nd_lookup_lt (rows : list (list Q)) (r c : nat) (v : Q) :
  rectangular (Arr2 rows) ->
  nd_lookup (Arr2 rows) [r; c] = Some v ->
  (r < length rows)%nat /\ (c < row_length rows)%nat.
Proof.
  simpl. intros Hrect Hv.
  destruct (rows !! r) as [row|] eqn:Hrow; simpl in Hv; [|discriminate].
  split; [eapply lookup_lt_Some; eauto|].
  rewrite <- (proj1 (Forall_forall _ _) Hrect row)
    by (eapply list_elem_of_lookup_2; eauto).
  eapply lookup_lt_Some; eauto.
Qed.

(** Reading a cell at natural indices that fit a C long, on an array whose
    rows have one length, is the lookup of that cell. *)
Lemma getitem2_of_nat (rows : list (list Q)) (r c : nat) (v : Q) :
  rectangular (Arr2 rows) ->
  Z.of_nat r < 2 ^ 63 -> Z.of_nat c < 2 ^ 63 ->
  nd_lookup (Arr2 rows) [r; c] = Some v ->
  getitem2 (Arr2 rows) (Z.of_nat r) (Z.of_nat c) = Ok (Scalar v).
Proof.
  intros Hrect Hfr Hfc Hv.
  destruct (nd_lookup_lt rows r c v Hrect Hv) as [Hr Hc].
  unfold getitem2.
  rewrite (as_intp_fits (Z.of_nat r)) by lia. cbn [mbind result_bind].
  rewrite (as_intp_fits (Z.of_nat c)) by lia. cbn [mbind result_bind].
  unfold getitem2_rows.
  rewrite (normalize_index_of_nat (length rows) r Hr). cbn [mbind result_bind].
  rewrite (normalize_index_of_nat (row_length rows) c Hc).
  cbn [mbind result_bind].
  simpl in Hv. destruct (rows !! r) as [row|]; simpl in Hv; [|discriminate].
  now rewrite Hv.
Qed.





(** X12.  Geo-coordinate to pixel and back, netCDF family.  Whatever the
    arithmetic of the floats, on longitude and latitude arrays of one shape
    with at least one cell and no more rows or columns than a C long
    counts, the forward query of any point gives a pixel at which the
    inverse query succeeds, and the coordinates it answers are those of a
    grid cell whose computed squared distance from the point is the least
    computed one. *)
Theorem grid_geo_to_pixel_and_back (A : Arithmetic) (self : Polymer.t)
  (lo la : list (list Q)) (longitude latitude : Q) :
  Polymer.lon self = Ok (Arr2 lo) ->
  Polymer.lat self = Ok (Arr2 la) ->
  rectangular (Arr2 lo) -> rectangular (Arr2 la) ->
  dims (Arr2 lo) = dims (Arr2 la) ->
  (exists i j v, nd_lookup (Arr2 lo) [i; j] = Some v) ->
  Z.of_nat (length lo) <= 2 ^ 63 ->
  Z.of_nat (row_length lo) <= 2 ^ 63 ->
  exists row col glo gla,
    Polymer.get_row_col_index_from_longitide_latitude_in A self
      longitude latitude = Ok (row, col) /\
    Polymer.get_longitude_latitude_from_row_col_index self row col
      = Ok (Scalar glo, Scalar gla) /\
    forall r' c' lo' la',
      nd_lookup (Arr2 lo) [r'; c'] = Some lo' ->
      nd_lookup (Arr2 la) [r'; c'] = Some la' ->
      (squared_distance A longitude latitude glo gla
         <= squared_distance A longitude latitude lo' la')%Q.
Proof.
  intros Hlon Hlat Hrlo Hrla Hdims Hcell Hrows Hcols.
  destruct (nearest_grid_index_in_least A lo la longitude latitude Hdims Hcell)
    as (r & c & glo & gla & Hres & Hglo & Hgla & Hleast).
  destruct (nd_lookup_lt lo r c glo Hrlo Hglo) as [Hr Hc].
  exists (Z.of_nat r), (Z.of_nat c), glo, gla. split.
  { unfold Polymer.get_row_col_index_from_longitide_latitude_in.
    rewrite Hlon, Hlat. exact Hres. }
  split.
  { unfold Polymer.get_longitude_latitude_from_row_col_index.
    rewrite Hlon, Hlat. cbn [mbind result_bind].
    rewrite (getitem2_of_nat lo r c glo Hrlo) by (lia || exact Hglo).
    cbn [mbind result_bind].
    rewrite (getitem2_of_nat la r c gla Hrla) by (lia || exact Hgla).
    reflexivity. }
  intros r' c' lo' la' Hlo' Hla'. now apply (Hleast r' c' lo' la').
Qed.

(** ** What the loader of the netCDF family puts in the dict *)

Lemma fallback_first_present (vars : gmap string band) (codes : list string) :
  (exists code, code ∈ codes /\ is_Some (vars !! code)) ->
  exists before code after v,
    codes = before ++ code :: after /\
    Forall (fun k => vars !! k = None) before /\
    vars !! code = Some v /\
    Polymer.get_items_with_list_fallback (Some <$> vars) codes = Ok v.
Proof.
  induction codes as [|k codes IH]; intros (code & Hin & Hsome).
  - inversion Hin.
  - destruct (vars !! k) as [v|] eqn:Hk.
    + exists [], k, codes, v. simpl. rewrite dict_get_fmap_Some, Hk. auto.
    + destruct IH as (before & code' & after & v & -> & Hb & Hc & Hres).
      { exists code. split; [|exact Hsome].
        apply elem_of_cons in Hin as [->|Hin]; [|exact Hin].
        rewrite Hk in Hsome. now destruct Hsome. }
      exists (k :: before), code', after, v. simpl.
      rewrite dict_get_fmap_Some, Hk. auto.
Qed.

(** The loop of the loader over items with distinct band names: when every
    fallback list resolves, the loop succeeds and binds each band name to
    what its list resolved to, leaving other keys alone. *)
Lemma load_loop_spec (vars : gmap string band)
  (items : list (string * list string)) (d0 : gmap string band) :
  NoDup items.*1 ->
  (forall name codes, (name, codes) ∈ items ->
     is_Ok (Polymer.get_items_with_list_fallback (Some <$> vars) codes)) ->
  exists d,
    for_each (fun data_dict '(band_name, band_code_list) =>
                v ← Polymer.get_items_with_list_fallback (Some <$> vars)
                      band_code_list;
                Ok (<[band_name := v]> data_dict))
             items d0 = Ok d /\
    (forall name codes v, (name, codes) ∈ items ->
       Polymer.get_items_with_list_fallback (Some <$> vars) codes = Ok v ->
       d !! name = Some v) /\
    (forall name, name ∉ items.*1 -> d !! name = d0 !! name).
Proof.
  revert d0. induction items as [|[n cs] items IH]; intros d0 Hnd Hall.
  - exists d0. split; [reflexivity|]. split; [|reflexivity].
    intros name codes v Hin. inversion Hin.
  - simpl in Hnd. apply NoDup_cons in Hnd as [Hn Hnd].
    destruct (Hall n cs) as [v Hv]; [left|].
    destruct (IH (<[n := v]> d0) Hnd) as (d & Hrun & Hin & Hout).
    { intros name codes Hmem. apply (Hall name codes). now right. }
    exists d. split; [simpl; rewrite Hv; exact Hrun|]. split.
    + intros name codes w Hmem Hw.
      apply elem_of_cons in Hmem as [[= -> ->]|Hmem].
      * rewrite (Hout n Hn), lookup_insert_eq. congruence.
      * eapply Hin; eauto.
    + intros name Hname. simpl in Hname.
      apply not_elem_of_cons in Hname as [Hne Hname].
      rewrite (Hout name Hname). now apply lookup_insert_ne.
Qed.

Lemma polymer_band_names_distinct : NoDup Polymer.BAND_NAME_MAPPING.*1.
Proof. apply (bool_decide_unpack _). vm_compute. exact I. Qed.

(** X13.  When the dataset holds, for every band of [BAND_NAME_MAPPING],
    some code of its fallback list, loading succeeds: the date is the
    sensing time, each band is the variable of the first code of its list
    that the dataset holds, and the dict has no other band key. *)
Theorem load_takes_first_present_code (nc_data : Polymer.Dataset) :
  (forall name codes, (name, codes) ∈ Polymer.BAND_NAME_MAPPING ->
     exists code, code ∈ codes /\
                  is_Some (Polymer.variables nc_data !! code)) ->
  exists loaded,
    Polymer._load_nc_data_dict nc_data = Ok loaded /\
    Polymer.ld_date loaded = Polymer.sensing_time nc_data /\
    (forall name codes, (name, codes) ∈ Polymer.BAND_NAME_MAPPING ->
       exists before code after v,
         codes = before ++ code :: after /\
         Forall (fun k => Polymer.variables nc_data !! k = None) before /\
         Polymer.variables nc_data !! code = Some v /\
         Polymer.ld_bands loaded !! name = Some v) /\
    (forall name, is_Some (Polymer.ld_bands loaded !! name) ->
                  name ∈ Polymer.BAND_NAME_MAPPING.*1).
Proof.
  intros Hall.
  destruct (load_loop_spec (Polymer.variables nc_data)
              Polymer.BAND_NAME_MAPPING ∅ polymer_band_names_distinct)
    as (d & Hrun & Hin & Hout).
  { intros name codes Hmem.
    destruct (fallback_first_present _ codes (Hall name codes Hmem))
      as (_ & _ & _ & v & _ & _ & _ & Hv). now exists v. }
  exists {| Polymer.ld_date := Polymer.sensing_time nc_data;
            Polymer.ld_bands := d |}.
  split; [unfold Polymer._load_nc_data_dict; now rewrite Hrun|].
  split; [reflexivity|]. split.
  - intros name codes Hmem.
    destruct (fallback_first_present _ codes (Hall name codes Hmem))
      as (before & code & after & v & Hsplit & Hb & Hc & Hv).
    exists before, code, after, v. repeat split; auto.
    simpl. eapply Hin; eauto.
  - simpl. intros name [v Hv].
    destruct (decide (name ∈ Polymer.BAND_NAME_MAPPING.*1)) as [Hmem|Hno];
      [exact Hmem|].
    rewrite (Hout name Hno), lookup_empty in Hv. discriminate.
Qed.

(** ** The keys of a raster-family product *)

Lemma sentinel_init_keys `{Pyproj} (c : Sentinel.Subclass) (zip : string)
  (bph : option BridgePointsHandler.t) (loaded : Sentinel.LoadedData)
  (h : Sentinel.t) :
  Sentinel.__init__ c zip bph loaded = Ok h ->
  exists final,
    Sentinel._subset_transformed_data_dict h = Some final /\
    (forall name, is_Some (final !! name) ->
                  name ∈ Sentinel.BAND_NAME_MAPPING.*1) /\
    (forall name, name ∈ Sentinel.BAND_NAME_MAPPING.*1 ->
                  is_Some (Sentinel.ld_bands loaded !! name)).
Proof.
  unfold Sentinel.__init__. intros Hinit.
  apply bind_Ok in Hinit as (blue & _ & Hinit).
  apply bind_Ok in Hinit as (transformed & Htr & Hinit).
  apply bind_Ok in Hinit as (subset & Hsub & Hret).
  injection Hret as <-. simpl. exists subset. split; [reflexivity|].
  unfold Sentinel._apply_image_transformation_list in Htr.
  apply bind_Ok in Htr as ([l1 t1] & Hpass1 & Hret1). injection Hret1 as ->.
  unfold Sentinel._apply_image_wkt_polygone_subset in Hsub.
  apply bind_Ok in Hsub as ([l2 t2] & Hpass2 & Hret2). injection Hret2 as ->.
  split.
  - intros name [b Hb].
    now destruct (band_pass_keys _ _ _ _ _ _ _ Hpass2 Hb) as [Hname _].
  - intros name Hname.
    destruct (band_pass_spec _ _ _ _ _ _ Hpass1) as [Hin _].
    destruct (Hin name Hname) as (b & b' & Hb & _). now exists b.
Qed.

(** X14.  A raster-family product is constructed only from a dict that
    holds all seven bands of [BAND_NAME_MAPPING], and its final dict has
    exactly those seven keys, whatever else the loaded dict held. *)
Theorem sentinel_product_has_the_seven_bands `{Pyproj}
  (c : Sentinel.Subclass) (zip : string) (bph : option BridgePointsHandler.t)
  (loaded : Sentinel.LoadedData) (h : Sentinel.t) :
  Sentinel.__init__ c zip bph loaded = Ok h ->
  (forall name, name ∈ Sentinel.BAND_NAME_MAPPING.*1 ->
                is_Some (Sentinel.ld_bands loaded !! name)) /\
  exists final,
    Sentinel._subset_transformed_data_dict h = Some final /\
    forall name, is_Some (final !! name) <->
                 name ∈ Sentinel.BAND_NAME_MAPPING.*1.
Proof.
  intros Hinit.
  destruct (sentinel_init_keys _ _ _ _ _ Hinit) as (final & Hfinal & Hk & Hl).
  destruct (sentinel_init_bands _ _ _ _ _ Hinit)
    as (_ & final' & _ & _ & _ & Hfinal' & Hkeys & _).
  split; [exact Hl|]. exists final. split; [exact Hfinal|].
  intros name. split; [apply Hk|].
  assert (final' = final) as -> by congruence. apply Hkeys.
Qed.

(** X15.  For a class without transformations whose crop hands every band
    back unchanged (the whole-scene class), the final bands are the loaded
    bands: each of the seven names is bound to the array the loader gave. *)
Theorem whole_scene_bands_are_the_loaded_bands `{Pyproj}
  (c : Sentinel.Subclass) (zip : string) (bph : option BridgePointsHandler.t)
  (loaded : Sentinel.LoadedData) (h : Sentinel.t) :
  Sentinel.__init__ c zip bph loaded = Ok h ->
  (forall shp, Sentinel._image_transformation_list c shp = []) ->
  (forall f b, apply_transformation_to_band
                 (Sentinel._image_wkt_polygone_subset c f) b = Ok b) ->
  exists final,
    Sentinel._subset_transformed_data_dict h = Some final /\
    forall name,
      final !! name =
        if decide (name ∈ Sentinel.BAND_NAME_MAPPING.*1)
        then Sentinel.ld_bands loaded !! name else None.
Proof.
  intros Hinit Hlist Hcrop.
  destruct (sentinel_init_keys _ _ _ _ _ Hinit) as (final & Hfinal & Hk & _).
  destruct (sentinel_init_bands _ _ _ _ _ Hinit)
    as (_ & final' & blue & f & _ & Hfinal' & Hkeys & Hbands).
  assert (final' = final) as -> by congruence.
  exists final. split; [exact Hfinal|]. intros name.
  destruct (decide (name ∈ Sentinel.BAND_NAME_MAPPING.*1)) as [Hname|Hno].
  - destruct (Hkeys name Hname) as [b'' Hb''].
    destruct (Hbands name b'' Hb'') as (b & b' & Hb & Hl & Hc).
    rewrite Hlist in Hl. simpl in Hl. injection Hl as <-.
    rewrite Hcrop in Hc. injection Hc as <-. congruence.
  - destruct (final !! name) as [b|] eqn:Hb; [|reflexivity].
    exfalso. apply Hno, Hk. now exists b.
Qed.

(** ** Errors of the forward query and of the mask composition *)

(** X16.  On a product whose affine matrix has determinant zero, every
    forward query raises [TransformNotInvertibleError], before any
    transformation of the class is asked. *)
Theorem singular_matrix_fails_forward_query `{Pyproj} (self : Sentinel.t)
  (longitude latitude : Q) :
  (determinant (Sentinel.affine_matrix self) == 0)%Q ->
  Sentinel.get_row_col_index_from_longitide_latitude self longitude latitude
    = Raise TransformNotInvertibleError.
Proof.
  intros Hdet.
  unfold Sentinel.get_row_col_index_from_longitide_latitude,
    Sentinel._get_row_col_index_after_transformation_from_longitide_latitude,
    Sentinel.index_function, affine_invert.
  destruct (project_epsg4326_to_epsg_32620 longitude latitude) as [x y].
  apply Qeq_bool_iff in Hdet. now rewrite Hdet.
Qed.

Lemma nd_zip_with_mismatch {A B C} (f : A -> B -> C) (a : ndarray A)
  (b : ndarray B) :
  same_rank a b = false \/ dims a <> dims b ->
  nd_zip_with f a b = Raise ValueError.
Proof.
  destruct a as [ra|ra], b as [rb|rb]; simpl; intros [Hr|Hd];
    try discriminate; try reflexivity;
    destruct (decide _); try reflexivity; contradiction.
Qed.

(** X17.  With both providers attached and a bridge mask computed, a
    stored clean-water mask whose number of axes or whose shape differs
    from the bridge mask's makes the composition raise [ValueError]: no mask
    of a part of the image comes back. *)
Theorem composed_mask_shape_mismatch_raises (self : Polymer.t)
  (bph : BridgePointsHandler.t) (cwm : CleanWaterMaskHandler.t)
  (shp : list nat) (m1 : mask) :
  Polymer.bridge_points_handler self = Some bph ->
  Polymer.clean_water_mask_handler self = Some cwm ->
  Polymer.image_shape self = Ok shp ->
  BridgePointsHandler.get_valid_points_mask bph shp = Ok m1 ->
  same_rank m1 (CleanWaterMaskHandler.water_mask cwm) = false \/
  dims m1 <> dims (CleanWaterMaskHandler.water_mask cwm) ->
  Polymer.get_water_mask_from_bridge_and_clean_water_mask_handler self
    = Raise ValueError.
Proof.
  intros Hb Hc Hshp Hm1 Hdiff.
  unfold Polymer.get_water_mask_from_bridge_and_clean_water_mask_handler.
  rewrite Hb, Hc, Hshp. cbn [mbind result_bind]. rewrite Hm1.
  cbn [mbind result_bind app numpy_all_axis0 for_each].
  rewrite nd_zip_with_mismatch; [reflexivity|].
  unfold CleanWaterMaskHandler.get_valid_points_mask.
  rewrite !dims_nd_map.
  destruct Hdiff as [Hr|Hd]; [left|right; exact Hd].
  destruct m1, (CleanWaterMaskHandler.water_mask cwm); simpl in *; congruence.
Qed.

(** ** The further properties on the sample products *)

Lemma index_function_cuts_towards_zero_witness :
  affine_invert_in binary64
    (Sentinel.affine_matrix (Samples.general_product Samples.tile_affine))
    = Ok Samples.tile_affine_inverse /\
  Sentinel.index_function_in binary64
    (Samples.general_product Samples.tile_affine)
    Samples.below_429960 5200020 = Ok (0, 3000) /\
  (Samples.below_429960 < 429960)%Q /\
  exists row col,
    Sentinel.index_function_in binary64
      (Samples.general_product Samples.tile_affine)
      Samples.below_429960 5200020 = Ok (row, col) /\
    let frow := snd (affine_mul_in binary64 Samples.tile_affine_inverse
                       (Samples.below_429960, 5200020%Q)) in
    let fcol := fst (affine_mul_in binary64 Samples.tile_affine_inverse
                       (Samples.below_429960, 5200020%Q)) in
    ((0 <= frow)%Q ->
     (inject_Z row <= frow)%Q /\ (frow < inject_Z (row + 1))%Q) /\
    ((0 <= fcol)%Q ->
     (inject_Z col <= fcol)%Q /\ (fcol < inject_Z (col + 1))%Q) /\
    ((inject_Z (-1) < frow)%Q -> (frow < 1)%Q -> row = 0) /\
    ((inject_Z (-1) < fcol)%Q -> (fcol < 1)%Q -> col = 0).
Proof.
  assert (H1 : affine_invert_in binary64
                 (Sentinel.affine_matrix
                    (Samples.general_product Samples.tile_affine))
               = Ok Samples.tile_affine_inverse)
    by (vm_compute; reflexivity).
  split; [exact H1|].
  split; [vm_compute; reflexivity|]. split; [vm_compute; reflexivity|].
  exact (index_function_cuts_towards_zero binary64
           (Samples.general_product Samples.tile_affine)
           Samples.tile_affine_inverse Samples.below_429960 5200020 H1).
Defined.

Lemma bridge_mask_false_at_points_witness :
  BridgePointsHandler.get_valid_points_mask Samples.sample_bridge_points
    [2; 3]%nat = Ok (Arr2 [[true; false; true]; [true; true; true]]) /\
  shape (Arr2 [[true; false; true]; [true; true; true]]) = [2; 3]%nat /\
  forall i j, (i < 2)%nat -> (j < 3)%nat ->
    ((exists pr pc,
         (pr, pc) ∈ BridgePointsHandler.points_list Samples.sample_bridge_points /\
         normalize_index 2 pr = Ok i /\ normalize_index 3 pc = Ok j) /\
     nd_lookup (Arr2 [[true; false; true]; [true; true; true]]) [i; j]
       = Some false) \/
    (~ (exists pr pc,
           (pr, pc) ∈ BridgePointsHandler.points_list Samples.sample_bridge_points /\
           normalize_index 2 pr = Ok i /\ normalize_index 3 pc = Ok j) /\
     nd_lookup (Arr2 [[true; false; true]; [true; true; true]]) [i; j]
       = Some true).
Proof.
  assert (H : BridgePointsHandler.get_valid_points_mask
                Samples.sample_bridge_points [2; 3]%nat
              = Ok (Arr2 [[true; false; true]; [true; true; true]]))
    by reflexivity.
  split; [exact H|].
  exact (bridge_mask_false_at_points _ _ _ _ H).
Defined.

Lemma bridge_mask_raises_IndexError_witness :
  (exists pr pc,
      (pr, pc) ∈ BridgePointsHandler.points_list Samples.stray_bridge_points /\
      (~ (- Z.of_nat 2 <= pr < Z.of_nat 2) \/
       ~ (- Z.of_nat 3 <= pc < Z.of_nat 3))) /\
  BridgePointsHandler.get_valid_points_mask Samples.stray_bridge_points
    [2; 3]%nat = Raise IndexError.
Proof.
  assert (H : exists pr pc,
             (pr, pc) ∈ BridgePointsHandler.points_list
                          Samples.stray_bridge_points /\
             (~ (- Z.of_nat 2 <= pr < Z.of_nat 2) \/
              ~ (- Z.of_nat 3 <= pc < Z.of_nat 3))).
  { exists 5, 0. split; [right; left|]. left. simpl. lia. }
  split; [exact H|].
  apply bridge_mask_raises_IndexError. right. exact H.
Defined.

Lemma composed_mask_is_bridge_and_stored_mask_witness :
  Polymer.image_shape
    (Samples.plain_polymer_product (Some Samples.sample_bridge_points)
       (Some Samples.sample_clean_water)) = Ok [2; 3]%nat /\
  BridgePointsHandler.get_valid_points_mask Samples.sample_bridge_points
    [2; 3]%nat = Ok (Arr2 [[true; false; true]; [true; true; true]]) /\
  Polymer.get_water_mask_from_bridge_and_clean_water_mask_handler
    (Samples.plain_polymer_product (Some Samples.sample_bridge_points)
       (Some Samples.sample_clean_water))
    = Ok (Some (Arr2 [[true; false; true]; [true; true; false]])) /\
  forall idx,
    nd_lookup (Arr2 [[true; false; true]; [true; true; false]]) idx =
      x ← nd_lookup (Arr2 [[true; false; true]; [true; true; true]]) idx;
      y ← nd_lookup (CleanWaterMaskHandler.water_mask
                       Samples.sample_clean_water) idx;
      Some (x && y).
Proof.
  assert (H1 : Polymer.image_shape
                 (Samples.plain_polymer_product
                    (Some Samples.sample_bridge_points)
                    (Some Samples.sample_clean_water)) = Ok [2; 3]%nat)
    by (vm_compute; reflexivity).
  assert (H2 : BridgePointsHandler.get_valid_points_mask
                 Samples.sample_bridge_points [2; 3]%nat
               = Ok (Arr2 [[true; false; true]; [true; true; true]]))
    by reflexivity.
  assert (H3 : Polymer.get_water_mask_from_bridge_and_clean_water_mask_handler
                 (Samples.plain_polymer_product
                    (Some Samples.sample_bridge_points)
                    (Some Samples.sample_clean_water))
               = Ok (Some (Arr2 [[true; false; true]; [true; true; false]])))
    by (vm_compute; reflexivity).
  split; [exact H1|]. split; [exact H2|]. split; [exact H3|].
  exact (composed_mask_is_bridge_and_stored_mask
           (Samples.plain_polymer_product (Some Samples.sample_bridge_points)
              (Some Samples.sample_clean_water))
           Samples.sample_bridge_points Samples.sample_clean_water _ _ _
           eq_refl eq_refl H1 H2 H3).
Defined.

Lemma transformed_grids_deleted_witness :
  Polymer.__init__ Samples.PlainPolymerImageHandler "S2A_polymer.nc" None None
    Samples.polymer_dataset = Ok (Samples.plain_polymer_product None None) /\
  Polymer._transformed_lon (Samples.plain_polymer_product None None) = None /\
  Polymer._transformed_lat (Samples.plain_polymer_product None None) = None /\
  forall longitude latitude,
    Polymer._get_row_col_index_after_transformation_from_longitide_latitude
      (Samples.plain_polymer_product None None) longitude latitude
      = Raise AttributeError.
Proof.
  assert (H : Polymer.__init__ Samples.PlainPolymerImageHandler
                "S2A_polymer.nc" None None Samples.polymer_dataset
              = Ok (Samples.plain_polymer_product None None))
    by (vm_compute; reflexivity).
  split; [exact H|].
  exact (transformed_grids_deleted _ _ _ _ _ _ H).
Defined.

Lemma nearest_grid_without_cells_raises_witness :
  Polymer.lon Samples.gridless_product = Ok (Arr2 []) /\
  Polymer.lat Samples.gridless_product = Ok (Arr2 []) /\
  Polymer.get_row_col_index_from_longitide_latitude Samples.gridless_product
    20 45 = Raise ValueError.
Proof.
  assert (H1 : Polymer.lon Samples.gridless_product = Ok (Arr2 []))
    by (vm_compute; reflexivity).
  assert (H2 : Polymer.lat Samples.gridless_product = Ok (Arr2 []))
    by (vm_compute; reflexivity).
  split; [exact H1|]. split; [exact H2|].
  exact (nearest_grid_without_cells_raises _ [] [] 20 45 H1 H2 eq_refl).
Defined.

Lemma true_color_image_is_rgb_bytes_witness :
  Polymer._get_true_color_image (Samples.plain_polymer_product None None)
    = Ok (Arr3 [[Samples.colour_pixel; Samples.colour_pixel;
                 Samples.colour_pixel];
                [Samples.colour_pixel; Samples.colour_pixel;
                 Samples.colour_pixel]]) /\
  exists red green blue,
    Polymer.red_band (Samples.plain_polymer_product None None) = Ok red /\
    Polymer.green_band (Samples.plain_polymer_product None None) = Ok green /\
    Polymer.blue_band (Samples.plain_polymer_product None None) = Ok blue /\
    extent (Arr3 [[Samples.colour_pixel; Samples.colour_pixel;
                   Samples.colour_pixel];
                  [Samples.colour_pixel; Samples.colour_pixel;
                   Samples.colour_pixel]]) = extent red /\
    (forall i j k v,
        nd_lookup (Arr3 [[Samples.colour_pixel; Samples.colour_pixel;
                          Samples.colour_pixel];
                         [Samples.colour_pixel; Samples.colour_pixel;
                          Samples.colour_pixel]]) [i; j; k] = Some v ->
        exists n, v = inject_Z n /\ 0 <= n <= 255) /\
    (forall i j k b vb,
        [red; green; blue] !! k = Some b ->
        nd_lookup red [i; j] <> None ->
        nd_lookup green [i; j] <> None ->
        nd_lookup blue [i; j] <> None ->
        nd_lookup b [i; j] = Some vb ->
        exists v,
          nd_lookup (Arr3 [[Samples.colour_pixel; Samples.colour_pixel;
                            Samples.colour_pixel];
                           [Samples.colour_pixel; Samples.colour_pixel;
                            Samples.colour_pixel]]) [i; j; k] = Some v /\
          ((vb <= 0)%Q -> v = 0%Q) /\
          ((15 # 100 <= vb)%Q -> v = 255%Q)).
Proof.
  assert (H : Polymer._get_true_color_image
                (Samples.plain_polymer_product None None)
              = Ok (Arr3 [[Samples.colour_pixel; Samples.colour_pixel;
                           Samples.colour_pixel];
                          [Samples.colour_pixel; Samples.colour_pixel;
                           Samples.colour_pixel]]))
    by (vm_compute; reflexivity).
  split; [exact H|].
  exact (true_color_image_is_rgb_bytes _ _ H).
Defined.


Lemma grid_geo_to_pixel_and_back_witness :
  Polymer.lon Samples.close_cells_product = Ok (Arr2 Samples.close_lon_rows) /\
  Polymer.lat Samples.close_cells_product = Ok (Arr2 Samples.close_lat_rows) /\
  rectangular (Arr2 Samples.close_lon_rows) /\
  rectangular (Arr2 Samples.close_lat_rows) /\
  Z.of_nat (length Samples.close_lon_rows) <= 2 ^ 63 /\
  Z.of_nat (row_length Samples.close_lon_rows) <= 2 ^ 63 /\
  exists row col glo gla,
    Polymer.get_row_col_index_from_longitide_latitude_in binary64
      Samples.close_cells_product Samples.east_of_middle (475 # 10)
      = Ok (row, col) /\
    Polymer.get_longitude_latitude_from_row_col_index
      Samples.close_cells_product row col = Ok (Scalar glo, Scalar gla) /\
    forall r' c' lo' la',
      nd_lookup (Arr2 Samples.close_lon_rows) [r'; c'] = Some lo' ->
      nd_lookup (Arr2 Samples.close_lat_rows) [r'; c'] = Some la' ->
      (squared_distance binary64 Samples.east_of_middle (475 # 10) glo gla
         <= squared_distance binary64 Samples.east_of_middle (475 # 10)
              lo' la')%Q.
Proof.
  assert (H1 : Polymer.lon Samples.close_cells_product
               = Ok (Arr2 Samples.close_lon_rows))
    by (vm_compute; reflexivity).
  assert (H2 : Polymer.lat Samples.close_cells_product
               = Ok (Arr2 Samples.close_lat_rows))
    by (vm_compute; reflexivity).
  assert (H3 : rectangular (Arr2 Samples.close_lon_rows))
    by (repeat constructor).
  assert (H4 : rectangular (Arr2 Samples.close_lat_rows))
    by (repeat constructor).
  assert (H5 : Z.of_nat (length Samples.close_lon_rows) <= 2 ^ 63)
    by (simpl; lia).
  assert (H6 : Z.of_nat (row_length Samples.close_lon_rows) <= 2 ^ 63)
    by (simpl; lia).
  split; [exact H1|]. split; [exact H2|]. split; [exact H3|].
  split; [exact H4|]. split; [exact H5|]. split; [exact H6|].
  apply (grid_geo_to_pixel_and_back binary64 _ _ _
           Samples.east_of_middle (475 # 10) H1 H2 H3 H4 eq_refl);
    [|exact H5|exact H6].
  exists 0%nat, 0%nat, (-129 # 2)%Q. reflexivity.
Defined.

Lemma load_takes_first_present_code_witness :
  (forall name codes, (name, codes) ∈ Polymer.BAND_NAME_MAPPING ->
     exists code, code ∈ codes /\
                  is_Some (Polymer.variables Samples.polymer_dataset !! code)) /\
  Polymer._load_nc_data_dict Samples.polymer_dataset
    = Ok Samples.polymer_loaded /\
  exists loaded,
    Polymer._load_nc_data_dict Samples.polymer_dataset = Ok loaded /\
    Polymer.ld_date loaded = Polymer.sensing_time Samples.polymer_dataset /\
    (forall name codes, (name, codes) ∈ Polymer.BAND_NAME_MAPPING ->
       exists before code after v,
         codes = before ++ code :: after /\
         Forall (fun k => Polymer.variables Samples.polymer_dataset !! k = None)
           before /\
         Polymer.variables Samples.polymer_dataset !! code = Some v /\
         Polymer.ld_bands loaded !! name = Some v) /\
    (forall name, is_Some (Polymer.ld_bands loaded !! name) ->
                  name ∈ Polymer.BAND_NAME_MAPPING.*1).
Proof.
  assert (H : forall name codes, (name, codes) ∈ Polymer.BAND_NAME_MAPPING ->
            exists code, code ∈ codes /\
              is_Some (Polymer.variables Samples.polymer_dataset !! code)).
  { intros name codes Hin. unfold Polymer.BAND_NAME_MAPPING in Hin.
    repeat (apply elem_of_cons in Hin as [Hin|Hin];
            [injection Hin as -> ->; eexists; split; [left|];
             vm_compute; eexists; reflexivity|]).
    inversion Hin. }
  split; [exact H|]. split; [exact polymer_dataset_loaded|].
  exact (load_takes_first_present_code Samples.polymer_dataset H).
Defined.

Lemma sentinel_product_has_the_seven_bands_witness :
  @Sentinel.__init__ Samples.no_reprojection Samples.TurnedSentinelImageHandler
    "S2A_MSIL2A.zip" None (Samples.sentinel_loaded Samples.unit_affine)
    = Ok Samples.turned_sentinel_product /\
  (forall name, name ∈ Sentinel.BAND_NAME_MAPPING.*1 ->
     is_Some (Sentinel.ld_bands (Samples.sentinel_loaded Samples.unit_affine)
                !! name)) /\
  exists final,
    Sentinel._subset_transformed_data_dict Samples.turned_sentinel_product
      = Some final /\
    forall name, is_Some (final !! name) <->
                 name ∈ Sentinel.BAND_NAME_MAPPING.*1.
Proof.
  assert (H : @Sentinel.__init__ Samples.no_reprojection
                Samples.TurnedSentinelImageHandler "S2A_MSIL2A.zip" None
                (Samples.sentinel_loaded Samples.unit_affine)
              = Ok Samples.turned_sentinel_product)
    by (vm_compute; reflexivity).
  split; [exact H|].
  exact (@sentinel_product_has_the_seven_bands Samples.no_reprojection
           _ _ _ _ _ H).
Defined.

Lemma whole_scene_bands_are_the_loaded_bands_witness :
  @Sentinel.__init__ Samples.no_reprojection Samples.GeneralSentinelImageHandler
    "S2A_MSIL2A.zip" None (Samples.sentinel_loaded Samples.unit_affine)
    = Ok (Samples.general_product Samples.unit_affine) /\
  exists final,
    Sentinel._subset_transformed_data_dict
      (Samples.general_product Samples.unit_affine) = Some final /\
    forall name,
      final !! name =
        if decide (name ∈ Sentinel.BAND_NAME_MAPPING.*1)
        then Sentinel.ld_bands (Samples.sentinel_loaded Samples.unit_affine)
               !! name
        else None.
Proof.
  assert (H : @Sentinel.__init__ Samples.no_reprojection
                Samples.GeneralSentinelImageHandler "S2A_MSIL2A.zip" None
                (Samples.sentinel_loaded Samples.unit_affine)
              = Ok (Samples.general_product Samples.unit_affine))
    by (vm_compute; reflexivity).
  split; [exact H|].
  apply (@whole_scene_bands_are_the_loaded_bands Samples.no_reprojection
           _ _ _ _ _ H).
  - intros shp. reflexivity.
  - intros f b. reflexivity.
Defined.

Lemma singular_matrix_fails_forward_query_witness :
  (determinant
     (Sentinel.affine_matrix (Samples.general_product Samples.flat_affine))
   == 0)%Q /\
  @Sentinel.get_row_col_index_from_longitide_latitude Samples.no_reprojection
    (Samples.general_product Samples.flat_affine) 500006 5199994
    = Raise TransformNotInvertibleError.
Proof.
  assert (H : (determinant
                 (Sentinel.affine_matrix
                    (Samples.general_product Samples.flat_affine)) == 0)%Q)
    by (vm_compute; reflexivity).
  split; [exact H|].
  exact (@singular_matrix_fails_forward_query Samples.no_reprojection
           _ 500006 5199994 H).
Defined.

Lemma composed_mask_shape_mismatch_raises_witness :
  Polymer.image_shape
    (Samples.plain_polymer_product (Some Samples.sample_bridge_points)
       (Some Samples.small_clean_water)) = Ok [2; 3]%nat /\
  BridgePointsHandler.get_valid_points_mask Samples.sample_bridge_points
    [2; 3]%nat = Ok (Arr2 [[true; false; true]; [true; true; true]]) /\
  dims (Arr2 [[true; false; true]; [true; true; true]])
    <> dims (CleanWaterMaskHandler.water_mask Samples.small_clean_water) /\
  Polymer.get_water_mask_from_bridge_and_clean_water_mask_handler
    (Samples.plain_polymer_product (Some Samples.sample_bridge_points)
       (Some Samples.small_clean_water)) = Raise ValueError.
Proof.
  assert (H1 : Polymer.image_shape
                 (Samples.plain_polymer_product
                    (Some Samples.sample_bridge_points)
                    (Some Samples.small_clean_water)) = Ok [2; 3]%nat)
    by (vm_compute; reflexivity).
  assert (H2 : BridgePointsHandler.get_valid_points_mask
                 Samples.sample_bridge_points [2; 3]%nat
               = Ok (Arr2 [[true; false; true]; [true; true; true]]))
    by reflexivity.
  assert (H3 : dims (Arr2 [[true; false; true]; [true; true; true]])
               <> dims (CleanWaterMaskHandler.water_mask
                          Samples.small_clean_water))
    by (vm_compute; discriminate).
  split; [exact H1|]. split; [exact H2|]. split; [exact H3|].
  exact (composed_mask_shape_mismatch_raises
           (Samples.plain_polymer_product (Some Samples.sample_bridge_points)
              (Some Samples.small_clean_water))
           Samples.sample_bridge_points Samples.small_clean_water _ _
           eq_refl eq_refl H1 H2 (or_intror H3)).
Defined.
